(** * Entitlement-gated request handlers: cache, error classifier, checkout
      resolution and the PDF export route.

    A shallow embedding of the TypeScript sources
      - utils/cache            (MemoryCache)
      - utils/error-handler    (isAppError, ErrorHandler)
      - config/subscriptions   (SUBSCRIPTION_TIERS, CREDITS_TIERS)
      - app/api/creem/create-checkout/route.ts
      - app/api/generate-pdf/route.ts
    together with the properties the design document states about them.

    Conventions.  JavaScript strings are modelled as [string] (sequences of
    bytes, ASCII text for the most part); [toLowerCase] folds the letters A-Z
    only.  Builtins that can throw ([String], [encodeURIComponent], reading a
    member of a caught value) are modelled with their failure.  Numbers that the
    code uses as counters, balances and millisecond clocks are modelled as
    [Z].  A value that may be [undefined]/[null] is an [option].  Calls to
    collaborators outside the repository (the session, the database, the
    headless browser, the payment provider) are answered by a record of
    services that fixes what each call returns; [console.log] output, which
    only appears in development mode, is left out, [console.error] is kept. *)

From Stdlib Require Import ZArith String Ascii List Bool Lia DecimalString.
From stdpp Require Import gmap strings.
Import ListNotations.

Local Open Scope Z_scope.
Local Open Scope string_scope.

(* ===================================================================== *)
(** ** JavaScript string primitives used by the sources *)
(* ===================================================================== *)

Module Js.

(** [s.startsWith(p)] *)
Fixpoint startsWith (s p : string) : bool :=
  match p with
  | EmptyString => true
  | String c p' =>
      match s with
      | EmptyString => false
      | String d s' => if Ascii.eqb c d then startsWith s' p' else false
      end
  end.

(** [s.includes(needle)] *)
Fixpoint includes (s needle : string) : bool :=
  if startsWith s needle then true
  else match s with
       | EmptyString => false
       | String _ s' => includes s' needle
       end.

Definition lowerChar (c : ascii) : ascii :=
  let n := nat_of_ascii c in
  if ((65 <=? n)%nat && (n <=? 90)%nat)%bool then ascii_of_nat (n + 32) else c.

(** [s.toLowerCase()] on ASCII text *)
Fixpoint toLowerCase (s : string) : string :=
  match s with
  | EmptyString => EmptyString
  | String c s' => String (lowerChar c) (toLowerCase s')
  end.

(** Truthiness of a string: the empty string is falsy. *)
Definition truthy (s : string) : bool :=
  match s with EmptyString => false | _ => true end.

(** [o || d] for an optional string [o]: [undefined] and the empty string are falsy. *)
Definition orElse (o : option string) (d : string) : string :=
  match o with
  | Some s => if truthy s then s else d
  | None => d
  end.

(** Truthiness of an optional string ([undefined] and the empty string are falsy). *)
Definition present (o : option string) : bool :=
  match o with
  | Some s => truthy s
  | None => false
  end.

(** The one-character string holding a double quote. *)
Definition quote : string := String (ascii_of_nat 34) EmptyString.

End Js.

(* ===================================================================== *)
(** ** utils/cache: the process-local TTL map *)
(* ===================================================================== *)

Module MemoryCache.
Section WithPayload.

(** The payload type [T] of [CacheEntry<T>]. *)
Context {T : Type}.

Record CacheEntry : Type := mkEntry
  { data : T;
    timestamp : Z;   (* Date.now() at the time of the write, in ms *)
    ttl : Z }.

(** [private cache: Map<string, CacheEntry<any>>] *)
Abbreviation store := (gmap string CacheEntry).

(** The expiry test [Date.now() - entry.timestamp > entry.ttl]. *)
Definition expired (now : Z) (entry : CacheEntry) : bool :=
  now - timestamp entry >? ttl entry.

(** [set(key, data, ttlMs = 5 * 60 * 1000)]; [now] is [Date.now()]. *)
Definition set (now : Z) (key : string) (d : T) (ttlMs : option Z)
           (cache : store) : store :=
  let entry := {| data := d;
                  timestamp := now;
                  ttl := default (5 * 60 * 1000) ttlMs |} in
  <[key := entry]> cache.

(** [get(key)]: the value or [null], and the map after the call. *)
Definition get (now : Z) (key : string) (cache : store) : option T * store :=
  match cache !! key with
  | None => (None, cache)
  | Some entry =>
      if expired now entry
      then (None, base.delete key cache)
      else (Some (data entry), cache)
  end.

(** [has(key)] *)
Definition has (now : Z) (key : string) (cache : store) : bool * store :=
  match cache !! key with
  | None => (false, cache)
  | Some entry =>
      if expired now entry
      then (false, base.delete key cache)
      else (true, cache)
  end.

(** [cleanup()], the periodic sweep. *)
Definition cleanup (now : Z) (cache : store) : store :=
  filter (fun kv => expired now (snd kv) = false) cache.

(** [delete(key)] *)
Definition delete (key : string) (cache : store) : bool * store :=
  (bool_decide (is_Some (cache !! key)), base.delete key cache).

(** [clear()] *)
Definition clear (cache : store) : store := ∅.

End WithPayload.
Arguments CacheEntry T : clear implicits.
End MemoryCache.

(* ===================================================================== *)
(** ** utils/error-handler: typed errors and the classifier *)
(* ===================================================================== *)

Module ErrorHandler.

(** Run-time JavaScript values, as far as [handleError] inspects them.
    [VError m ps] is an instance of [Error] whose [message] is [m] and whose
    further own properties are [ps]; [VObject ps] is any other non-null
    object. *)
#[local] Set Warnings "-register-all".
Inductive JsValue : Type :=
| VUndefined
| VNull
| VBool (b : bool)
| VNumber (n : Z)
| VString (s : string)
| VFunction
| VArray (items : list JsValue)
| VObject (props : list (string * JsValue))
| VError (message : string) (props : list (string * JsValue)).

(** [typeof v] *)
Definition typeof (v : JsValue) : string :=
  match v with
  | VUndefined => "undefined"
  | VNull => "object"
  | VBool _ => "boolean"
  | VNumber _ => "number"
  | VString _ => "string"
  | VFunction => "function"
  | VArray _ | VObject _ | VError _ _ => "object"
  end.

Fixpoint lookupProp (name : string) (props : list (string * JsValue)) : JsValue :=
  match props with
  | [] => VUndefined
  | (k, v) :: rest => if String.eqb k name then v else lookupProp name rest
  end.

(** Property read [v.name]; a missing property reads as [undefined]. *)
Definition getProp (v : JsValue) (name : string) : JsValue :=
  match v with
  | VObject props => lookupProp name props
  | VError message props =>
      if String.eqb name "message" then VString message
      else lookupProp name props
  | _ => VUndefined
  end.

Inductive ErrorType : Type :=
| VALIDATION | AUTHENTICATION | AUTHORIZATION | RATE_LIMIT | PAYMENT
| EXTERNAL_SERVICE | DATABASE | NETWORK | INTERNAL | NOT_FOUND | CONFLICT.

Inductive ErrorSeverity : Type := LOW | MEDIUM | HIGH | CRITICAL.

(** The string values of the two enums. *)
Definition ErrorType_value (t : ErrorType) : string :=
  match t with
  | VALIDATION => "validation"
  | AUTHENTICATION => "authentication"
  | AUTHORIZATION => "authorization"
  | RATE_LIMIT => "rate_limit"
  | PAYMENT => "payment"
  | EXTERNAL_SERVICE => "external_service"
  | DATABASE => "database"
  | NETWORK => "network"
  | INTERNAL => "internal"
  | NOT_FOUND => "not_found"
  | CONFLICT => "conflict"
  end.

Definition ErrorSeverity_value (s : ErrorSeverity) : string :=
  match s with
  | LOW => "low" | MEDIUM => "medium" | HIGH => "high" | CRITICAL => "critical"
  end.

Record AppError : Type := mkAppError
  { type : ErrorType;
    severity : ErrorSeverity;
    message : string;
    userMessage : string;
    code : option string;
    details : option JsValue;
    suggestions : option (list string);
    retryable : bool }.

(** The [options] argument of [createError]. *)
Record Options : Type := mkOptions
  { opt_code : option string;
    opt_details : option JsValue;
    opt_suggestions : option (list string);
    opt_retryable : option bool;
    opt_severity : option ErrorSeverity }.

Definition noOptions : Options :=
  {| opt_code := None; opt_details := None; opt_suggestions := None;
     opt_retryable := None; opt_severity := None |}.

(** [isAppError]: the structural test for an already typed error. *)
Definition isAppError (error : JsValue) : bool :=
  if negb (String.eqb (typeof error) "object") then false
  else match error with
       | VNull => false
       | _ =>
           String.eqb (typeof (getProp error "type")) "string"
           && String.eqb (typeof (getProp error "userMessage")) "string"
       end.

Definition getDefaultSeverity (t : ErrorType) : ErrorSeverity :=
  match t with
  | VALIDATION => LOW
  | RATE_LIMIT | NETWORK | EXTERNAL_SERVICE => MEDIUM
  | AUTHENTICATION | AUTHORIZATION | PAYMENT | DATABASE => HIGH
  | _ => CRITICAL
  end.

Definition getDefaultRetryable (t : ErrorType) : bool :=
  match t with
  | VALIDATION | AUTHENTICATION | AUTHORIZATION => false
  | _ => true
  end.

(** [createError(type, userMessage, technicalMessage?, options = {})] *)
Definition createError (t : ErrorType) (userMsg : string)
    (technicalMessage : option string) (options : Options) : AppError :=
  {| type := t;
     severity := default (getDefaultSeverity t) (opt_severity options);
     message := Js.orElse technicalMessage userMsg;
     userMessage := userMsg;
     code := opt_code options;
     details := opt_details options;
     suggestions := opt_suggestions options;
     retryable := default (getDefaultRetryable t) (opt_retryable options) |}.

(** [classifyError(error, context?)]; [errorMessage] is [error.message]. *)
Definition classifyError (errorMessage : string) (context : option string) : AppError :=
  let message := Js.toLowerCase errorMessage in
  let contextLower :=
    match context with Some c => Js.toLowerCase c | None => EmptyString end in
  (* Authentication errors *)
  if Js.includes message "unauthorized" || Js.includes message "authentication"
     || Js.includes message "invalid token" || Js.includes message "jwt"
  then createError AUTHENTICATION "Please sign in to continue."
         (Some errorMessage)
         {| opt_code := Some "AUTH_REQUIRED"; opt_details := None;
            opt_suggestions := Some ["Sign in to your account";
                                     "Check if your session has expired"];
            opt_retryable := Some false; opt_severity := None |}
  (* Authorization errors *)
  else if Js.includes message "forbidden" || Js.includes message "access denied"
     || Js.includes message "insufficient permissions"
  then createError AUTHORIZATION "You don't have permission to perform this action."
         (Some errorMessage)
         {| opt_code := Some "ACCESS_DENIED"; opt_details := None;
            opt_suggestions := None;
            opt_retryable := Some false; opt_severity := None |}
  (* Rate limiting errors *)
  else if Js.includes message "rate limit" || Js.includes message "too many requests"
     || Js.includes message "quota exceeded"
  then createError RATE_LIMIT
         "You've made too many requests. Please wait a moment before trying again."
         (Some errorMessage)
         {| opt_code := Some "RATE_LIMIT_EXCEEDED"; opt_details := None;
            opt_suggestions := Some ["Wait a few minutes before trying again";
                                     "Consider upgrading your plan for higher limits"];
            opt_retryable := Some true; opt_severity := Some MEDIUM |}
  (* Payment errors *)
  else if Js.includes contextLower "payment" || Js.includes contextLower "checkout"
     || Js.includes message "payment" || Js.includes message "billing"
     || Js.includes message "creem"
  then createError PAYMENT
         "Payment processing failed. Please check your payment details and try again."
         (Some errorMessage)
         {| opt_code := Some "PAYMENT_FAILED"; opt_details := None;
            opt_suggestions := Some ["Check your payment method details";
                                     "Ensure you have sufficient funds";
                                     "Try a different payment method"];
            opt_retryable := Some true; opt_severity := Some HIGH |}
  (* Validation errors *)
  else if Js.includes message "validation" || Js.includes message "invalid"
     || Js.includes message "required" || Js.includes message "bad request"
  then createError VALIDATION "Please check your input and try again."
         (Some errorMessage)
         {| opt_code := Some "VALIDATION_ERROR"; opt_details := None;
            opt_suggestions := Some ["Double-check all form fields";
                                     "Ensure all required fields are filled";
                                     "Check for any invalid characters"];
            opt_retryable := Some false; opt_severity := Some LOW |}
  (* Network errors *)
  else if Js.includes message "network" || Js.includes message "fetch"
     || Js.includes message "connection" || Js.includes message "timeout"
  then createError NETWORK
         "Connection problem. Please check your internet connection and try again."
         (Some errorMessage)
         {| opt_code := Some "NETWORK_ERROR"; opt_details := None;
            opt_suggestions := Some ["Check your internet connection";
                                     "Try refreshing the page";
                                     "Wait a moment and try again"];
            opt_retryable := Some true; opt_severity := Some MEDIUM |}
  (* Database errors *)
  else if Js.includes contextLower "database" || Js.includes contextLower "supabase"
     || Js.includes message "database" || Js.includes message "constraint"
     || Js.includes message "duplicate"
  then createError DATABASE "Data storage error. Please try again."
         (Some errorMessage)
         {| opt_code := Some "DATABASE_ERROR"; opt_details := None;
            opt_suggestions := None;
            opt_retryable := Some true; opt_severity := Some HIGH |}
  (* External service errors (OpenAI, etc.) *)
  else if Js.includes contextLower "openai" || Js.includes contextLower "generation"
     || Js.includes message "openai" || Js.includes message "ai"
     || Js.includes message "api"
  then createError EXTERNAL_SERVICE
         "AI service is temporarily unavailable. Please try again in a few moments."
         (Some errorMessage)
         {| opt_code := Some "EXTERNAL_SERVICE_ERROR"; opt_details := None;
            opt_suggestions := Some ["Wait a few minutes and try again";
                                     "Try refreshing the page";
                                     "Contact support if the problem persists"];
            opt_retryable := Some true; opt_severity := Some MEDIUM |}
  (* Default internal error *)
  else createError INTERNAL "Something went wrong. Please try again."
         (Some errorMessage)
         {| opt_code := None; opt_details := None;
            opt_suggestions := Some ["Refresh the page and try again";
                                     "Contact support if the problem persists"];
            opt_retryable := Some true; opt_severity := Some HIGH |}.

(** The object literal that [createError] returns, as a run-time value. *)
Definition ofOption {A} (f : A -> JsValue) (o : option A) : JsValue :=
  match o with Some a => f a | None => VUndefined end.

Definition toValue (e : AppError) : JsValue :=
  VObject
    [ ("type", VString (ErrorType_value (type e)));
      ("severity", VString (ErrorSeverity_value (severity e)));
      ("message", VString (message e));
      ("userMessage", VString (userMessage e));
      ("code", ofOption VString (code e));
      ("details", ofOption (fun d => d) (details e));
      ("suggestions", ofOption (fun l => VArray (map VString l)) (suggestions e));
      ("retryable", VBool (retryable e)) ].

(** How a call ends: it returns a value, or it throws one. *)
Inductive Completion (A : Type) : Type :=
| Returns (a : A)
| Throws (thrown : JsValue).
Arguments Returns {A} a.
Arguments Throws {A} thrown.

Section HandleError.

(** [String(error)], JavaScript's conversion of an arbitrary value to text.
    It is not total: it calls the value's own [toString]/[valueOf], so it
    throws a [TypeError] for an object without a primitive conversion (one
    made by [Object.create(null)], say) and whatever a user-defined
    [toString] throws. *)
Variable String_ : JsValue -> Completion string.

(** [handleError(error, context?)].  The result is the run-time object the
    function returns: the argument itself on the pass-through path, a freshly
    created error object otherwise.  The template literal of the last branch
    is evaluated before [createError] is called, so a conversion that throws
    makes [handleError] throw the same value. *)
Definition handleError (error : JsValue) (context : option string)
  : Completion JsValue :=
  if isAppError error then Returns error
  else match error with
       | VError errorMessage _ => Returns (toValue (classifyError errorMessage context))
       | _ =>
           match String_ error with
           | Throws thrown => Throws thrown
           | Returns text =>
               Returns
                 (toValue
                    (createError INTERNAL
                       "An unexpected error occurred. Please try again."
                       (Some ("Unknown error: " ++ text))
                       {| opt_code := None; opt_details := None;
                          opt_suggestions := Some ["Refresh the page and try again";
                                                   "Check your internet connection"];
                          opt_retryable := Some true; opt_severity := Some HIGH |}))
           end
       end.

End HandleError.

(** [getStatusCode(type)] *)
Definition getStatusCode (t : ErrorType) : Z :=
  match t with
  | VALIDATION => 400
  | AUTHENTICATION => 401
  | AUTHORIZATION => 403
  | NOT_FOUND => 404
  | CONFLICT => 409
  | RATE_LIMIT => 429
  | _ => 500
  end.

(** *** The classification policy as an ordered rule table

    The design document describes the classifier as an ordered list of
    [(predicate, kind)] pairs evaluated first-match-wins.  [rules] is that
    table, in the documented priority order; [classifyByRules] evaluates it.
    A rule fires when one of its context keywords occurs in the lowercased
    context or one of its message keywords occurs in the lowercased
    message. *)
Record Rule : Type := mkRule
  { kind : ErrorType;
    contextKeywords : list string;
    messageKeywords : list string }.

Definition rules : list Rule :=
  [ mkRule AUTHENTICATION []
      ["unauthorized"; "authentication"; "invalid token"; "jwt"];
    mkRule AUTHORIZATION []
      ["forbidden"; "access denied"; "insufficient permissions"];
    mkRule RATE_LIMIT []
      ["rate limit"; "too many requests"; "quota exceeded"];
    mkRule PAYMENT ["payment"; "checkout"]
      ["payment"; "billing"; "creem"];
    mkRule VALIDATION []
      ["validation"; "invalid"; "required"; "bad request"];
    mkRule NETWORK []
      ["network"; "fetch"; "connection"; "timeout"];
    mkRule DATABASE ["database"; "supabase"]
      ["database"; "constraint"; "duplicate"];
    mkRule EXTERNAL_SERVICE ["openai"; "generation"]
      ["openai"; "ai"; "api"] ].

Definition fires (messageLower contextLower : string) (r : Rule) : bool :=
  existsb (Js.includes contextLower) (contextKeywords r)
  || existsb (Js.includes messageLower) (messageKeywords r).

Definition classifyByRules (errorMessage : string) (context : option string)
  : ErrorType :=
  let messageLower := Js.toLowerCase errorMessage in
  let contextLower := Js.toLowerCase (default EmptyString context) in
  match find (fires messageLower contextLower) rules with
  | Some r => kind r
  | None => INTERNAL
  end.

End ErrorHandler.

(* ===================================================================== *)
(** ** Sequential effects: state, exceptions and [try]/[catch] *)
(* ===================================================================== *)

Module Eff.

(** A thrown JavaScript value, as far as the handlers look at it: they ask
    [instanceof Error] and they put [.message] into a template literal.  An
    [Error] has a string for its message.  For any other value what counts
    is what interpolating its [message] member does: it yields a text
    ([undefined] when the value has no such member), or it throws in its
    turn, a [TypeError] when the value is [null] or [undefined], and
    whatever a getter or a [toString] of the member throws otherwise. *)
#[local] Set Warnings "-register-all".
Inductive Exn : Type :=
| ErrorWith (message : string)
| NonError (message : string + Exn).

(** [error instanceof Error ? error.message : 'Unknown error'] *)
Definition messageOf (e : Exn) : string :=
  match e with
  | ErrorWith m => m
  | NonError _ => "Unknown error"
  end.

Inductive Outcome (A : Type) : Type :=
| Returned (a : A)
| Thrown (e : Exn).
Arguments Returned {A} a.
Arguments Thrown {A} e.

(** A computation over a state [S] that returns or throws. *)
Definition M (S A : Type) : Type := S -> Outcome A * S.

Definition ret {S A} (a : A) : M S A := fun s => (Returned a, s).

Definition throw {S A} (e : Exn) : M S A := fun s => (Thrown e, s).

Definition bind {S A B} (m : M S A) (k : A -> M S B) : M S B :=
  fun s =>
    match m s with
    | (Returned a, s') => k a s'
    | (Thrown e, s') => (Thrown e, s')
    end.

(** [try { body } catch (e) { handler(e) }] *)
Definition tryCatch {S A} (body : M S A) (handler : Exn -> M S A) : M S A :=
  fun s =>
    match body s with
    | (Returned a, s') => (Returned a, s')
    | (Thrown e, s') => handler e s'
    end.

Definition lift {S A} (o : Outcome A) : M S A := fun s => (o, s).

Definition modify {S} (f : S -> S) : M S unit := fun s => (Returned tt, f s).

Definition gets {S A} (f : S -> A) : M S A := fun s => (Returned (f s), s).

(** The interpolation of [e.message] into a template literal, for a caught
    value [e]. *)
Definition messageText (e : Exn) : Outcome string :=
  match e with
  | ErrorWith m => Returned m
  | NonError (inl text) => Returned text
  | NonError (inr thrown) => Thrown thrown
  end.

End Eff.

Declare Scope eff_scope.
Delimit Scope eff_scope with eff.
Notation "'let*' x ':=' m 'in' k" :=
  (Eff.bind m (fun x => k))
  (at level 10, x name, m at level 100, k at level 200) : eff_scope.
Notation "m ';;' k" :=
  (Eff.bind m (fun _ => k))
  (at level 100, k at level 200, right associativity) : eff_scope.

(* ===================================================================== *)
(** ** config/subscriptions: the product tiers *)
(* ===================================================================== *)

Module Subscriptions.

(** [ProductTier]; its declaration lives in [types/subscriptions], the
    fields are those the two tables below populate. *)
Record ProductTier : Type := mkTier
  { name : string;
    id : string;
    productId : string;
    priceMonthly : string;
    description : string;
    creditAmount : option Z;
    features : list string;
    featured : bool;
    discountCode : string }.

(** [process.env]: a finite map from variable names to their values. *)
Abbreviation ProcessEnv := (gmap string string).

Section WithProcessEnv.

Variable env : ProcessEnv.

Definition SUBSCRIPTION_TIERS : list ProductTier :=
  [ {| name := "Starter";
       id := "tier-hobby";
       productId := Js.orElse (env !! "CREEM_STARTER_PRODUCT_ID") "prod_starter_monthly";
       priceMonthly := "$11";
       description := "Perfect for individuals wanting to explore Chinese names.";
       creditAmount := None;
       features := [ "10 Chinese name generations per month";
                     "Basic personality matching";
                     "Cultural significance explanations";
                     "PDF certificates";
                     "Email support";
                     "Name history tracking" ];
       featured := false;
       discountCode := EmptyString |};
    {| name := "Business";
       id := "tier-pro";
       productId := Js.orElse (env !! "CREEM_BUSINESS_PRODUCT_ID") "prod_business_monthly";
       priceMonthly := "$29";
       description := "Ideal for enthusiasts and professionals seeking quality Chinese names.";
       creditAmount := None;
       features := [ "Unlimited Chinese name generations";
                     "Advanced personality analysis";
                     "Deep cultural insights";
                     "Premium PDF certificates";
                     "Priority support";
                     "Batch generation (up to 18 names)";
                     "Name pronunciation audio";
                     "Custom name preferences" ];
       featured := true;
       discountCode := EmptyString |};
    {| name := "Enterprise";
       id := "tier-enterprise";
       productId := Js.orElse (env !! "CREEM_ENTERPRISE_PRODUCT_ID") "prod_enterprise_monthly";
       priceMonthly := "$99";
       description := "For organizations and cultural institutions with advanced naming needs.";
       creditAmount := None;
       features := [ "Unlimited generations with priority processing";
                     "AI-powered cultural consultation";
                     "Family name generation";
                     "Business name generation";
                     "Dedicated support";
                     "Custom branding options";
                     "API access for integrations";
                     "Advanced analytics dashboard" ];
       featured := false;
       discountCode := EmptyString |} ].

Definition CREDITS_TIERS : list ProductTier :=
  [ {| name := "Basic Package";
       id := "tier-3-credits";
       productId := Js.orElse (env !! "CREEM_BASIC_CREDITS_ID") "prod_basic_credits";
       priceMonthly := "$9";
       description := "3 credits for testing and small-scale projects.";
       creditAmount := Some 3;
       features := [ "3 premium Chinese name generations";
                     "No expiration date";
                     "Access to advanced features";
                     "PDF certificates";
                     "Email support" ];
       featured := false;
       discountCode := EmptyString |};
    {| name := "Standard Package";
       id := "tier-6-credits";
       productId := Js.orElse (env !! "CREEM_STANDARD_CREDITS_ID") "prod_standard_credits";
       priceMonthly := "$13";
       description := "6 credits for regular name generation needs.";
       creditAmount := Some 6;
       features := [ "6 premium Chinese name generations";
                     "No expiration date";
                     "Priority processing";
                     "Batch generation support";
                     "Basic email support" ];
       featured := true;
       discountCode := EmptyString |};
    {| name := "Premium Package";
       id := "tier-9-credits";
       productId := Js.orElse (env !! "CREEM_PREMIUM_CREDITS_ID") "prod_premium_credits";
       priceMonthly := "$29";
       description := "9 credits for extensive name generation and exploration.";
       creditAmount := Some 9;
       features := [ "9 premium Chinese name generations";
                     "No expiration date";
                     "Priority processing";
                     "Batch generation (up to 18 names)";
                     "Premium support";
                     "Advanced personality matching" ];
       featured := false;
       discountCode := EmptyString |} ].

End WithProcessEnv.

End Subscriptions.

(* ===================================================================== *)
(** ** app/api/creem/create-checkout/route.ts *)
(* ===================================================================== *)

Module CreateCheckout.
Import Eff.
Local Open Scope eff_scope.

Inductive ProductType : Type := subscription | credits.

Record RequestBody : Type := mkBody
  { productId : option string;
    tierId : option string;
    productType : option string;
    credits_amount : option Z;
    quantity : option Z;
    discountCode : option string }.

(** The body [{}] that a request with unreadable JSON is replaced by. *)
Definition emptyBody : RequestBody :=
  {| productId := None; tierId := None; productType := None;
     credits_amount := None; quantity := None; discountCode := None |}.

(** The session user, as far as the route reads it. *)
Record User : Type := mkUser
  { user_id : string;
    user_email : option string }.

(** [{ productId; type; credits_amount? }] *)
Record Resolved : Type := mkResolved
  { res_productId : string;
    res_type : ProductType;
    res_credits_amount : option Z }.

(** The arguments of one call of [createCheckoutSession]. *)
Record CheckoutCall : Type := mkCall
  { call_productId : string;
    call_email : string;
    call_userId : string;
    call_type : ProductType;
    call_credits_amount : option Z;
    call_discountCode : option string }.

Inductive Response : Type :=
| Text (status : Z) (text : string)
| JsonError (status : Z) (error : string) (details : option string)
| JsonCheckoutUrl (checkoutUrl : string).

(** Truthiness of an optional number: [undefined] and [0] are falsy. *)
Definition truthyNumber (o : option Z) : bool :=
  match o with
  | Some n => negb (n =? 0)%Z
  | None => false
  end.

(** [x == null]: the value is [undefined] or [null]. *)
Definition isNullish {A} (o : option A) : bool :=
  match o with
  | Some _ => false
  | None => true
  end.

Section Route.

(** The two tier tables the module imports from [config/subscriptions]. *)
Variables SUBSCRIPTION_TIERS CREDITS_TIERS : list Subscriptions.ProductTier.

Definition resolveFromTierId (tierId : option string) : option Resolved :=
  if negb (Js.present tierId) then None
  else
    let tierId := default EmptyString tierId in
    match find (fun t => String.eqb (Subscriptions.id t) tierId) SUBSCRIPTION_TIERS with
    | Some sub =>
        Some {| res_productId := Subscriptions.productId sub;
                res_type := subscription;
                res_credits_amount := None |}
    | None =>
        match find (fun t => String.eqb (Subscriptions.id t) tierId) CREDITS_TIERS with
        | Some credit =>
            Some {| res_productId := Subscriptions.productId credit;
                    res_type := credits;
                    res_credits_amount := Subscriptions.creditAmount credit |}
        | None => None
        end
    end.

Definition resolveFromProductId (productId : option string) : option Resolved :=
  if negb (Js.present productId) then None
  else
    let productId := default EmptyString productId in
    match find (fun t => String.eqb (Subscriptions.productId t) productId)
               SUBSCRIPTION_TIERS with
    | Some sub =>
        Some {| res_productId := Subscriptions.productId sub;
                res_type := subscription;
                res_credits_amount := None |}
    | None =>
        match find (fun t => String.eqb (Subscriptions.productId t) productId)
                   CREDITS_TIERS with
        | Some credit =>
            Some {| res_productId := Subscriptions.productId credit;
                    res_type := credits;
                    res_credits_amount := Subscriptions.creditAmount credit |}
        | None =>
            (* Unknown productId; default to credits without credit amount *)
            Some {| res_productId := productId;
                    res_type := credits;
                    res_credits_amount := None |}
        end
    end.

(** Reading a property of [undefined] raises a [TypeError]. *)
Definition typeError : Exn :=
  ErrorWith "Cannot read properties of undefined (reading 'productId')".

(** [pickDefaultCreditsTier()]: prefer the featured credits tier, otherwise
    the first one.  With an empty table [chosen] is [undefined] and the
    property read throws. *)
Definition pickDefaultCreditsTier : Outcome (string * option Z) :=
  let featured := find (fun t => Subscriptions.featured t) CREDITS_TIERS in
  let chosen :=
    match featured with
    | Some t => Some t
    | None => hd_error CREDITS_TIERS
    end in
  match chosen with
  | Some chosen =>
      Returned (Subscriptions.productId chosen, Subscriptions.creditAmount chosen)
  | None => Thrown typeError
  end.

(** What the route asks of its collaborators: the session, the parsed
    request body ([None] when [request.json()] rejects), the process
    environment, and the payment provider's [createCheckoutSession]. *)
Record Services : Type := mkServices
  { getUser : option User;
    requestJson : option RequestBody;
    processEnv : Subscriptions.ProcessEnv;
    checkoutSession : CheckoutCall -> Outcome string }.

Variable svc : Services.

(** The route's observable effect: the calls of [createCheckoutSession]
    it made, oldest first. *)
Definition createCheckoutSession (c : CheckoutCall) : M (list CheckoutCall) string :=
  fun calls => (checkoutSession svc c, (calls ++ [c])%list).

(** Lines 70-97: the product selection [(productId, type, credits_amount)]. *)
Definition resolveSelection (body : RequestBody)
  : Outcome (string * ProductType * option Z) :=
  let resolved :=
    match resolveFromProductId (productId body) with
    | Some r => Some r
    | None => resolveFromTierId (tierId body)
    end in
  let credits_amount := credits_amount body in
  let resolved' :=
    match resolved with
    | Some r => Returned r
    | None =>
        (* Fallback based on productType hint *)
        let hint := Js.toLowerCase (Js.orElse (productType body) EmptyString) in
        if String.eqb hint "subscription" then
          match hd_error SUBSCRIPTION_TIERS with
          | Some sub =>
              Returned {| res_productId := Subscriptions.productId sub;
                          res_type := subscription;
                          res_credits_amount := None |}
          | None => Thrown typeError
          end
        else
          (* Treat unknown strings like "chinese-name-credits" as credits *)
          match pickDefaultCreditsTier with
          | Returned (pid, amount) =>
              Returned {| res_productId := pid;
                          res_type := credits;
                          res_credits_amount := amount |}
          | Thrown e => Thrown e
          end
    end in
  match resolved' with
  | Thrown e => Thrown e
  | Returned r =>
      let credits_amount :=
        if truthyNumber (res_credits_amount r) && isNullish credits_amount
        then res_credits_amount r
        else credits_amount in
      Returned (res_productId r, res_type r, credits_amount)
  end.

Definition POST : M (list CheckoutCall) Response :=
  tryCatch
    (match getUser svc with
     | None => ret (Text 401 "Unauthorized")
     | Some user =>
         let body := default emptyBody (requestJson svc) in
         let* selection := lift (resolveSelection body) in
         let '(productId, type, credits_amount) := selection in
         (* Ensure required environment variables exist *)
         if negb (Js.present (processEnv svc !! "CREEM_API_URL"))
            || negb (Js.present (processEnv svc !! "CREEM_API_KEY"))
         then ret (JsonError 500
                     "Missing CREEM_API_URL or CREEM_API_KEY. Please set them in your environment."
                     None)
         else
           (* Use user's email from session *)
           let email := Js.orElse (user_email user) EmptyString in
           if negb (Js.truthy email)
           then ret (JsonError 400
                       "User email not available. Please ensure the user has a valid email."
                       None)
           else
             (* Map non-standard productType values to supported ones *)
             let normalizedType :=
               match productType body with
               | Some pt =>
                   if Js.truthy pt && Js.includes (Js.toLowerCase pt) "credit"
                   then credits else type
               | None => type
               end in
             let* checkoutUrl :=
               createCheckoutSession
                 {| call_productId := productId;
                    call_email := email;
                    call_userId := user_id user;
                    call_type := normalizedType;
                    call_credits_amount := credits_amount;
                    call_discountCode := discountCode body |} in
             ret (JsonCheckoutUrl checkoutUrl)
     end)
    (fun error =>
       ret (JsonError 500 "Failed to create checkout session"
              (Some (messageOf error)))).

End Route.

(** The route as deployed: the tier tables are those of
    [config/subscriptions], built from the same process environment. *)
Definition POST_deployed (svc : Services) : M (list CheckoutCall) Response :=
  POST (Subscriptions.SUBSCRIPTION_TIERS (processEnv svc))
       (Subscriptions.CREDITS_TIERS (processEnv svc)) svc.

End CreateCheckout.

(* ===================================================================== *)
(** ** utils/pdf-generator and app/api/generate-pdf/route.ts *)
(* ===================================================================== *)

Module GeneratePdf.
Import Eff.
Local Open Scope eff_scope.

Record Character : Type := mkCharacter
  { character : string;
    char_pinyin : string;
    char_meaning : string;
    explanation : string }.

Record NameData : Type := mkNameData
  { chinese : string;
    pinyin : string;
    characters : list Character;
    meaning : string;
    culturalNotes : string;
    personalityMatch : string;
    style : string }.

Record UserData : Type := mkUserData
  { englishName : string;
    gender : string }.

(** The parsed request body; a missing member is [None]. *)
Record RequestBody : Type := mkBody
  { nameData : option NameData;
    userData : option UserData }.

Record User : Type := mkUser { uid : string }.

(** A row of [customers], as far as the route reads and writes it. *)
Record Customer : Type := mkCustomer
  { customer_id : string;
    user_id : string;
    credits : Z;
    updated_at : string }.

(** A row of [credits_history] as the route inserts it. *)
Record HistoryRow : Type := mkHistoryRow
  { row_customer_id : string;
    amount : Z;
    type : string;
    description : string;
    meta_operation : string;
    meta_chinese_name : string;
    meta_english_name : string;
    meta_credits_before : Z;
    meta_credits_after : Z;
    meta_generated_at : string }.

(** The two tables of the persistence collaborator. *)
Record Db : Type := mkDb
  { customers : list Customer;
    credits_history : list HistoryRow }.

(** What a run does that is visible from outside the handler. *)
Inductive Event : Type :=
| Render (html : string)                        (* the browser is asked for a PDF *)
| CustomersUpdate (user : string) (newCredits : Z)
| HistoryInsert (row : HistoryRow)
| ConsoleError (label : string).

(** The state a request runs against: the database, the module-level
    [puppeteer] variable of the PDF utility, and the effects so far. *)
Record World : Type := mkWorld
  { db : Db;
    puppeteerLoaded : bool;
    trace : list Event }.

Inductive JsonValue : Type :=
| JString (s : string)
| JNumber (n : Z).

Inductive Body : Type :=
| Json (fields : list (string * JsonValue))
| Binary (buffer : string).

Record Response : Type := mkResponse
  { status : Z;
    headers : list (string * string);
    body : Body }.

(** [NextResponse.json(fields, { status })] *)
Definition json (fields : list (string * JsonValue)) (status : Z) : Response :=
  {| status := status;
     headers := [("content-type", "application/json")];
     body := Json fields |}.

(** [n.toString()] for a length. *)
Definition lengthToString (n : nat) : string :=
  DecimalString.NilZero.string_of_uint (Nat.to_uint n).

(** [n || 0] on numbers: [0] is the only falsy integer. *)
Definition orZero (n : Z) : Z := if (n =? 0)%Z then 0%Z else n.

(** The collaborators of one request.  The database calls resolve to
    [{ data, error }]; an [Some] in [selectError], [updateError] or
    [insertError] makes the corresponding call report that error and leave
    the tables alone.  The headless browser is driven in three steps:
    [launch] is [puppeteer.launch(...)], [printPage] stands for
    [browser.newPage()], [page.setContent(html, ...)] and [page.pdf(...)],
    and [browser.close()] is called at two places, after the PDF is made
    ([closeBrowser]) and in the [catch] block ([closeBrowserAfterFailure]).
    [encodeURIComponent] is the builtin: it throws a [URIError] ([None]) on
    a string with a lone surrogate. *)
Record Services : Type := mkServices
  { getUser : option User * option string;
    requestJson : Outcome RequestBody;
    importPuppeteer : Outcome unit;
    generateCertificateHTML : NameData -> UserData -> string;
    launch : Outcome unit;
    printPage : string -> Outcome string;
    closeBrowser : Outcome unit;
    closeBrowserAfterFailure : Outcome unit;
    selectError : option string;
    updateError : option string;
    insertError : option string;
    nowISO : string;
    encodeURIComponent : string -> option string }.

(** [new NextResponse(pdfBuffer, { status: 200, headers })], with the file
    name already encoded. *)
Definition pdfAttachment (pdfBuffer encodedName : string) : Response :=
  {| status := 200;
     headers :=
       [ ("Content-Type", "application/pdf");
         ("Content-Disposition",
          "attachment; filename=" ++ Js.quote ++ encodedName ++ Js.quote);
         ("Content-Length", lengthToString (String.length pdfBuffer)) ];
     body := Binary pdfBuffer |}.

Section Route.

Variable svc : Services.

Definition emit (e : Event) : M World unit :=
  modify (fun w => {| db := db w;
                      puppeteerLoaded := puppeteerLoaded w;
                      trace := (trace w ++ [e])%list |}).

Definition consoleError (label : string) : M World unit :=
  emit (ConsoleError label).

(** *** utils/pdf-generator *)

(** [getPuppeteer()]: the module is imported once and then kept. *)
Definition getPuppeteer : M World unit :=
  fun w =>
    if puppeteerLoaded w then (Returned tt, w)
    else match importPuppeteer svc with
         | Returned _ =>
             (Returned tt, {| db := db w; puppeteerLoaded := true; trace := trace w |})
         | Thrown error =>
             match messageText error with
             | Returned text =>
                 (Thrown (ErrorWith ("Failed to load Puppeteer: " ++ text)), w)
             | Thrown thrown => (Thrown thrown, w)
             end
         end.

(** The body of the inner [try] of [generatePDF], from [puppeteer.launch]
    to the [browser.close()] that follows [page.pdf]. *)
Definition renderPdf (htmlContent : string) : Outcome string :=
  match launch svc with
  | Thrown e => Thrown e
  | Returned _ =>
      match printPage svc htmlContent with
      | Thrown e => Thrown e
      | Returned pdfBuffer =>
          match closeBrowser svc with
          | Thrown e => Thrown e
          | Returned _ => Returned pdfBuffer
          end
      end
  end.

(** Whether the variable [browser] is set when the [catch] block runs: it
    is assigned once [puppeteer.launch] has returned. *)
Definition browserLaunched : bool :=
  match launch svc with
  | Returned _ => true
  | Thrown _ => false
  end.

(** [generatePDF(htmlContent, options)] *)
Definition generatePDF (htmlContent : string) : M World string :=
  tryCatch
    (getPuppeteer ;;
     tryCatch
       (emit (Render htmlContent) ;;
        lift (renderPdf htmlContent))
       (fun puppeteerError =>
          (if browserLaunched then lift (closeBrowserAfterFailure svc) else ret tt) ;;
          let* text := lift (messageText puppeteerError) in
          throw (ErrorWith ("Puppeteer generation failed: " ++ text))))
    (fun error =>
       match error with
       | ErrorWith m => throw (ErrorWith ("PDF generation failed: " ++ m))
       | NonError _ => throw (ErrorWith "Unknown PDF generation error")
       end).

(** [generateNameCertificate(nameData, userData)] *)
Definition generateNameCertificate (nameData : NameData) (userData : UserData)
  : M World (string * string) :=
  let htmlContent := generateCertificateHTML svc nameData userData in
  let* pdfBuffer := generatePDF htmlContent in
  let fileName := chinese nameData ++ "_certificate.pdf" in
  ret (pdfBuffer, fileName).

(** [isPDFGenerationAvailable()] *)
Definition isPDFGenerationAvailable : M World bool :=
  tryCatch (getPuppeteer ;; ret true) (fun _ => ret false).

(** *** The persistence collaborator *)

Definition setDb (d : Db) (w : World) : World :=
  {| db := d; puppeteerLoaded := puppeteerLoaded w; trace := trace w |}.

(** [from('customers').select('*').eq('user_id', id).single()]: exactly one
    matching row, or an error. *)
Definition selectCustomer (id : string) : M World (option Customer * option string) :=
  fun w =>
    match selectError svc with
    | Some e => (Returned (None, Some e), w)
    | None =>
        match List.filter (fun c => String.eqb (user_id c) id) (customers (db w)) with
        | [c] => (Returned (Some c, None), w)
        | _ => (Returned (None, Some "JSON object requested, multiple (or no) rows returned"), w)
        end
    end.

(** [from('customers').update({ credits, updated_at }).eq('user_id', id)];
    the result is the [error] member. *)
Definition updateCustomer (id : string) (newCredits : Z) (at_ : string)
  : M World (option string) :=
  emit (CustomersUpdate id newCredits) ;;
  fun w =>
    match updateError svc with
    | Some e => (Returned (Some e), w)
    | None =>
        let rows :=
          map (fun c => if String.eqb (user_id c) id
                        then {| customer_id := customer_id c;
                                user_id := user_id c;
                                credits := newCredits;
                                updated_at := at_ |}
                        else c)
              (customers (db w)) in
        (Returned None,
         setDb {| customers := rows; credits_history := credits_history (db w) |} w)
    end.

(** [from('credits_history').insert(row)] *)
Definition insertHistory (row : HistoryRow) : M World (option string) :=
  emit (HistoryInsert row) ;;
  fun w =>
    match insertError svc with
    | Some e => (Returned (Some e), w)
    | None =>
        (Returned None,
         setDb {| customers := customers (db w);
                  credits_history := (credits_history (db w) ++ [row])%list |} w)
    end.

(** *** The route handler *)

(** Lines 159-166: the PDF response.  The header values are evaluated
    first, and [encodeURIComponent(fileName)] may throw. *)
Definition pdfResponse (pdfBuffer fileName : string) : M World Response :=
  match encodeURIComponent svc fileName with
  | None => throw (ErrorWith "URI malformed")
  | Some encoded => ret (pdfAttachment pdfBuffer encoded)
  end.

Definition POST : M World Response :=
  tryCatch
    ((* Check user authentication *)
     let '(user, authError) := getUser svc in
     match authError, user with
     | None, Some user =>
         let* body := lift (requestJson svc) in
         match nameData body, userData body with
         | Some nameData, Some userData =>
             (* Check if PDF generation is available *)
             let* isAvailable := isPDFGenerationAvailable in
             if negb isAvailable then
               ret (json [("error", JString "PDF generation service is currently unavailable. Please try again later.")]
                         503)
             else
               (* Check user credits *)
               let* fetched := selectCustomer (uid user) in
               let '(customer, fetchError) := fetched in
               match fetchError with
               | Some _ =>
                   consoleError "Error fetching customer:" ;;
                   ret (json [("error", JString "Unable to verify user credits")] 500)
               | None =>
                   match customer with
                   | None =>
                       ret (json [("error", JString "Insufficient credits. PDF generation requires 1 credit.");
                                  ("creditsRequired", JNumber 1);
                                  ("currentCredits", JNumber 0)]
                                 403)
                   | Some customer =>
                       if (credits customer <? 1)%Z then
                         ret (json [("error", JString "Insufficient credits. PDF generation requires 1 credit.");
                                    ("creditsRequired", JNumber 1);
                                    ("currentCredits", JNumber (orZero (credits customer)))]
                                   403)
                       else
                         (* Generate PDF using the lazy-loaded utility *)
                         tryCatch
                           (let* generated := generateNameCertificate nameData userData in
                            let '(pdfBuffer, fileName) := generated in
                            (* Deduct credits *)
                            let newCredits := (credits customer - 1)%Z in
                            let* updateError :=
                              updateCustomer (uid user) newCredits (nowISO svc) in
                            match updateError with
                            | Some _ =>
                                consoleError "Failed to deduct credits:"
                            | None =>
                                (* Record credit transaction history *)
                                insertHistory
                                  {| row_customer_id := customer_id customer;
                                     amount := 1;
                                     type := "subtract";
                                     description := "pdf_generation";
                                     meta_operation := "pdf_generation";
                                     meta_chinese_name := chinese nameData;
                                     meta_english_name := englishName userData;
                                     meta_credits_before := credits customer;
                                     meta_credits_after := newCredits;
                                     meta_generated_at := nowISO svc |} ;;
                                ret tt
                            end ;;
                            (* Return PDF response *)
                            pdfResponse pdfBuffer fileName)
                           (fun pdfError =>
                              consoleError "PDF generation error:" ;;
                              ret (json [("error", JString "Failed to generate PDF certificate. Please try again.");
                                         ("details", JString (messageOf pdfError))]
                                        500))
                   end
               end
         | _, _ =>
             ret (json [("error", JString "Missing required data: nameData and userData")] 400)
         end
     | _, _ =>
         ret (json [("error", JString "Authentication required for PDF generation")] 401)
     end)
    (fun error =>
       consoleError "PDF generation API error:" ;;
       ret (json [("error", JString "PDF generation service is temporarily unavailable. Please try again later.");
                  ("details", JString (messageOf error))]
                 500)).

End Route.

(** One request: the handler started on database [d], with the PDF
    utility's module either loaded already or not, and an empty trace. *)
Definition run (svc : Services) (d : Db) (loaded : bool)
  : Outcome Response * World :=
  POST svc {| db := d; puppeteerLoaded := loaded; trace := [] |}.

(** The balance of the customer rows of user [id]. *)
Definition balancesOf (id : string) (d : Db) : list Z :=
  map credits (List.filter (fun c => String.eqb (user_id c) id) (customers d)).

(** The request gets as far as the credit check: the session is valid, the
    body has both members, the PDF utility is available, and the customer
    row of the user is read without error. *)
Definition AtCreditCheck (svc : Services) (d : Db) (loaded : bool)
    (user : User) (nd : NameData) (ud : UserData) (customer : Customer) : Prop :=
  getUser svc = (Some user, None)
  /\ requestJson svc = Returned {| nameData := Some nd; userData := Some ud |}
  /\ (loaded = true \/ importPuppeteer svc = Returned tt)
  /\ selectError svc = None
  /\ List.filter (fun c => String.eqb (user_id c) (uid user)) (customers d)
     = [customer].

(** The ledger row the route writes for a charge. *)
Definition chargeRow (svc : Services) (nd : NameData) (ud : UserData)
    (customer : Customer) : HistoryRow :=
  {| row_customer_id := customer_id customer;
     amount := 1;
     type := "subtract";
     description := "pdf_generation";
     meta_operation := "pdf_generation";
     meta_chinese_name := chinese nd;
     meta_english_name := englishName ud;
     meta_credits_before := credits customer;
     meta_credits_after := (credits customer - 1)%Z;
     meta_generated_at := nowISO svc |}.

(** The [customers] table after the balance of user [id] is set. *)
Definition withCredits (id : string) (newCredits : Z) (at_ : string)
    (rows : list Customer) : list Customer :=
  map (fun c => if String.eqb (user_id c) id
                then {| customer_id := customer_id c;
                        user_id := user_id c;
                        credits := newCredits;
                        updated_at := at_ |}
                else c)
      rows.

(** Member [name] of a JSON response body. *)
Definition field (name : string) (r : Response) : option JsonValue :=
  match body r with
  | Json fields =>
      match find (fun kv => String.eqb (fst kv) name) fields with
      | Some kv => Some (snd kv)
      | None => None
      end
  | Binary _ => None
  end.

(** Header [name] of a response. *)
Definition header (name : string) (r : Response) : option string :=
  match find (fun kv => String.eqb (fst kv) name) (headers r) with
  | Some kv => Some (snd kv)
  | None => None
  end.

Definition isConsoleError (e : Event) : bool :=
  match e with ConsoleError _ => true | _ => false end.

Definition isRender (e : Event) : bool :=
  match e with Render _ => true | _ => false end.

Definition isCustomersUpdate (e : Event) : bool :=
  match e with CustomersUpdate _ _ => true | _ => false end.

Definition isHistoryInsert (e : Event) : bool :=
  match e with HistoryInsert _ => true | _ => false end.

(** A run that does not get as far as the credit check ends with one of
    the statuses 401, 400, 503 or 500, leaves the database alone, and has
    done nothing but log. *)
Definition EndsEarly (svc : Services) (d : Db) (loaded : bool) : Prop :=
  db (snd (run svc d loaded)) = d
  /\ forallb isConsoleError (trace (snd (run svc d loaded))) = true
  /\ exists resp,
       fst (run svc d loaded) = Returned resp
       /\ In (status resp) [401; 400; 503; 500]%Z.

End GeneratePdf.

(* ===================================================================== *)
(** ** Concrete requests used as examples *)
(* ===================================================================== *)

Module Scenarios.

(** A process environment with the payment credentials and no product-id
    overrides. *)
Definition processEnv : Subscriptions.ProcessEnv :=
  <["CREEM_API_URL" := "https://api.creem.io"]>
    (<["CREEM_API_KEY" := "creem_key"]> ∅).

Definition shopper : CreateCheckout.User :=
  {| CreateCheckout.user_id := "user-1";
     CreateCheckout.user_email := Some "ada@example.com" |}.

Definition checkout (body : CreateCheckout.RequestBody) : CreateCheckout.Services :=
  {| CreateCheckout.getUser := Some shopper;
     CreateCheckout.requestJson := Some body;
     CreateCheckout.processEnv := processEnv;
     CreateCheckout.checkoutSession := fun _ => Eff.Returned "https://checkout.example/s1" |}.

(** [{ tierId: "tier-hobby" }] *)
Definition hobbyBody : CreateCheckout.RequestBody :=
  {| CreateCheckout.productId := None;
     CreateCheckout.tierId := Some "tier-hobby";
     CreateCheckout.productType := None;
     CreateCheckout.credits_amount := None;
     CreateCheckout.quantity := None;
     CreateCheckout.discountCode := None |}.

(** [{ tierId: "tier-hobby", productType: "credits" }] *)
Definition hobbyBodyWithCreditsHint : CreateCheckout.RequestBody :=
  {| CreateCheckout.productId := None;
     CreateCheckout.tierId := Some "tier-hobby";
     CreateCheckout.productType := Some "credits";
     CreateCheckout.credits_amount := None;
     CreateCheckout.quantity := None;
     CreateCheckout.discountCode := None |}.

(** [{ productType: "chinese-name-credits" }] *)
Definition nameCreditsBody : CreateCheckout.RequestBody :=
  {| CreateCheckout.productId := None;
     CreateCheckout.tierId := None;
     CreateCheckout.productType := Some "chinese-name-credits";
     CreateCheckout.credits_amount := None;
     CreateCheckout.quantity := None;
     CreateCheckout.discountCode := None |}.

(** [{ productId: "prod_legacy_pack", productType: "chinese-name-credits" }];
    the product id is that of no configured tier. *)
Definition unknownProductBody : CreateCheckout.RequestBody :=
  {| CreateCheckout.productId := Some "prod_legacy_pack";
     CreateCheckout.tierId := None;
     CreateCheckout.productType := Some "chinese-name-credits";
     CreateCheckout.credits_amount := None;
     CreateCheckout.quantity := None;
     CreateCheckout.discountCode := None |}.

(** *** PDF export *)

Definition liName : GeneratePdf.NameData :=
  {| GeneratePdf.chinese := "Li Ming";
     GeneratePdf.pinyin := "li ming";
     GeneratePdf.characters := [];
     GeneratePdf.meaning := "bright";
     GeneratePdf.culturalNotes := "classic";
     GeneratePdf.personalityMatch := "curious";
     GeneratePdf.style := "modern" |}.

Definition ada : GeneratePdf.UserData :=
  {| GeneratePdf.englishName := "Ada"; GeneratePdf.gender := "female" |}.

(** The code unit U+D800, a surrogate with no partner, written as the three
    bytes ED A0 80 of generalised UTF-8. *)
Definition loneSurrogate : string :=
  String (ascii_of_nat 237) (String (ascii_of_nat 160) (String (ascii_of_nat 128) EmptyString)).

(** A name whose text is that one code unit (a JSON body whose [chinese]
    member is the escape [\ud800] parses to it). *)
Definition unpairedName : GeneratePdf.NameData :=
  {| GeneratePdf.chinese := loneSurrogate;
     GeneratePdf.pinyin := "li ming";
     GeneratePdf.characters := [];
     GeneratePdf.meaning := "bright";
     GeneratePdf.culturalNotes := "classic";
     GeneratePdf.personalityMatch := "curious";
     GeneratePdf.style := "modern" |}.

(** Bytes that [encodeURIComponent] leaves as they are: letters, digits and
    [- _ . ! ~ * ' ( )]. *)
Definition unreserved (c : ascii) : bool :=
  let n := nat_of_ascii c in
  ((65 <=? n)%nat && (n <=? 90)%nat) || ((97 <=? n)%nat && (n <=? 122)%nat)
  || ((48 <=? n)%nat && (n <=? 57)%nat)
  || existsb (Nat.eqb n) [45; 95; 46; 33; 126; 42; 39; 40; 41]%nat.

Definition hexDigit (n : nat) : ascii :=
  ascii_of_nat (if (n <? 10)%nat then 48 + n else 55 + n).

Fixpoint percentEncode (s : string) : string :=
  match s with
  | EmptyString => EmptyString
  | String c rest =>
      if unreserved c then String c (percentEncode rest)
      else
        let n := nat_of_ascii c in
        String (ascii_of_nat 37)
          (String (hexDigit (n / 16)) (String (hexDigit (n mod 16)) (percentEncode rest)))
  end.

(** A surrogate code unit that is not part of a pair shows as the byte ED
    followed by a byte from A0 to BF. *)
Fixpoint hasLoneSurrogate (s : string) : bool :=
  match s with
  | EmptyString => false
  | String c rest =>
      match rest with
      | String c' _ =>
          ((nat_of_ascii c =? 237)%nat
           && (160 <=? nat_of_ascii c')%nat && (nat_of_ascii c' <=? 191)%nat)
          || hasLoneSurrogate rest
      | EmptyString => false
      end
  end.

(** [encodeURIComponent] on UTF-8 text: every byte that is not unreserved
    becomes [%XX]; a lone surrogate makes it throw. *)
Definition encodeURIComponent (s : string) : option string :=
  if hasLoneSurrogate s then None else Some (percentEncode s).

(** The collaborators of a PDF request by user [user-1] for the name
    [nameData]; what the module import and the page print do and the errors
    of the two writes are left open, the browser launches and closes. *)
Definition pdfFor (nameData : GeneratePdf.NameData) (imported : Eff.Outcome unit)
    (render : Eff.Outcome string) (updateError insertError : option string)
  : GeneratePdf.Services :=
  {| GeneratePdf.getUser := (Some (GeneratePdf.mkUser "user-1"), None);
     GeneratePdf.requestJson :=
       Eff.Returned {| GeneratePdf.nameData := Some nameData;
                       GeneratePdf.userData := Some ada |};
     GeneratePdf.importPuppeteer := imported;
     GeneratePdf.generateCertificateHTML := fun _ _ => "<html>certificate</html>";
     GeneratePdf.launch := Eff.Returned tt;
     GeneratePdf.printPage := fun _ => render;
     GeneratePdf.closeBrowser := Eff.Returned tt;
     GeneratePdf.closeBrowserAfterFailure := Eff.Returned tt;
     GeneratePdf.selectError := None;
     GeneratePdf.updateError := updateError;
     GeneratePdf.insertError := insertError;
     GeneratePdf.nowISO := "2025-01-01T00:00:00.000Z";
     GeneratePdf.encodeURIComponent := encodeURIComponent |}.

(** The same for the name [liName], with the PDF utility's module there. *)
Definition pdf (render : Eff.Outcome string) (updateError insertError : option string)
  : GeneratePdf.Services :=
  pdfFor liName (Eff.Returned tt) render updateError insertError.

(** The customer row of [user-1] with a given balance. *)
Definition customerWith (balance : Z) : GeneratePdf.Customer :=
  {| GeneratePdf.customer_id := "cust-1";
     GeneratePdf.user_id := "user-1";
     GeneratePdf.credits := balance;
     GeneratePdf.updated_at := "2024-12-31T00:00:00.000Z" |}.

(** A database with that one customer and an empty ledger. *)
Definition dbWith (balance : Z) : GeneratePdf.Db :=
  {| GeneratePdf.customers := [customerWith balance];
     GeneratePdf.credits_history := [] |}.

End Scenarios.

(* ===================================================================== *)
(** ** utils/error-handler: factories, response format and route wrapper *)
(* ===================================================================== *)

Module ErrorHandlerApi.
Import ErrorHandler.

(** [validationError(message, details?)] *)
Definition validationError (msg : string) (details : option JsValue) : AppError :=
  createError VALIDATION msg None
    {| opt_code := None; opt_details := details; opt_suggestions := None;
       opt_retryable := Some false; opt_severity := Some LOW |}.

(** [authenticationError(message?)] *)
Definition authenticationError (msg : option string) : AppError :=
  createError AUTHENTICATION (Js.orElse msg "Please sign in to continue.") None
    {| opt_code := Some "AUTH_REQUIRED"; opt_details := None;
       opt_suggestions := None;
       opt_retryable := Some false; opt_severity := None |}.

(** [externalServiceError(service, message?)] *)
Definition externalServiceError (service : string) (msg : option string) : AppError :=
  createError EXTERNAL_SERVICE
    (service ++ " is temporarily unavailable. Please try again later.") msg
    {| opt_code := None; opt_details := None;
       opt_suggestions := Some ["Wait a few minutes and try again";
                                "Try refreshing the page"];
       opt_retryable := Some true; opt_severity := Some MEDIUM |}.

(** [getStatusCode] as it runs: the switch compares the [type] member of
    whatever object [handleError] returned with the enum's strings, so a
    value that is none of them falls to the default. *)
Definition statusCodeOfType (t : JsValue) : Z :=
  match t with
  | VString s =>
      if String.eqb s "validation" then 400
      else if String.eqb s "authentication" then 401
      else if String.eqb s "authorization" then 403
      else if String.eqb s "not_found" then 404
      else if String.eqb s "conflict" then 409
      else if String.eqb s "rate_limit" then 429
      else 500
  | _ => 500
  end.

(** [toErrorResponse(error, requestId?)]; [nodeEnv] is
    [process.env.NODE_ENV] and [timestamp] is [new Date().toISOString()]. *)
Definition toErrorResponse (nodeEnv : option string) (timestamp : string)
    (error : JsValue) (requestId : option string) : JsValue :=
  VObject
    [ ("error", getProp error "userMessage");
      ("userMessage", getProp error "userMessage");
      ("type", getProp error "type");
      ("code", getProp error "code");
      ("details",
       match nodeEnv with
       | Some env =>
           if String.eqb env "development" then getProp error "details"
           else VUndefined
       | None => VUndefined
       end);
      ("suggestions", getProp error "suggestions");
      ("retryable", getProp error "retryable");
      ("timestamp", VString timestamp);
      ("requestId", ofOption VString requestId) ].

(** What the wrapped handler did: it resolved with a response, or it
    rejected with some thrown value. *)
Inductive Settled (R : Type) : Type :=
| Resolved (response : R)
| Rejected (error : JsValue).
Arguments Resolved {R} response.
Arguments Rejected {R} error.

(** What the wrapper answers: the handler's own response, or the JSON error
    response it builds (its status and the object that is serialised); and
    when [handleError] itself throws inside the [catch] block, the wrapper
    rejects with that value. *)
Inductive Answer (R : Type) : Type :=
| Passed (response : R)
| Failed (status : Z) (body : JsValue)
| Escaped (thrown : JsValue).
Arguments Passed {R} response.
Arguments Failed {R} status body.
Arguments Escaped {R} thrown.

Section Wrapper.

Variable String_ : JsValue -> Completion string.
Variable nodeEnv : option string.
Variable timestamp : string.
(** [crypto.randomUUID()] *)
Variable randomUUID : string.

(** [withErrorHandler(handler)(request, ...args)] *)
Definition withErrorHandler {R} (handler : Settled R) : Answer R :=
  match handler with
  | Resolved response => Passed response
  | Rejected error =>
      match handleError String_ error None with
      | Throws thrown => Escaped thrown
      | Returns appError =>
          let errorResponse :=
            toErrorResponse nodeEnv timestamp appError (Some randomUUID) in
          let statusCode := statusCodeOfType (getProp appError "type") in
          Failed statusCode errorResponse
      end
  end.

End Wrapper.

End ErrorHandlerApi.

(* ===================================================================== *)
(** ** utils/cache: the helpers built on the global cache instance *)
(* ===================================================================== *)

(** The [CACHE_TTL] constants, in milliseconds. *)
Module CACHE_TTL.
Definition SHORT : Z := 5 * 60 * 1000.
Definition MEDIUM : Z := 15 * 60 * 1000.
Definition LONG : Z := 60 * 60 * 1000.
Definition VERY_LONG : Z := 24 * 60 * 60 * 1000.
End CACHE_TTL.

Module CacheUtilities.
Import MemoryCache.

(** An integer inside a template literal: its decimal digits. *)
Definition numberToString (n : Z) : string :=
  DecimalString.NilZero.string_of_int (Z.to_int n).

(** A string without the separator [:] of the cache keys. *)
Fixpoint colonFree (s : string) : bool :=
  match s with
  | EmptyString => true
  | String c s' => negb (Ascii.eqb c ":") && colonFree s'
  end.

Section WithPayload.

Context {T : Type}.

Record Stats : Type := mkStats
  { stats_size : nat;
    stats_keys : list string }.

(** [getStats()].  A JavaScript [Map] lists its keys in insertion order; the
    finite map lists each key once, in an order of its own. *)
Definition getStats (cache : gmap string (CacheEntry T)) : Stats :=
  {| stats_size := size cache;
     stats_keys := (map_to_list cache).*1 |}.

(** [destroy()] once the interval timer is cleared: [clear()]. *)
Definition destroy (cache : gmap string (CacheEntry T)) : gmap string (CacheEntry T) :=
  clear cache.

(** [keys.forEach(key => cache.delete(key))] *)
Definition deleteEach (keys : list string) (cache : gmap string (CacheEntry T))
  : gmap string (CacheEntry T) :=
  foldl (fun c key => snd (MemoryCache.delete key c)) cache keys.

(** [invalidateCachePattern(pattern)]: the number of keys it deleted and
    the map afterwards. *)
Definition invalidateCachePattern (pattern : string)
    (cache : gmap string (CacheEntry T)) : Z * gmap string (CacheEntry T) :=
  let stats := getStats cache in
  foldl (fun '(invalidatedCount, c) key =>
           ((invalidatedCount + 1)%Z, snd (MemoryCache.delete key c)))
        (0%Z, cache)
        (List.filter (fun key => Js.includes key pattern) (stats_keys stats)).

End WithPayload.

(** *** [PopularNamesCache] *)
Module PopularNamesCache.
Section WithPayload.
Context {T : Type}.

Definition generateKey (gender : string) (count : Z) : string :=
  "popular_names:" ++ gender ++ ":" ++ numberToString count.

Definition get (now : Z) (gender : string) (count : Z)
    (cache : gmap string (CacheEntry T)) :=
  MemoryCache.get now (generateKey gender count) cache.

Definition set (now : Z) (gender : string) (count : Z) (d : T) (ttlMs : option Z)
    (cache : gmap string (CacheEntry T)) :=
  MemoryCache.set now (generateKey gender count) d
    (Some (default CACHE_TTL.LONG ttlMs)) cache.

Definition invalidate (gender : string) (count : Z)
    (cache : gmap string (CacheEntry T)) :=
  MemoryCache.delete (generateKey gender count) cache.

End WithPayload.
End PopularNamesCache.

(** *** [UserDataCache] *)
Module UserDataCache.
Section WithPayload.
Context {T : Type}.

Definition generateKey (userId dataType : string) : string :=
  "user_data:" ++ userId ++ ":" ++ dataType.

Definition get (now : Z) (userId dataType : string)
    (cache : gmap string (CacheEntry T)) :=
  MemoryCache.get now (generateKey userId dataType) cache.

Definition set (now : Z) (userId dataType : string) (d : T)
    (cache : gmap string (CacheEntry T)) :=
  MemoryCache.set now (generateKey userId dataType) d (Some CACHE_TTL.SHORT) cache.

Definition invalidate (userId dataType : string)
    (cache : gmap string (CacheEntry T)) :=
  MemoryCache.delete (generateKey userId dataType) cache.

Definition invalidateAllUserData (userId : string)
    (cache : gmap string (CacheEntry T)) : gmap string (CacheEntry T) :=
  let stats := getStats cache in
  deleteEach
    (List.filter (fun key => Js.startsWith key ("user_data:" ++ userId ++ ":"))
                 (stats_keys stats))
    cache.

End WithPayload.
End UserDataCache.

(** *** [RateLimitCache]: the payload is a counter.  One call reads the
    clock once. *)
Module RateLimitCache.

Definition generateKey (ip endpoint : string) : string :=
  "rate_limit:" ++ ip ++ ":" ++ endpoint.

Definition get (now : Z) (ip endpoint : string) (cache : gmap string (CacheEntry Z)) :=
  MemoryCache.get now (generateKey ip endpoint) cache.

Definition set (now : Z) (ip endpoint : string) (count : Z)
    (cache : gmap string (CacheEntry Z)) :=
  MemoryCache.set now (generateKey ip endpoint) count (Some CACHE_TTL.LONG) cache.

(** [increment(ip, endpoint)]: the new count and the map afterwards. *)
Definition increment (now : Z) (ip endpoint : string)
    (cache : gmap string (CacheEntry Z)) : Z * gmap string (CacheEntry Z) :=
  let '(found, cache1) := get now ip endpoint cache in
  let current :=
    match found with
    | Some n => if (n =? 0)%Z then 0%Z else n     (* [n || 0] *)
    | None => 0%Z
    end in
  let newCount := (current + 1)%Z in
  (newCount, set now ip endpoint newCount cache1).

(** Successive [increment]s of one counter at the given clock readings; the
    counts they return, oldest first. *)
Fixpoint incrementEach (times : list Z) (ip endpoint : string)
    (cache : gmap string (CacheEntry Z)) : list Z * gmap string (CacheEntry Z) :=
  match times with
  | [] => ([], cache)
  | now :: rest =>
      let '(count, cache1) := increment now ip endpoint cache in
      let '(counts, cache2) := incrementEach rest ip endpoint cache1 in
      (count :: counts, cache2)
  end.

End RateLimitCache.

(** *** [withCache] and [cachedFetch] *)

Section WithCache.

Import Eff.

(** The argument tuple and the non-null results of the wrapped function; a
    result [None] is JavaScript's [null]. *)
Context {A R : Type}.

(** The cache together with the invocations of the wrapped function so far. *)
Record CacheWorld : Type := mkCacheWorld
  { cache : gmap string (CacheEntry (option R));
    calls : list A }.

Variable keyGenerator : A -> string.
Variable ttlMs : option Z.
Variable fn : A -> Outcome (option R).

(** [withCache(keyGenerator, ttlMs = CACHE_TTL.MEDIUM, fn)(...args)]; the
    clock reads [now] at the lookup and [later] when the result is stored. *)
Definition withCache (now later : Z) (args : A) : M CacheWorld (option R) :=
  fun w =>
    let cacheKey := keyGenerator args in
    let '(cached, cache1) := MemoryCache.get now cacheKey (cache w) in
    match cached with
    | Some (Some hit) =>
        (Returned (Some hit), {| cache := cache1; calls := calls w |})
    | _ =>
        (* a miss, or an entry that holds [null] *)
        match fn args with
        | Returned result =>
            (Returned result,
             {| cache := MemoryCache.set later cacheKey result
                           (Some (default CACHE_TTL.MEDIUM ttlMs)) cache1;
                calls := (calls w ++ [args])%list |})
        | Thrown e =>
            (Thrown e, {| cache := cache1; calls := (calls w ++ [args])%list |})
        end
    end.

End WithCache.

Section CachedFetch.

Import Eff.

Context {R : Type}.

(** What [fetch] resolved with: the status line and the outcome of
    [response.json()]. *)
Record FetchResponse : Type := mkFetchResponse
  { ok : bool;
    status : Z;
    statusText : string;
    json : Outcome (option R) }.

(** [fetch(url, options)] and [JSON.stringify(options)]; a request is named
    by its URL and its stringified options. *)
Variable fetch : string -> string -> Outcome FetchResponse.

(** [cachedFetch(url, options = {}, ttlMs = CACHE_TTL.MEDIUM)]; [options]
    is [JSON.stringify(options)]. *)
Definition cachedFetch (now later : Z) (url options : string) (ttlMs : option Z)
  : M (CacheWorld (A := string * string) (R := R)) (option R) :=
  fun w =>
    let cacheKey := "fetch:" ++ url ++ ":" ++ options in
    let '(cached, cache1) := MemoryCache.get now cacheKey (cache w) in
    match cached with
    | Some (Some hit) =>
        (Returned (Some hit), {| cache := cache1; calls := calls w |})
    | _ =>
        let w1 := {| cache := cache1; calls := (calls w ++ [(url, options)])%list |} in
        match fetch url options with
        | Thrown e => (Thrown e, w1)
        | Returned response =>
            if negb (ok response) then
              (Thrown (ErrorWith ("HTTP " ++ numberToString (status response)
                                  ++ ": " ++ statusText response)), w1)
            else
              match json response with
              | Thrown e => (Thrown e, w1)
              | Returned data =>
                  (Returned data,
                   {| cache := MemoryCache.set later cacheKey data
                                 (Some (default CACHE_TTL.MEDIUM ttlMs)) cache1;
                      calls := calls w1 |})
              end
        end
    end.

End CachedFetch.

End CacheUtilities.

(* ===================================================================== *)
(** ** Requests to the PDF route, one after the other *)
(* ===================================================================== *)

Module GeneratePdfSequences.
Import Eff GeneratePdf.

(** The status of a settled request; a rejected one has none. *)
Definition statusOf (o : Outcome Response) : option Z :=
  match o with
  | Returned resp => Some (status resp)
  | Thrown _ => None
  end.

(** [n] requests handled in sequence by the same process, each starting from
    the database and the module state the one before left; their statuses,
    first request first. *)
Fixpoint statuses (svc : Services) (n : nat) (d : Db) (loaded : bool)
  : list (option Z) :=
  match n with
  | O => []
  | S n' =>
      let '(o, w) := run svc d loaded in
      statusOf o :: statuses svc n' (db w) (puppeteerLoaded w)
  end.

End GeneratePdfSequences.

(* ===================================================================== *)
(** ** The generation-history route ([GET], cached per user) *)
(* ===================================================================== *)

Module GenerationHistory.
Import Eff MemoryCache CacheUtilities.

(** [Boolean(v)] *)
Definition toBoolean (v : ErrorHandler.JsValue) : bool :=
  match v with
  | ErrorHandler.VUndefined | ErrorHandler.VNull => false
  | ErrorHandler.VBool b => b
  | ErrorHandler.VNumber n => negb (n =? 0)%Z
  | ErrorHandler.VString s => Js.truthy s
  | _ => true
  end.

(** A row of [name_generation_logs]: the columns the route reads, and the
    row as a whole (it is copied into the response). *)
Record Log : Type := mkLog
  { log_row : ErrorHandler.JsValue;
    credits_used : option Z;
    names_generated : option Z;
    (** [log.metadata?.personalityTraits], [log.metadata?.namePreferences];
        [undefined] when [metadata] or the member is missing *)
    personalityTraits : ErrorHandler.JsValue;
    namePreferences : ErrorHandler.JsValue }.

Record ProcessedLog : Type := mkProcessedLog
  { source : Log;
    has_personality_traits : bool;
    has_name_preferences : bool }.

(** A JavaScript number that is an integer, or the quotient of two integers
    (the floating-point division is not carried out). *)
Inductive JsNumber : Type :=
| Int (n : Z)
| Quotient (numerator denominator : Z).

Record Stats : Type := mkStats
  { total_generations : Z;
    total_credits_used : Z;
    total_names_generated : Z;
    avg_per_session : JsNumber }.

Record ResponseData : Type := mkResponseData
  { logs : list ProcessedLog;
    stats : Stats }.

Inductive Response : Type :=
| JsonError (status : Z) (error : string)
| JsonData (data : ResponseData).

(** [logs.reduce((sum, log) => sum + (f(log) || 0), 0)] *)
Definition sumOf (f : Log -> option Z) (rows : list Log) : Z :=
  fold_left (fun sum log => (sum + default 0 (f log))%Z) rows 0%Z.

(** Lines 233-253: the response built from the query result ([None] is a
    [null] result set). *)
Definition buildResponse (queried : option (list Log)) : ResponseData :=
  let stats :=
    {| total_generations :=
         match queried with Some rows => Z.of_nat (length rows) | None => 0 end;
       total_credits_used :=
         match queried with Some rows => sumOf credits_used rows | None => 0 end;
       total_names_generated :=
         match queried with Some rows => sumOf names_generated rows | None => 0 end;
       avg_per_session :=
         match queried with
         | Some rows =>
             if (Z.of_nat (length rows) >? 0)%Z
             then Quotient (sumOf names_generated rows) (Z.of_nat (length rows))
             else Int 0
         | None => Int 0
         end |} in
  let processedLogs :=
    match queried with
    | Some rows =>
        map (fun log =>
               {| source := log;
                  has_personality_traits := toBoolean (personalityTraits log);
                  has_name_preferences := toBoolean (namePreferences log) |})
            rows
    | None => []
    end in
  {| logs := processedLogs; stats := stats |}.

(** The session and the answer of the database to the history query of a
    user (newest first, at most twenty rows): [{ data, error }]. *)
Record Services : Type := mkServices
  { getUser : option string * option string;
    selectLogs : string -> option (list Log) * option string }.

(** The process-wide cache, the queries sent to the database (by user id)
    and the [console.error] lines so far. *)
Record World : Type := mkWorld
  { cache : gmap string (CacheEntry ResponseData);
    queries : list string;
    errors : list string }.

(** [GET(request)]; the clock reads [now] at the cache lookup and [later]
    when the response is stored. *)
Definition GET (svc : Services) (now later : Z) : M World Response :=
  tryCatch
    (fun w =>
       match getUser svc with
       | (Some user, None) =>
           (* Try to get from cache first *)
           let '(cached, cache1) := UserDataCache.get now user "generation_history" (cache w) in
           match cached with
           | Some hit =>
               (Returned (JsonData hit),
                {| cache := cache1; queries := queries w; errors := errors w |})
           | None =>
               (* Fetch generation logs for the user *)
               let '(queried, logsError) := selectLogs svc user in
               let w1 := {| cache := cache1;
                            queries := (queries w ++ [user])%list;
                            errors := errors w |} in
               match logsError with
               | Some _ =>
                   (Returned (JsonError 500 "Failed to fetch generation history"),
                    {| cache := cache w1; queries := queries w1;
                       errors := (errors w1 ++ ["Database error:"])%list |})
               | None =>
                   let responseData := buildResponse queried in
                   (Returned (JsonData responseData),
                    {| cache := UserDataCache.set later user "generation_history"
                                  responseData (cache w1);
                       queries := queries w1;
                       errors := errors w1 |})
               end
           end
       | _ => (Returned (JsonError 401 "Unauthorized"), w)
       end)
    (fun error w =>
       (Returned (JsonError 500 "Internal server error"),
        {| cache := cache w; queries := queries w;
           errors := (errors w ++ ["API error:"])%list |})).

End GenerationHistory.

(* ===================================================================== *)
(** * Properties *)
(* ===================================================================== *)

(** ** The cache *)

Module MemoryCacheFacts.
Import MemoryCache.
Section WithPayload.

Context {T : Type}.
Implicit Types (cache : gmap string (CacheEntry T)) (k : string) (v : T).

(** A read within the time to live hits. *)
Lemma get_set_fresh now now' k v ttlMs cache :
  now' - now <= ttlMs ->
  get now' k (set now k v (Some ttlMs) cache)
  = (Some v, set now k v (Some ttlMs) cache).
Proof.
  intros Hle. unfold get, set. rewrite lookup_insert_eq. cbn.
  unfold expired; cbn.
  destruct (Z.gtb_spec (now' - now) ttlMs) as [Hgt | _]; [lia | reflexivity].
Qed.

(** A read past the time to live misses and drops the entry. *)
Lemma get_set_stale now now' k v ttlMs cache :
  now' - now > ttlMs ->
  get now' k (set now k v (Some ttlMs) cache)
  = (None, base.delete k cache).
Proof.
  intros Hgt. unfold get, set. rewrite lookup_insert_eq. cbn.
  unfold expired; cbn.
  destruct (Z.gtb_spec (now' - now) ttlMs) as [_ | Hle]; [| lia].
  by rewrite delete_insert_eq.
Qed.

Lemma cleanup_lookup now k cache :
  cleanup now cache !! k
  = match cache !! k with
    | Some e => if expired now e then None else Some e
    | None => None
    end.
Proof.
  unfold cleanup. destruct (cache !! k) as [e |] eqn:Hk.
  - destruct (expired now e) eqn:He.
    + apply map_lookup_filter_None. right. intros x Hx. cbn.
      rewrite Hk in Hx. injection Hx as <-. congruence.
    + apply map_lookup_filter_Some. done.
  - apply map_lookup_filter_None. by left.
Qed.

(** The periodic sweep never changes what [get] answers at that time. *)
Lemma get_after_cleanup now k cache :
  fst (get now k (cleanup now cache)) = fst (get now k cache).
Proof.
  unfold get. rewrite cleanup_lookup.
  destruct (cache !! k) as [e |]; [| done].
  destruct (expired now e) eqn:He; [done |]. by rewrite He.
Qed.

(** [has] agrees with [get] on expiry. *)
Lemma has_iff_get now k cache :
  fst (has now k cache) = bool_decide (is_Some (fst (get now k cache)))
  /\ snd (has now k cache) = snd (get now k cache).
Proof.
  unfold has, get. destruct (cache !! k) as [e |]; cbn.
  - destruct (expired now e); cbn; split; try done.
  - by split.
Qed.

(** C6.  Cache round trip.  For every key [k], value [v] and [ttl > 0]:
    a [get(k)] issued at the instant of [set(k, v, ttl)] returns [v] and
    leaves the map as the [set] made it; a [get(k)] issued once the time
    elapsed since the [set] strictly exceeds [ttl] returns the absent
    sentinel [null], and afterwards the entry is gone from the map while
    every other key is as it was. *)
Theorem cache_round_trip now now' k v ttlMs cache :
  0 < ttlMs ->
  now' - now > ttlMs ->
  get now k (set now k v (Some ttlMs) cache)
    = (Some v, set now k v (Some ttlMs) cache)
  /\ fst (get now' k (set now k v (Some ttlMs) cache)) = None
  /\ snd (get now' k (set now k v (Some ttlMs) cache)) !! k = None
  /\ forall k', k' <> k ->
       snd (get now' k (set now k v (Some ttlMs) cache)) !! k' = cache !! k'.
Proof.
  intros Hpos Hgt. split.
  - apply get_set_fresh. lia.
  - rewrite get_set_stale by exact Hgt. cbn.
    split; [reflexivity |]. split.
    + apply lookup_delete_eq.
    + intros k' Hne. apply lookup_delete_ne. congruence.
Qed.

End WithPayload.

(** The round trip on a one-second entry read back at once and after
    1001 ms. *)
Lemma cache_round_trip_witness :
  fst (get 5000 "popular_names:female:5"
         (set 5000 "popular_names:female:5" 42%Z (Some 1000) ∅)) = Some 42%Z
  /\ fst (get 6001 "popular_names:female:5"
            (set 5000 "popular_names:female:5" 42%Z (Some 1000) ∅)) = None.
Proof.
  destruct (cache_round_trip (T := Z) 5000 6001 "popular_names:female:5" 42 1000 ∅)
    as [Hhit [Hmiss _]]; [lia | lia |].
  split; [by rewrite Hhit | exact Hmiss].
Defined.

End MemoryCacheFacts.

(** ** The error classifier *)

Module ErrorHandlerFacts.
Import ErrorHandler.

#[local] Arguments Js.includes : simpl never.
#[local] Arguments Js.toLowerCase : simpl never.

(** The table lists the eight kinds in the documented priority order. *)
Lemma rules_order :
  map kind rules
  = [AUTHENTICATION; AUTHORIZATION; RATE_LIMIT; PAYMENT;
     VALIDATION; NETWORK; DATABASE; EXTERNAL_SERVICE].
Proof. reflexivity. Qed.

Lemma contextLower_default (context : option string) :
  match context with Some c => Js.toLowerCase c | None => EmptyString end
  = Js.toLowerCase (default EmptyString context).
Proof. destruct context; reflexivity. Qed.

(** The chain of conditionals is the first-match evaluation of [rules]. *)
Lemma classifyError_first_match (errorMessage : string) (context : option string) :
  type (classifyError errorMessage context) = classifyByRules errorMessage context.
Proof.
  unfold classifyError, classifyByRules.
  rewrite contextLower_default.
  generalize (Js.toLowerCase errorMessage) as m.
  generalize (Js.toLowerCase (default EmptyString context)) as c.
  intros c m. unfold rules, fires. cbn [find existsb contextKeywords messageKeywords orb].
  rewrite ?orb_false_r, ?orb_assoc.
  repeat match goal with
         | |- context [if ?b then _ else _] => destruct b
         end; reflexivity.
Qed.

(** Whatever the classifier returns keeps the raw message, unless it is
    empty. *)
Lemma classifyError_message (errorMessage : string) (context : option string) :
  Js.truthy errorMessage = true ->
  message (classifyError errorMessage context) = errorMessage.
Proof.
  intros Hm. unfold classifyError.
  repeat match goal with
         | |- context [if ?b then _ else _] => destruct b
         end; cbn; rewrite Hm; reflexivity.
Qed.

(** C5 (as amended).  Applied to an untyped [Error], the classifier does
    ordered substring matching over the lowercased message and the
    lowercased optional context: it tests authentication, then
    authorization, rate-limit, payment, validation, network, database and
    external-service, and the first rule that fires decides the type.  A
    failure on which no rule fires is classified as type [internal] with
    severity [high] (not [critical]) and is retryable. *)
Theorem classify_ordered_first_match (errorMessage : string) (context : option string) :
  map kind rules
    = [AUTHENTICATION; AUTHORIZATION; RATE_LIMIT; PAYMENT;
       VALIDATION; NETWORK; DATABASE; EXTERNAL_SERVICE]
  /\ type (classifyError errorMessage context)
     = classifyByRules errorMessage context
  /\ (find (fires (Js.toLowerCase errorMessage)
                  (Js.toLowerCase (default EmptyString context))) rules = None ->
      type (classifyError errorMessage context) = INTERNAL
      /\ severity (classifyError errorMessage context) = HIGH
      /\ retryable (classifyError errorMessage context) = true).
Proof.
  split; [exact rules_order |].
  split; [apply classifyError_first_match |].
  intros Hnone.
  assert (Htype : type (classifyError errorMessage context) = INTERNAL).
  { rewrite classifyError_first_match. unfold classifyByRules. cbn zeta.
    rewrite Hnone. reflexivity. }
  split; [exact Htype |].
  revert Htype. unfold classifyError.
  repeat match goal with
         | |- context [if ?b then _ else _] => destruct b
         end; cbn; intros Htype; try discriminate Htype; split; reflexivity.
Qed.

(** An error whose text matches no keyword: internal, high. *)
Lemma classify_ordered_first_match_witness :
  type (classifyError "oops" None) = INTERNAL
  /\ severity (classifyError "oops" None) = HIGH.
Proof.
  destruct (classify_ordered_first_match "oops" None) as (_ & _ & Hdefault).
  destruct Hdefault as (Ht & Hs & _); [vm_compute; reflexivity |].
  split; [exact Ht | exact Hs].
Defined.

(** C5, the claim as stated fails: on the message [oops], which matches no
    keyword, the severity is not [critical]. *)
Lemma classify_unmatched_not_critical :
  ~ (find (fires (Js.toLowerCase "oops")
                 (Js.toLowerCase (default EmptyString None))) rules = None ->
     type (classifyError "oops" None) = INTERNAL
     /\ severity (classifyError "oops" None) = CRITICAL).
Proof.
  intros H. destruct H as [_ Hs]; [vm_compute; reflexivity |].
  vm_compute in Hs. discriminate Hs.
Qed.

(** First match wins, on a message that matches two rules: [invalid token]
    is an authentication keyword and contains the validation keyword
    [invalid]. *)
Example classify_invalid_token :
  type (classifyError "Invalid token supplied" None) = AUTHENTICATION.
Proof. reflexivity. Qed.

(** The context alone can decide: a checkout context makes any otherwise
    unmatched failure a payment error. *)
Example classify_checkout_context :
  type (classifyError "oops" (Some "Checkout")) = PAYMENT.
Proof. reflexivity. Qed.

Section PassThrough.

Variable String_ : JsValue -> Completion string.

Lemma isAppError_structural (v : JsValue) :
  isAppError v = true <->
  typeof v = "object" /\ v <> VNull
  /\ typeof (getProp v "type") = "string"
  /\ typeof (getProp v "userMessage") = "string".
Proof.
  unfold isAppError. split.
  - destruct v; cbn; try discriminate; intros H;
      apply andb_prop in H as [H1 H2];
      apply String.eqb_eq in H1; apply String.eqb_eq in H2;
      repeat split; try assumption; discriminate.
  - intros (Hobj & Hnull & Ht & Hu).
    destruct v; cbn in Hobj; try discriminate Hobj; try congruence;
      cbn in Ht, Hu |- *; try discriminate Ht; rewrite Ht, Hu; reflexivity.
Qed.

(** C9.  The pass-through test is purely structural: every non-null object
    whose [type] member is a string and whose [userMessage] member is a
    string is returned by [handleError] unchanged, with no classification,
    whatever the string in [type] is and whatever its other members are. *)
Theorem handleError_pass_through (v : JsValue) (context : option string) :
  typeof v = "object" ->
  v <> VNull ->
  typeof (getProp v "type") = "string" ->
  typeof (getProp v "userMessage") = "string" ->
  handleError String_ v context = Returns v.
Proof.
  intros Hobj Hnull Ht Hu. unfold handleError.
  assert (H : isAppError v = true) by (apply isAppError_structural; auto).
  rewrite H. reflexivity.
Qed.

End PassThrough.

(** An object that only looks typed: its [type] is none of the eleven kinds,
    it has no [severity] and its [retryable] is not a boolean.  It is handed
    back as it is. *)
Lemma handleError_pass_through_witness :
  handleError (fun _ => Returns "[object Object]")
    (VObject [("type", VString "teapot");
              ("userMessage", VString "short and stout");
              ("retryable", VNumber 7)])
    (Some "checkout")
  = Returns (VObject [("type", VString "teapot");
                      ("userMessage", VString "short and stout");
                      ("retryable", VNumber 7)]).
Proof.
  apply handleError_pass_through; [reflexivity | discriminate | reflexivity | reflexivity].
Defined.

(** An [Error] instance that carries both members bypasses classification
    too, although its message would classify as a payment failure. *)
Example handleError_typed_Error :
  handleError (fun _ => Returns "Error")
    (VError "payment declined"
       [("type", VString "conflict"); ("userMessage", VString "Try again")])
    None
  = Returns (VError "payment declined"
               [("type", VString "conflict"); ("userMessage", VString "Try again")]).
Proof. reflexivity. Qed.

(** Without the two members an [Error] is classified. *)
Example handleError_untyped_Error :
  exists appError,
    handleError (fun _ => Returns "Error") (VError "payment declined" []) None
    = Returns appError
    /\ getProp appError "type" = VString "payment".
Proof. eexists. split; reflexivity. Qed.

End ErrorHandlerFacts.

(** ** The checkout route *)

Module CreateCheckoutFacts.
Import Eff CreateCheckout.

#[local] Arguments Js.includes : simpl never.
#[local] Arguments Js.toLowerCase : simpl never.
#[local] Arguments Js.orElse : simpl never.
#[local] Arguments Js.present : simpl never.
#[local] Arguments Js.truthy : simpl never.

Section Tables.

Variables SUBSCRIPTION_TIERS CREDITS_TIERS : list Subscriptions.ProductTier.

Lemma resolveFromProductId_absent (p : option string) :
  Js.present p = false ->
  resolveFromProductId SUBSCRIPTION_TIERS CREDITS_TIERS p = None.
Proof. intros H. unfold resolveFromProductId. rewrite H. reflexivity. Qed.

Lemma resolveFromTierId_absent (t : option string) :
  Js.present t = false ->
  resolveFromTierId SUBSCRIPTION_TIERS CREDITS_TIERS t = None.
Proof. intros H. unfold resolveFromTierId. rewrite H. reflexivity. Qed.

(** A tier id that names a row of neither table resolves to nothing. *)
Lemma resolveFromTierId_unknown (t : string) :
  (forall tier, In tier SUBSCRIPTION_TIERS \/ In tier CREDITS_TIERS ->
                Subscriptions.id tier <> t) ->
  resolveFromTierId SUBSCRIPTION_TIERS CREDITS_TIERS (Some t) = None.
Proof.
  intros Hno. unfold resolveFromTierId.
  destruct (negb (Js.present (Some t))); [reflexivity |].
  change (default EmptyString (Some t)) with t.
  destruct (find _ SUBSCRIPTION_TIERS) as [sub |] eqn:Hsub.
  { apply find_some in Hsub as [Hin Heq]. apply String.eqb_eq in Heq.
    exfalso. eapply Hno; eauto. }
  destruct (find _ CREDITS_TIERS) as [credit |] eqn:Hcredit.
  { apply find_some in Hcredit as [Hin Heq]. apply String.eqb_eq in Heq.
    exfalso. eapply Hno; eauto. }
  reflexivity.
Qed.

(** [pickDefaultCreditsTier] returns the first featured credits tier when
    there is one, and the first credits tier when none is featured. *)
Lemma pickDefault_featured_else_first :
  match pickDefaultCreditsTier CREDITS_TIERS with
  | Returned (pid, amount) =>
      exists chosen,
        pid = Subscriptions.productId chosen
        /\ amount = Subscriptions.creditAmount chosen
        /\ ((Subscriptions.featured chosen = true
             /\ exists before after,
                  CREDITS_TIERS = (before ++ chosen :: after)%list
                  /\ Forall (fun t => Subscriptions.featured t = false) before)
            \/ (Forall (fun t => Subscriptions.featured t = false) CREDITS_TIERS
                /\ hd_error CREDITS_TIERS = Some chosen))
  | Thrown _ => CREDITS_TIERS = []
  end.
Proof.
  unfold pickDefaultCreditsTier.
  induction CREDITS_TIERS as [| t rest IH]; [reflexivity |].
  cbn [find]. destruct (Subscriptions.featured t) eqn:Hf.
  - exists t. repeat split. left. split; [exact Hf |].
    exists [], rest. split; [reflexivity | constructor].
  - destruct (find _ rest) as [f |] eqn:Hfind.
    + cbn in IH. destruct IH as (chosen & Hp & Ha & Hcase).
      exists chosen. split; [exact Hp |]. split; [exact Ha |].
      destruct Hcase as [[Hfeat (before & after & Hsplit & Hbefore)] | [Hall Hhd]].
      * left. split; [exact Hfeat |].
        exists (t :: before), after. split; [rewrite Hsplit; reflexivity |].
        constructor; assumption.
      * exfalso. apply find_some in Hfind as [Hin Hff].
        rewrite List.Forall_forall in Hall. specialize (Hall f Hin). congruence.
    + cbn [hd_error]. exists t. repeat split. right. split; [| reflexivity].
      constructor; [exact Hf |].
      apply List.Forall_forall. intros x Hx.
      pose proof (find_none _ _ Hfind x Hx) as Hn. cbn in Hn.
      destruct (Subscriptions.featured x); [discriminate | reflexivity].
Qed.

End Tables.


Lemma present_orElse (o : option string) :
  Js.present o = true -> Js.truthy (Js.orElse o EmptyString) = true.
Proof.
  unfold Js.present, Js.orElse. destruct o as [s |]; [| discriminate].
  intros H. rewrite H. exact H.
Qed.

(** Once a selection is made and the credentials and the e-mail address are
    there, the route calls [createCheckoutSession] exactly once, with the
    selected product and the normalised type. *)
Lemma POST_calls_checkout subs creds (svc : Services) (user : User)
    (body : RequestBody) (sel_pid : string) (sel_type : ProductType)
    (sel_amount : option Z) (calls : list CheckoutCall) :
  getUser svc = Some user ->
  requestJson svc = Some body ->
  resolveSelection subs creds body = Returned (sel_pid, sel_type, sel_amount) ->
  Js.present (processEnv svc !! "CREEM_API_URL") = true ->
  Js.present (processEnv svc !! "CREEM_API_KEY") = true ->
  Js.present (user_email user) = true ->
  snd (POST subs creds svc calls)
  = (calls ++
      [ {| call_productId := sel_pid;
           call_email := Js.orElse (user_email user) EmptyString;
           call_userId := user_id user;
           call_type :=
             match productType body with
             | Some pt =>
                 if Js.truthy pt && Js.includes (Js.toLowerCase pt) "credit"
                 then credits else sel_type
             | None => sel_type
             end;
           call_credits_amount := sel_amount;
           call_discountCode := discountCode body |} ])%list.
Proof.
  intros Huser Hbody Hsel Hurl Hkey Hmail.
  unfold POST, tryCatch, bind, lift, ret, createCheckoutSession.
  rewrite Huser, Hbody.
  change (default emptyBody (Some body)) with body.
  rewrite Hsel, Hurl, Hkey.
  cbn [negb orb]. rewrite (present_orElse _ Hmail). cbn [negb].
  destruct (checkoutSession svc _); reflexivity.
Qed.

(** The selection for [tierId = "tier-hobby"] without a product id: the
    Starter tier, as a subscription, whatever else the body carries. *)
Lemma resolveSelection_tier_hobby (env : Subscriptions.ProcessEnv) (body : RequestBody) :
  tierId body = Some "tier-hobby" ->
  Js.present (productId body) = false ->
  resolveSelection (Subscriptions.SUBSCRIPTION_TIERS env)
                   (Subscriptions.CREDITS_TIERS env) body
  = Returned (Js.orElse (env !! "CREEM_STARTER_PRODUCT_ID") "prod_starter_monthly",
              subscription, credits_amount body).
Proof.
  intros Htier Hpid. unfold resolveSelection.
  rewrite (resolveFromProductId_absent _ _ _ Hpid), Htier.
  reflexivity.
Qed.

(** C7 (as amended).  For an authenticated checkout request whose body
    carries [tierId = "tier-hobby"], no [productId], and a [productType]
    that is absent or does not contain [credit] (case-insensitively), the
    selection is the Starter subscription tier's [productId] with type
    [subscription]; with the payment credentials configured and a user
    e-mail address, exactly these are passed to the one call of
    [createCheckoutSession]. *)
Theorem checkout_tier_hobby (svc : Services) (user : User) (body : RequestBody)
    (calls : list CheckoutCall) :
  getUser svc = Some user ->
  requestJson svc = Some body ->
  tierId body = Some "tier-hobby" ->
  Js.present (productId body) = false ->
  (forall pt, productType body = Some pt ->
              Js.includes (Js.toLowerCase pt) "credit" = false) ->
  Js.present (processEnv svc !! "CREEM_API_URL") = true ->
  Js.present (processEnv svc !! "CREEM_API_KEY") = true ->
  Js.present (user_email user) = true ->
  exists starter,
    hd_error (Subscriptions.SUBSCRIPTION_TIERS (processEnv svc)) = Some starter
    /\ Subscriptions.name starter = "Starter"
    /\ Subscriptions.id starter = "tier-hobby"
    /\ snd (POST_deployed svc calls)
       = (calls ++
           [ {| call_productId := Subscriptions.productId starter;
                call_email := Js.orElse (user_email user) EmptyString;
                call_userId := user_id user;
                call_type := subscription;
                call_credits_amount := credits_amount body;
                call_discountCode := discountCode body |} ])%list.
Proof.
  intros Huser Hbody Htier Hpid Hhint Hurl Hkey Hmail.
  eexists. split; [reflexivity |]. split; [reflexivity |]. split; [reflexivity |].
  unfold POST_deployed.
  rewrite (POST_calls_checkout _ _ svc user body _ _ _ calls Huser Hbody
             (resolveSelection_tier_hobby _ body Htier Hpid) Hurl Hkey Hmail).
  cbn [Subscriptions.productId].
  destruct (productType body) as [pt |]; [| reflexivity].
  rewrite (Hhint pt eq_refl), andb_false_r. reflexivity.
Qed.

(** The plain request [{ tierId: "tier-hobby" }]. *)
Lemma checkout_tier_hobby_witness :
  map (fun c => (call_productId c, call_type c))
      (snd (POST_deployed (Scenarios.checkout Scenarios.hobbyBody) []))
  = [("prod_starter_monthly", subscription)].
Proof.
  destruct (checkout_tier_hobby (Scenarios.checkout Scenarios.hobbyBody)
              Scenarios.shopper Scenarios.hobbyBody [])
    as (starter & Hhd & _ & _ & Hcalls);
    [ reflexivity | reflexivity | reflexivity | reflexivity
    | intros pt Hpt; discriminate Hpt
    | vm_compute; reflexivity | vm_compute; reflexivity | reflexivity | ].
  rewrite Hcalls. injection Hhd as <-. reflexivity.
Defined.

(** C7, the claim as stated fails: with [tierId = "tier-hobby"], no
    [productId] and the hint [productType = "credits"], the type handed to
    [createCheckoutSession] is [credits], not [subscription]. *)
Lemma checkout_tier_hobby_credits_hint :
  tierId Scenarios.hobbyBodyWithCreditsHint = Some "tier-hobby"
  /\ productId Scenarios.hobbyBodyWithCreditsHint = None
  /\ map (fun c => (call_productId c, call_type c))
         (snd (POST_deployed (Scenarios.checkout Scenarios.hobbyBodyWithCreditsHint) []))
     = [("prod_starter_monthly", credits)]
  /\ map call_type
         (snd (POST_deployed (Scenarios.checkout Scenarios.hobbyBodyWithCreditsHint) []))
     <> [subscription].
Proof.
  split; [reflexivity |]. split; [reflexivity |].
  split; [vm_compute; reflexivity |].
  vm_compute. discriminate.
Qed.


(** The selection for a request without product id whose tier id, if any,
    names no configured tier, and whose hint is [chinese-name-credits]: the
    Standard Package, as credits, with its six credits unless the body
    brings an amount of its own. *)
Lemma resolveSelection_name_credits (env : Subscriptions.ProcessEnv) (body : RequestBody) :
  productType body = Some "chinese-name-credits" ->
  Js.present (productId body) = false ->
  (forall t, tierId body = Some t ->
     forall tier,
       In tier (Subscriptions.SUBSCRIPTION_TIERS env)
       \/ In tier (Subscriptions.CREDITS_TIERS env) ->
       Subscriptions.id tier <> t) ->
  resolveSelection (Subscriptions.SUBSCRIPTION_TIERS env)
                   (Subscriptions.CREDITS_TIERS env) body
  = Returned (Js.orElse (env !! "CREEM_STANDARD_CREDITS_ID") "prod_standard_credits",
              credits,
              match credits_amount body with
              | Some n => Some n
              | None => Some 6%Z
              end).
Proof.
  intros Hpt Hpid Htier. unfold resolveSelection.
  rewrite (resolveFromProductId_absent _ _ _ Hpid).
  assert (Hnone : resolveFromTierId (Subscriptions.SUBSCRIPTION_TIERS env)
                    (Subscriptions.CREDITS_TIERS env) (tierId body) = None).
  { destruct (tierId body) as [t |] eqn:Ht.
    - apply resolveFromTierId_unknown. intros tier Hin. exact (Htier t eq_refl tier Hin).
    - reflexivity. }
  rewrite Hnone, Hpt.
  change (Js.toLowerCase (Js.orElse (Some "chinese-name-credits") EmptyString))
    with "chinese-name-credits".
  cbn [String.eqb Ascii.eqb Bool.eqb].
  destruct (credits_amount body); reflexivity.
Qed.

(** Without a product id and without a tier id that names a configured
    tier, a hint other than [subscription] leaves the choice to
    [pickDefaultCreditsTier], whatever the tables are. *)
Lemma resolveSelection_default_credits subs creds (body : RequestBody) :
  Js.present (productId body) = false ->
  (forall t, tierId body = Some t ->
     forall tier, In tier subs \/ In tier creds -> Subscriptions.id tier <> t) ->
  Js.toLowerCase (Js.orElse (productType body) EmptyString) <> "subscription" ->
  resolveSelection subs creds body
  = match pickDefaultCreditsTier creds with
    | Returned (pid, amount) =>
        Returned (pid, credits,
                  if truthyNumber amount && isNullish (credits_amount body)
                  then amount else credits_amount body)
    | Thrown e => Thrown e
    end.
Proof.
  intros Hpid Htier Hhint. unfold resolveSelection.
  rewrite (resolveFromProductId_absent _ _ _ Hpid).
  assert (Hnone : resolveFromTierId subs creds (tierId body) = None).
  { destruct (tierId body) as [t |] eqn:Ht.
    - apply resolveFromTierId_unknown. intros tier Hin. exact (Htier t eq_refl tier Hin).
    - reflexivity. }
  rewrite Hnone.
  destruct (String.eqb_spec (Js.toLowerCase (Js.orElse (productType body) EmptyString))
              "subscription") as [Heq | _]; [contradiction |].
  destruct (pickDefaultCreditsTier creds) as [[pid amount] | e]; reflexivity.
Qed.

(** C8 (as amended).  For an authenticated checkout request with
    [productType = "chinese-name-credits"], no [productId] at all, and a
    [tierId] that is absent or names no configured tier, the route falls back
    to the first featured credits tier, and to the first credits tier when
    none is featured, whatever the (non-empty) credits table is: it passes
    that tier's [productId] with type [credits], and as [credits_amount]
    the body's own amount when it supplies one and that tier's
    [creditAmount] otherwise (a missing or zero [creditAmount] leaves the
    amount unset). *)
Theorem checkout_default_credits (subs creds : list Subscriptions.ProductTier)
    (svc : Services) (user : User) (body : RequestBody) (calls : list CheckoutCall) :
  getUser svc = Some user ->
  requestJson svc = Some body ->
  productType body = Some "chinese-name-credits" ->
  Js.present (productId body) = false ->
  (forall t, tierId body = Some t ->
     forall tier, In tier subs \/ In tier creds -> Subscriptions.id tier <> t) ->
  creds <> [] ->
  Js.present (processEnv svc !! "CREEM_API_URL") = true ->
  Js.present (processEnv svc !! "CREEM_API_KEY") = true ->
  Js.present (user_email user) = true ->
  exists chosen,
    ((Subscriptions.featured chosen = true
      /\ exists before after,
           creds = (before ++ chosen :: after)%list
           /\ Forall (fun t => Subscriptions.featured t = false) before)
     \/ (Forall (fun t => Subscriptions.featured t = false) creds
         /\ hd_error creds = Some chosen))
    /\ snd (POST subs creds svc calls)
       = (calls ++
           [ {| call_productId := Subscriptions.productId chosen;
                call_email := Js.orElse (user_email user) EmptyString;
                call_userId := user_id user;
                call_type := credits;
                call_credits_amount :=
                  match credits_amount body with
                  | Some n => Some n
                  | None =>
                      if truthyNumber (Subscriptions.creditAmount chosen)
                      then Subscriptions.creditAmount chosen
                      else None
                  end;
                call_discountCode := discountCode body |} ])%list.
Proof.
  intros Huser Hbody Hpt Hpid Htier Hcreds Hurl Hkey Hmail.
  assert (Hhint : Js.toLowerCase (Js.orElse (productType body) EmptyString)
                  <> "subscription").
  { rewrite Hpt. vm_compute. discriminate. }
  pose proof (resolveSelection_default_credits subs creds body Hpid Htier Hhint) as Hsel.
  pose proof (pickDefault_featured_else_first creds) as Hpick.
  destruct (pickDefaultCreditsTier creds) as [[pid amount] | e];
    [| contradiction].
  destruct Hpick as (chosen & -> & -> & Hchosen).
  exists chosen. split; [exact Hchosen |].
  rewrite (POST_calls_checkout _ _ svc user body _ _ _ calls Huser Hbody Hsel
             Hurl Hkey Hmail).
  rewrite Hpt.
  destruct (credits_amount body) as [n |]; cbn [isNullish];
    rewrite ?andb_false_r, ?andb_true_r; reflexivity.
Qed.

(** The plain request [{ productType: "chinese-name-credits" }] on the
    shipped tables: the featured tier is the second one. *)
Lemma checkout_default_credits_witness :
  map (fun c => (call_type c, call_credits_amount c))
      (snd (POST_deployed (Scenarios.checkout Scenarios.nameCreditsBody) []))
  = [(credits, Some 6%Z)].
Proof.
  destruct (checkout_default_credits
              (Subscriptions.SUBSCRIPTION_TIERS Scenarios.processEnv)
              (Subscriptions.CREDITS_TIERS Scenarios.processEnv)
              (Scenarios.checkout Scenarios.nameCreditsBody)
              Scenarios.shopper Scenarios.nameCreditsBody [])
    as (chosen & Hchosen & Hcalls);
    [ reflexivity | reflexivity | reflexivity | reflexivity
    | intros t Ht; discriminate Ht
    | discriminate
    | vm_compute; reflexivity | vm_compute; reflexivity | reflexivity | ].
  unfold POST_deployed. change (processEnv (Scenarios.checkout Scenarios.nameCreditsBody))
    with Scenarios.processEnv.
  rewrite Hcalls. clear Hcalls.
  destruct Hchosen as [[Hfeatured (before & after & Hsplit & Hbefore)] | [Hnone _]].
  - destruct before as [| b1 [| b2 [| b3 [| b4 before]]]];
      try discriminate Hsplit;
      injection Hsplit as <-; intros; subst;
      first [ discriminate Hfeatured
            | reflexivity
            | inversion Hbefore as [| ? ? _ Hrest]; subst;
              inversion Hrest as [| ? ? Hsecond _]; discriminate Hsecond ].
  - inversion Hnone as [| ? ? _ Hrest]. inversion Hrest as [| ? ? Hsecond _].
    discriminate Hsecond.
Defined.

(** On the shipped tables the default is the Standard Package with its six
    credits. *)
Example checkout_default_credits_shipped (svc : Services) (user : User)
    (body : RequestBody) (calls : list CheckoutCall) :
  getUser svc = Some user ->
  requestJson svc = Some body ->
  productType body = Some "chinese-name-credits" ->
  Js.present (productId body) = false ->
  (forall t, tierId body = Some t ->
     forall tier,
       In tier (Subscriptions.SUBSCRIPTION_TIERS (processEnv svc))
       \/ In tier (Subscriptions.CREDITS_TIERS (processEnv svc)) ->
       Subscriptions.id tier <> t) ->
  Js.present (processEnv svc !! "CREEM_API_URL") = true ->
  Js.present (processEnv svc !! "CREEM_API_KEY") = true ->
  Js.present (user_email user) = true ->
  exists chosen,
    nth_error (Subscriptions.CREDITS_TIERS (processEnv svc)) 1 = Some chosen
    /\ Subscriptions.name chosen = "Standard Package"
    /\ Subscriptions.featured chosen = true
    /\ Subscriptions.creditAmount chosen = Some 6%Z
    /\ snd (POST_deployed svc calls)
       = (calls ++
           [ {| call_productId := Subscriptions.productId chosen;
                call_email := Js.orElse (user_email user) EmptyString;
                call_userId := user_id user;
                call_type := credits;
                call_credits_amount :=
                  match credits_amount body with
                  | Some n => Some n
                  | None => Some 6%Z
                  end;
                call_discountCode := discountCode body |} ])%list.
Proof.
  intros Huser Hbody Hpt Hpid Htier Hurl Hkey Hmail.
  eexists. split; [reflexivity |].
  split; [reflexivity |]. split; [reflexivity |]. split; [reflexivity |].
  unfold POST_deployed.
  rewrite (POST_calls_checkout _ _ svc user body _ _ _ calls Huser Hbody
             (resolveSelection_name_credits _ body Hpt Hpid Htier) Hurl Hkey Hmail).
  rewrite Hpt. reflexivity.
Qed.

(** A credits table in which no tier is featured: the first tier is taken. *)
Example checkout_default_credits_none_featured :
  map (fun c => (call_productId c, call_type c, call_credits_amount c))
      (snd (POST (Subscriptions.SUBSCRIPTION_TIERS Scenarios.processEnv)
                 (map (fun t =>
                         {| Subscriptions.name := Subscriptions.name t;
                            Subscriptions.id := Subscriptions.id t;
                            Subscriptions.productId := Subscriptions.productId t;
                            Subscriptions.priceMonthly := Subscriptions.priceMonthly t;
                            Subscriptions.description := Subscriptions.description t;
                            Subscriptions.features := Subscriptions.features t;
                            Subscriptions.featured := false;
                            Subscriptions.discountCode := Subscriptions.discountCode t;
                            Subscriptions.creditAmount := Subscriptions.creditAmount t |})
                      (Subscriptions.CREDITS_TIERS Scenarios.processEnv))
                 (Scenarios.checkout Scenarios.nameCreditsBody) []))
  = [("prod_basic_credits", credits, Some 3%Z)].
Proof. vm_compute. reflexivity. Qed.

(** C8, the claim as stated fails: a request with
    [productType = "chinese-name-credits"] whose [productId] is that of no
    configured tier (and which has no [tierId]) does not fall back to the
    default credits tier; the unknown product id is passed on as it is, and
    the default tier's credit amount is not used. *)
Lemma checkout_unknown_product_no_fallback :
  productType Scenarios.unknownProductBody = Some "chinese-name-credits"
  /\ tierId Scenarios.unknownProductBody = None
  /\ Forall (fun tier => Subscriptions.productId tier <> "prod_legacy_pack")
       (Subscriptions.SUBSCRIPTION_TIERS Scenarios.processEnv
        ++ Subscriptions.CREDITS_TIERS Scenarios.processEnv)%list
  /\ map (fun c => (call_productId c, call_type c, call_credits_amount c))
         (snd (POST_deployed (Scenarios.checkout Scenarios.unknownProductBody) []))
     = [("prod_legacy_pack", credits, None)]
  /\ map (fun c => (call_productId c, call_credits_amount c))
         (snd (POST_deployed (Scenarios.checkout Scenarios.unknownProductBody) []))
     <> [("prod_standard_credits", Some 6%Z)].
Proof.
  split; [reflexivity |]. split; [reflexivity |].
  split; [repeat constructor; vm_compute; discriminate |].
  split; [vm_compute; reflexivity |].
  vm_compute. discriminate.
Qed.

(** An unknown tier id alone does fall back. *)
Example checkout_unknown_tier_falls_back :
  map (fun c => (call_productId c, call_type c, call_credits_amount c))
      (snd (POST_deployed
              (Scenarios.checkout
                 {| productId := None; tierId := Some "tier-legacy";
                    productType := Some "chinese-name-credits";
                    credits_amount := None; quantity := None;
                    discountCode := None |}) []))
  = [("prod_standard_credits", credits, Some 6%Z)].
Proof. vm_compute. reflexivity. Qed.

End CreateCheckoutFacts.

(** ** The PDF export route *)

Module CustomersFacts.
Import GeneratePdf.

Lemma filter_withCredits (id : string) (n : Z) (at_ : string) (rows : list Customer) :
  List.filter (fun c => String.eqb (user_id c) id) (withCredits id n at_ rows)
  = map (fun c => {| customer_id := customer_id c; user_id := user_id c;
                     credits := n; updated_at := at_ |})
        (List.filter (fun c => String.eqb (user_id c) id) rows).
Proof.
  unfold withCredits. induction rows as [| c rows IH]; [reflexivity |].
  cbn [map List.filter]. destruct (String.eqb (user_id c) id) eqn:Hc.
  - cbn. rewrite Hc. cbn. rewrite IH. reflexivity.
  - rewrite Hc. exact IH.
Qed.

(** Rows of other users are not touched by the update. *)
Lemma withCredits_others (id : string) (n : Z) (at_ : string) (rows : list Customer) :
  List.filter (fun c => negb (String.eqb (user_id c) id)) (withCredits id n at_ rows)
  = List.filter (fun c => negb (String.eqb (user_id c) id)) rows.
Proof.
  unfold withCredits. induction rows as [| c rows IH]; [reflexivity |].
  cbn [map List.filter]. destruct (String.eqb (user_id c) id) eqn:Hc.
  - cbn. rewrite Hc. cbn. exact IH.
  - rewrite Hc. cbn. rewrite IH. reflexivity.
Qed.

End CustomersFacts.

Module GeneratePdfFacts.
Import Eff GeneratePdf CustomersFacts.

#[local] Arguments Z.ltb : simpl never.
#[local] Arguments Z.sub : simpl never.
#[local] Arguments String.append : simpl never.
#[local] Arguments lengthToString : simpl never.
#[local] Arguments orZero : simpl never.
#[local] Arguments List.filter : simpl never.

Ltac unfold_route :=
  unfold run, POST, generateNameCertificate, generatePDF,
    isPDFGenerationAvailable, getPuppeteer, selectCustomer, updateCustomer,
    insertHistory, consoleError, emit, setDb, tryCatch, bind, lift, ret,
    throw, modify.

(** Run the handler up to the credit check, given [AtCreditCheck]. *)
Ltac enter_check H :=
  let Hu := fresh "Hu" in
  let Hb := fresh "Hb" in
  let Hp := fresh "Hp" in
  let Hs := fresh "Hs" in
  let Hf := fresh "Hf" in
  destruct H as (Hu & Hb & Hp & Hs & Hf);
  unfold_route; rewrite Hu, Hb; cbn;
  match goal with
  | |- context [if ?l then _ else _] =>
      destruct l; [| destruct Hp as [Hp | Hp]; [discriminate Hp | rewrite Hp]]
  end;
  cbn; rewrite Hs, Hf; cbn.

Ltac early_exit :=
  split; [reflexivity |];
  split; [reflexivity |];
  eexists; split; [reflexivity | cbn; tauto].

Section Paths.

Variables (svc : Services) (d : Db) (loaded : bool).
Variables (user : User) (nd : NameData) (ud : UserData) (customer : Customer).
Hypothesis Hcheck : AtCreditCheck svc d loaded user nd ud customer.

#[local] Abbreviation html := (generateCertificateHTML svc nd ud).
#[local] Abbreviation fileName := (chinese nd ++ "_certificate.pdf").

(** Insufficient balance: denied with 403, nothing touched. *)
Lemma run_denied :
  (credits customer < 1)%Z ->
  run svc d loaded
  = (Returned
       (json [("error", JString "Insufficient credits. PDF generation requires 1 credit.");
              ("creditsRequired", JNumber 1);
              ("currentCredits", JNumber (orZero (credits customer)))]
             403),
     {| db := d; puppeteerLoaded := true; trace := [] |}).
Proof.
  intros Hlt. apply Z.ltb_lt in Hlt.
  enter_check Hcheck; rewrite Hlt; reflexivity.
Qed.

(** The render raises: 500, nothing written.  What [details] says depends
    on how the cleanup in the [catch] block goes. *)
Lemma run_render_failed (e : Exn) :
  (1 <= credits customer)%Z ->
  renderPdf svc html = Thrown e ->
  exists details,
    run svc d loaded
    = (Returned
         (json [("error", JString "Failed to generate PDF certificate. Please try again.");
                ("details", JString details)]
               500),
       {| db := d; puppeteerLoaded := true;
          trace := [Render html; ConsoleError "PDF generation error:"] |}).
Proof.
  intros Hge Hr. apply Z.ltb_ge in Hge.
  enter_check Hcheck; rewrite Hge, Hr; cbn;
    unfold browserLaunched;
    destruct (launch svc) as [[] | launchError]; cbn;
    try (destruct (closeBrowserAfterFailure svc) as [[] | [m | x]]; cbn);
    try (destruct e as [m' | [text | [m' | x']]]; cbn);
    eexists; reflexivity.
Qed.

(** The render succeeds and the balance update reports an error: the PDF
    is returned, nothing is written, the failure is logged. *)
Lemma run_update_failed (pdfBuffer err encoded : string) :
  (1 <= credits customer)%Z ->
  renderPdf svc html = Returned pdfBuffer ->
  updateError svc = Some err ->
  encodeURIComponent svc fileName = Some encoded ->
  run svc d loaded
  = (Returned (pdfAttachment pdfBuffer encoded),
     {| db := d; puppeteerLoaded := true;
        trace := [Render html;
                  CustomersUpdate (uid user) (credits customer - 1);
                  ConsoleError "Failed to deduct credits:"] |}).
Proof.
  intros Hge Hr Hupd Henc. apply Z.ltb_ge in Hge.
  enter_check Hcheck; rewrite Hge, Hr; cbn; rewrite Hupd; cbn;
    unfold pdfResponse; rewrite Henc; reflexivity.
Qed.

(** The same, but the file name cannot be encoded: building the response
    throws, and the answer is 500. *)
Lemma run_update_failed_unencodable (pdfBuffer err : string) :
  (1 <= credits customer)%Z ->
  renderPdf svc html = Returned pdfBuffer ->
  updateError svc = Some err ->
  encodeURIComponent svc fileName = None ->
  run svc d loaded
  = (Returned
       (json [("error", JString "Failed to generate PDF certificate. Please try again.");
              ("details", JString "URI malformed")]
             500),
     {| db := d; puppeteerLoaded := true;
        trace := [Render html;
                  CustomersUpdate (uid user) (credits customer - 1);
                  ConsoleError "Failed to deduct credits:";
                  ConsoleError "PDF generation error:"] |}).
Proof.
  intros Hge Hr Hupd Henc. apply Z.ltb_ge in Hge.
  enter_check Hcheck; rewrite Hge, Hr; cbn; rewrite Hupd; cbn;
    unfold pdfResponse; rewrite Henc; reflexivity.
Qed.

(** The render succeeds and the balance update is accepted: the PDF is
    returned, the balance is decremented, and the ledger insert is issued;
    the row lands unless the insert itself reports an error. *)
Lemma run_charged (pdfBuffer encoded : string) :
  (1 <= credits customer)%Z ->
  renderPdf svc html = Returned pdfBuffer ->
  updateError svc = None ->
  encodeURIComponent svc fileName = Some encoded ->
  run svc d loaded
  = (Returned (pdfAttachment pdfBuffer encoded),
     {| db :=
          {| customers :=
               withCredits (uid user) (credits customer - 1) (nowISO svc) (customers d);
             credits_history :=
               match insertError svc with
               | Some _ => credits_history d
               | None => (credits_history d ++ [chargeRow svc nd ud customer])%list
               end |};
        puppeteerLoaded := true;
        trace := [Render html;
                  CustomersUpdate (uid user) (credits customer - 1);
                  HistoryInsert (chargeRow svc nd ud customer)] |}).
Proof.
  intros Hge Hr Hupd Henc. apply Z.ltb_ge in Hge.
  enter_check Hcheck; rewrite Hge, Hr; cbn; rewrite Hupd; cbn;
    unfold pdfResponse; rewrite Henc;
    destruct (insertError svc); reflexivity.
Qed.

(** The same, but the file name cannot be encoded: the charge has been
    made, and the answer is 500. *)
Lemma run_charged_unencodable (pdfBuffer : string) :
  (1 <= credits customer)%Z ->
  renderPdf svc html = Returned pdfBuffer ->
  updateError svc = None ->
  encodeURIComponent svc fileName = None ->
  run svc d loaded
  = (Returned
       (json [("error", JString "Failed to generate PDF certificate. Please try again.");
              ("details", JString "URI malformed")]
             500),
     {| db :=
          {| customers :=
               withCredits (uid user) (credits customer - 1) (nowISO svc) (customers d);
             credits_history :=
               match insertError svc with
               | Some _ => credits_history d
               | None => (credits_history d ++ [chargeRow svc nd ud customer])%list
               end |};
        puppeteerLoaded := true;
        trace := [Render html;
                  CustomersUpdate (uid user) (credits customer - 1);
                  HistoryInsert (chargeRow svc nd ud customer);
                  ConsoleError "PDF generation error:"] |}).
Proof.
  intros Hge Hr Hupd Henc. apply Z.ltb_ge in Hge.
  enter_check Hcheck; rewrite Hge, Hr; cbn; rewrite Hupd; cbn;
    unfold pdfResponse; rewrite Henc;
    destruct (insertError svc); reflexivity.
Qed.

End Paths.

Lemma run_cases (svc : Services) (d : Db) (loaded : bool) :
  (exists user nd ud customer, AtCreditCheck svc d loaded user nd ud customer)
  \/ EndsEarly svc d loaded.
Proof.
  unfold EndsEarly.
  destruct (getUser svc) as [[user |] [authError |]] eqn:Hu;
    try (right; unfold_route; rewrite Hu; cbn; early_exit).
  destruct (requestJson svc) as [[[nd |] [ud |]] | e] eqn:Hb;
    try (right; unfold_route; rewrite Hu, Hb; cbn; early_exit).
  assert (Hload : loaded = true \/ importPuppeteer svc = Returned tt
                  \/ exists e, loaded = false /\ importPuppeteer svc = Thrown e).
  { destruct loaded; [left; reflexivity | right].
    destruct (importPuppeteer svc) as [[] | e]; [left; reflexivity | right; eauto]. }
  destruct Hload as [Hload | [Hload | (e & Hfalse & Hload)]].
  3: { right; unfold_route; rewrite Hu, Hb, Hfalse; cbn; rewrite Hload; cbn;
       destruct (messageText e); cbn; early_exit. }
  all: destruct (selectError svc) as [err |] eqn:Hs;
    try (right; unfold_route; rewrite Hu, Hb; cbn;
         (destruct loaded; [| first [discriminate Hload | rewrite Hload]]);
         cbn; rewrite Hs; cbn; early_exit).
  all: destruct (List.filter (fun c => String.eqb (user_id c) (uid user)) (customers d))
         as [| customer [| c' rest]] eqn:Hf;
    try (right; unfold_route; rewrite Hu, Hb; cbn;
         (destruct loaded; [| first [discriminate Hload | rewrite Hload]]);
         cbn; rewrite Hs, Hf; cbn; early_exit).
  all: left; exists user, nd, ud, customer; unfold AtCreditCheck; auto 10.
Qed.

(** Split a run into its seven shapes and rewrite it everywhere: denied;
    update rejected (PDF returned, or the response cannot be built); charged
    (PDF returned, or the response cannot be built); render failed; ended
    before the credit check. *)
Ltac run_analysis svc d loaded :=
  let user := fresh "user" in
  let nd := fresh "nd" in
  let ud := fresh "ud" in
  let c := fresh "customer" in
  let Hc := fresh "Hcheck" in
  let Hearly := fresh "Hearly" in
  destruct (run_cases svc d loaded) as [(user & nd & ud & c & Hc) | Hearly];
  [ let Hlt := fresh "Hlt" in
    let Hge := fresh "Hge" in
    destruct (Z.lt_ge_cases (credits c) 1) as [Hlt | Hge];
    [ rewrite (run_denied _ _ _ _ _ _ _ Hc Hlt) in *
    | let buf := fresh "pdfBuffer" in
      let e := fresh "e" in
      let Hr := fresh "Hrender" in
      destruct (renderPdf svc (generateCertificateHTML svc nd ud)) as [buf | e] eqn:Hr;
      [ let err := fresh "err" in
        let Hupd := fresh "Hupdate" in
        let enc := fresh "encoded" in
        let Henc := fresh "Hencoded" in
        destruct (updateError svc) as [err |] eqn:Hupd;
        (destruct (encodeURIComponent svc (chinese nd ++ "_certificate.pdf"))
           as [enc |] eqn:Henc);
        [ rewrite (run_update_failed _ _ _ _ _ _ _ Hc buf err enc Hge Hr Hupd Henc) in *
        | rewrite (run_update_failed_unencodable _ _ _ _ _ _ _ Hc buf err Hge Hr Hupd Henc) in *
        | rewrite (run_charged _ _ _ _ _ _ _ Hc buf enc Hge Hr Hupd Henc) in *
        | rewrite (run_charged_unencodable _ _ _ _ _ _ _ Hc buf Hge Hr Hupd Henc) in * ]
      | let details := fresh "details" in
        let Hrun := fresh "Hrun" in
        destruct (run_render_failed _ _ _ _ _ _ _ Hc e Hge Hr) as [details Hrun];
        rewrite Hrun in *; clear Hrun ] ]
  | destruct Hearly as (? & ? & ? & ? & ?) ].

Lemma console_only (tr : list Event) (ev : Event) :
  forallb isConsoleError tr = true -> In ev tr -> isConsoleError ev = true.
Proof. intros Hall Hin. exact (proj1 (forallb_forall _ _) Hall ev Hin). Qed.

(** Take apart [Hin : In ev tr] for a trace [tr] that is written out,
    dropping the events that cannot be [ev]. *)
Ltac in_trace Hin :=
  cbn [In] in Hin;
  repeat (destruct Hin as [Hin | Hin]; [try discriminate Hin |]);
  try contradiction.

Lemma orZero_id (n : Z) : orZero n = n.
Proof. unfold orZero. destruct (Z.eqb_spec n 0); congruence. Qed.

(** C2 (as amended).  A customer whose balance is below one credit (zero
    included) and whose request gets as far as the credit check is denied:
    the response is 403, its body reports [creditsRequired = 1] and
    [currentCredits] equal to the balance, no render is attempted, and no
    row is appended to [credits_history] (the database is left as it was). *)
Theorem insufficient_credits_denied (svc : Services) (d : Db) (loaded : bool)
    (user : User) (nd : NameData) (ud : UserData) (customer : Customer) :
  AtCreditCheck svc d loaded user nd ud customer ->
  (credits customer < 1)%Z ->
  exists resp,
    fst (run svc d loaded) = Returned resp
    /\ status resp = 403%Z
    /\ field "creditsRequired" resp = Some (JNumber 1)
    /\ field "currentCredits" resp = Some (JNumber (credits customer))
    /\ forallb (fun ev => negb (isRender ev)) (trace (snd (run svc d loaded))) = true
    /\ forallb (fun ev => negb (isHistoryInsert ev)) (trace (snd (run svc d loaded))) = true
    /\ credits_history (db (snd (run svc d loaded))) = credits_history d
    /\ db (snd (run svc d loaded)) = d.
Proof.
  intros Hcheck Hlt. rewrite (run_denied _ _ _ _ _ _ _ Hcheck Hlt).
  eexists. split; [reflexivity |]. cbn.
  rewrite orZero_id. repeat split; reflexivity.
Qed.

(** A customer with no credits at all. *)
Lemma insufficient_credits_denied_witness :
  exists resp,
    fst (run (Scenarios.pdf (Returned "%PDF-1.7") None None) (Scenarios.dbWith 0) false)
    = Returned resp
    /\ status resp = 403%Z
    /\ field "currentCredits" resp = Some (JNumber 0).
Proof.
  destruct (insufficient_credits_denied
              (Scenarios.pdf (Returned "%PDF-1.7") None None) (Scenarios.dbWith 0) false
              (mkUser "user-1") Scenarios.liName Scenarios.ada (Scenarios.customerWith 0))
    as (resp & Hrun & Hstatus & _ & Hcurrent & _).
  - repeat split; try reflexivity. right. reflexivity.
  - reflexivity.
  - exists resp. repeat split; assumption.
Defined.

(** C2, the claim as stated fails: the customer is authenticated and has no
    credits, but the PDF utility's module cannot be loaded; the availability
    test of lines 68-74 comes before the credit check, and the response is
    503, not 403. *)
Lemma insufficient_credits_renderer_unavailable :
  getUser (Scenarios.pdfFor Scenarios.liName
             (Thrown (ErrorWith "Cannot find module 'puppeteer'"))
             (Returned "%PDF-1.7") None None)
  = (Some (mkUser "user-1"), None)
  /\ balancesOf "user-1" (Scenarios.dbWith 0) = [0%Z]
  /\ exists resp,
       fst (run (Scenarios.pdfFor Scenarios.liName
                   (Thrown (ErrorWith "Cannot find module 'puppeteer'"))
                   (Returned "%PDF-1.7") None None)
                (Scenarios.dbWith 0) false)
       = Returned resp
       /\ status resp = 503%Z
       /\ status resp <> 403%Z.
Proof.
  split; [reflexivity |]. split; [reflexivity |].
  eexists. split; [reflexivity |]. split; [reflexivity | discriminate].
Qed.

(** Whatever else happens to a request of a customer with less than one
    credit (a missing body member gives 400, an unavailable renderer 503, a
    failed customer read 500), nothing is rendered and nothing is written. *)
Lemma low_balance_never_renders (svc : Services) (d : Db) (loaded : bool)
    (user : User) (customer : Customer) :
  getUser svc = (Some user, None) ->
  List.filter (fun c => String.eqb (user_id c) (uid user)) (customers d) = [customer] ->
  (credits customer < 1)%Z ->
  db (snd (run svc d loaded)) = d
  /\ forallb (fun ev => negb (isRender ev)) (trace (snd (run svc d loaded))) = true.
Proof.
  intros Hu Hf Hlow.
  assert (Hsame : forall user' nd ud customer',
            AtCreditCheck svc d loaded user' nd ud customer' ->
            (credits customer' < 1)%Z).
  { intros user' nd ud customer' (Hu' & _ & _ & _ & Hf').
    rewrite Hu in Hu'. injection Hu' as <-. rewrite Hf in Hf'.
    injection Hf' as <-. exact Hlow. }
  run_analysis svc d loaded; cbn [fst snd trace db];
    try (exfalso;
         match goal with
         | Hc : AtCreditCheck _ _ _ _ _ _ _ |- _ => pose proof (Hsame _ _ _ _ Hc)
         end; lia).
  - split; reflexivity.
  - match goal with
    | Hall : forallb isConsoleError _ = true, Hdb : db _ = d |- _ =>
        split; [exact Hdb |];
        apply forallb_forall; intros ev Hin;
        pose proof (console_only _ _ Hall Hin) as Hc;
        destruct ev; cbn in Hc; try discriminate Hc; reflexivity
    end.
Qed.

(** C1 (as amended).  For an authenticated customer whose balance is exactly
    one credit, a request whose render succeeds, whose balance update and
    ledger insert are both accepted by the database, and whose file name
    [encodeURIComponent] accepts, returns 200 with an [application/pdf]
    body, leaves the customer's credits at 0, and appends exactly one
    [credits_history] row, with [amount = 1] and [type = "subtract"]. *)
Theorem single_credit_charged (svc : Services) (d : Db) (loaded : bool)
    (user : User) (nd : NameData) (ud : UserData) (customer : Customer)
    (pdfBuffer encoded : string) :
  AtCreditCheck svc d loaded user nd ud customer ->
  credits customer = 1%Z ->
  renderPdf svc (generateCertificateHTML svc nd ud) = Returned pdfBuffer ->
  updateError svc = None ->
  insertError svc = None ->
  encodeURIComponent svc (chinese nd ++ "_certificate.pdf") = Some encoded ->
  exists resp row,
    fst (run svc d loaded) = Returned resp
    /\ status resp = 200%Z
    /\ header "Content-Type" resp = Some "application/pdf"
    /\ body resp = Binary pdfBuffer
    /\ balancesOf (uid user) (db (snd (run svc d loaded))) = [0%Z]
    /\ credits_history (db (snd (run svc d loaded)))
       = (credits_history d ++ [row])%list
    /\ amount row = 1%Z
    /\ type row = "subtract"
    /\ row_customer_id row = customer_id customer.
Proof.
  intros Hcheck Hone Hrender Hupdate Hinsert Hencoded.
  assert (Hge : (1 <= credits customer)%Z) by lia.
  rewrite (run_charged _ _ _ _ _ _ _ Hcheck pdfBuffer encoded Hge Hrender Hupdate Hencoded).
  rewrite Hinsert.
  exists (pdfAttachment pdfBuffer encoded), (chargeRow svc nd ud customer).
  cbn [fst snd db credits_history]. repeat split; try reflexivity.
  unfold balancesOf. cbn [customers].
  rewrite filter_withCredits.
  destruct Hcheck as (_ & _ & _ & _ & Hf). rewrite Hf, Hone. reflexivity.
Qed.

(** The nominal run on a balance of one credit. *)
Lemma single_credit_charged_witness :
  balancesOf "user-1"
    (db (snd (run (Scenarios.pdf (Returned "%PDF-1.7") None None)
                  (Scenarios.dbWith 1) false)))
  = [0%Z]
  /\ length (credits_history
               (db (snd (run (Scenarios.pdf (Returned "%PDF-1.7") None None)
                             (Scenarios.dbWith 1) false))))
     = 1%nat.
Proof.
  destruct (single_credit_charged
              (Scenarios.pdf (Returned "%PDF-1.7") None None) (Scenarios.dbWith 1) false
              (mkUser "user-1") Scenarios.liName Scenarios.ada (Scenarios.customerWith 1)
              "%PDF-1.7" "Li%20Ming_certificate.pdf")
    as (resp & row & _ & _ & _ & _ & Hbalance & Hhistory & _).
  - repeat split; try reflexivity. right. reflexivity.
  - reflexivity.
  - reflexivity.
  - reflexivity.
  - reflexivity.
  - reflexivity.
  - split; [exact Hbalance |]. rewrite Hhistory. reflexivity.
Defined.

(** C1, the claim as stated fails: the customer has exactly one credit and
    the render succeeds, but the balance update reports an error; the
    response is still 200, yet the balance stays at 1 and no ledger row is
    appended. *)
Lemma single_credit_update_rejected :
  AtCreditCheck (Scenarios.pdf (Returned "%PDF-1.7") (Some "connection reset") None)
    (Scenarios.dbWith 1) false
    (mkUser "user-1") Scenarios.liName Scenarios.ada (Scenarios.customerWith 1)
  /\ (exists resp,
        fst (run (Scenarios.pdf (Returned "%PDF-1.7") (Some "connection reset") None)
                 (Scenarios.dbWith 1) false) = Returned resp
        /\ status resp = 200%Z)
  /\ balancesOf "user-1"
       (db (snd (run (Scenarios.pdf (Returned "%PDF-1.7") (Some "connection reset") None)
                     (Scenarios.dbWith 1) false)))
     = [1%Z]
  /\ balancesOf "user-1"
       (db (snd (run (Scenarios.pdf (Returned "%PDF-1.7") (Some "connection reset") None)
                     (Scenarios.dbWith 1) false)))
     <> [0%Z]
  /\ credits_history
       (db (snd (run (Scenarios.pdf (Returned "%PDF-1.7") (Some "connection reset") None)
                     (Scenarios.dbWith 1) false)))
     = [].
Proof.
  split; [repeat split; try reflexivity; right; reflexivity |].
  split; [eexists; split; reflexivity |].
  split; [reflexivity |].
  split; [vm_compute; discriminate | reflexivity].
Qed.

(** The result of the ledger insert is not looked at: when only the insert
    is rejected the response is 200 and the balance is decremented, but no
    row is appended. *)
Example single_credit_insert_rejected :
  (exists resp,
     fst (run (Scenarios.pdf (Returned "%PDF-1.7") None (Some "permission denied"))
              (Scenarios.dbWith 1) false) = Returned resp
     /\ status resp = 200%Z)
  /\ balancesOf "user-1"
       (db (snd (run (Scenarios.pdf (Returned "%PDF-1.7") None (Some "permission denied"))
                     (Scenarios.dbWith 1) false)))
     = [0%Z]
  /\ credits_history
       (db (snd (run (Scenarios.pdf (Returned "%PDF-1.7") None (Some "permission denied"))
                     (Scenarios.dbWith 1) false)))
     = [].
Proof.
  split; [eexists; split; reflexivity |].
  split; reflexivity.
Qed.

(** The response is built after the charge, inside the same [try]: for a
    name with a lone surrogate [encodeURIComponent] throws, so the customer
    with one credit is charged, the ledger row is written, and the answer
    is 500. *)
Example single_credit_unencodable_name :
  (exists resp,
     fst (run (Scenarios.pdfFor Scenarios.unpairedName (Returned tt)
                 (Returned "%PDF-1.7") None None)
              (Scenarios.dbWith 1) false) = Returned resp
     /\ status resp = 500%Z
     /\ field "details" resp = Some (JString "URI malformed"))
  /\ balancesOf "user-1"
       (db (snd (run (Scenarios.pdfFor Scenarios.unpairedName (Returned tt)
                        (Returned "%PDF-1.7") None None)
                     (Scenarios.dbWith 1) false)))
     = [0%Z]
  /\ length (credits_history
               (db (snd (run (Scenarios.pdfFor Scenarios.unpairedName (Returned tt)
                                (Returned "%PDF-1.7") None None)
                             (Scenarios.dbWith 1) false))))
     = 1%nat.
Proof.
  split; [eexists; split; [reflexivity | split; reflexivity] |].
  split; reflexivity.
Qed.

(** Every charge step of a run (the balance update, the ledger insert) comes
    after a render that returned. *)
Lemma charge_after_render (svc : Services) (d : Db) (loaded : bool) (ev : Event) :
  In ev (trace (snd (run svc d loaded))) ->
  isCustomersUpdate ev = true \/ isHistoryInsert ev = true ->
  exists h pdfBuffer before after,
    trace (snd (run svc d loaded)) = (before ++ Render h :: after)%list
    /\ In ev after
    /\ renderPdf svc h = Returned pdfBuffer.
Proof.
  run_analysis svc d loaded; cbn [snd trace]; intros Hin Hkind.
  7: { match goal with
       | Hall : forallb isConsoleError _ = true |- _ =>
           pose proof (console_only _ _ Hall Hin) as Hconsole
       end.
       destruct ev; cbn in Hconsole; try discriminate Hconsole.
       destruct Hkind; discriminate. }
  all: cbn [In] in Hin;
    repeat (destruct Hin as [<- | Hin]);
    try contradiction; try (destruct Hkind; discriminate).
  all: eexists _, _, [], _; (split; [reflexivity |]); (split; [| eassumption]);
    cbn [In]; tauto.
Qed.

(** C3.  Whenever the render raises, no charge is applied: the database is
    as it was (credits unchanged, no [credits_history] row), neither the
    balance update nor the ledger insert is issued, and the response is a
    500.  Equivalently, a charge step only ever runs after a render that
    succeeded. *)
Theorem render_failure_never_charges (svc : Services) (d : Db) (loaded : bool) :
  (forall h e,
     In (Render h) (trace (snd (run svc d loaded))) ->
     renderPdf svc h = Thrown e ->
     db (snd (run svc d loaded)) = d
     /\ forallb (fun ev => negb (isCustomersUpdate ev) && negb (isHistoryInsert ev))
               (trace (snd (run svc d loaded))) = true
     /\ exists resp,
          fst (run svc d loaded) = Returned resp /\ status resp = 500%Z)
  /\ (forall ev,
        In ev (trace (snd (run svc d loaded))) ->
        isCustomersUpdate ev = true \/ isHistoryInsert ev = true ->
        exists h pdfBuffer before after,
          trace (snd (run svc d loaded)) = (before ++ Render h :: after)%list
          /\ In ev after
          /\ renderPdf svc h = Returned pdfBuffer).
Proof.
  split; [| intros ev; apply charge_after_render].
  run_analysis svc d loaded; cbn [fst snd trace db]; intros h e0 Hin Hthrown.
  7: { match goal with
       | Hall : forallb isConsoleError _ = true |- _ =>
           pose proof (console_only _ _ Hall Hin) as Hconsole
       end.
       discriminate Hconsole. }
  6: { split; [reflexivity |]. split; [reflexivity |].
       eexists. split; reflexivity. }
  all: cbn [In] in Hin;
    repeat (destruct Hin as [Hin | Hin]; [try discriminate Hin |]);
    try contradiction;
    injection Hin as <-; congruence.
Qed.

(** A run whose render throws. *)
Lemma render_failure_never_charges_witness :
  db (snd (run (Scenarios.pdf (Thrown (ErrorWith "Navigation timeout")) None None)
               (Scenarios.dbWith 3) false))
  = Scenarios.dbWith 3
  /\ exists resp,
       fst (run (Scenarios.pdf (Thrown (ErrorWith "Navigation timeout")) None None)
                (Scenarios.dbWith 3) false) = Returned resp
       /\ status resp = 500%Z.
Proof.
  destruct (render_failure_never_charges
              (Scenarios.pdf (Thrown (ErrorWith "Navigation timeout")) None None)
              (Scenarios.dbWith 3) false) as [Hfail _].
  destruct (Hfail "<html>certificate</html>" (ErrorWith "Navigation timeout"))
    as (Hdb & _ & Hresp).
  - left. reflexivity.
  - reflexivity.
  - split; [exact Hdb | exact Hresp].
Defined.




(** C10.  The ledger insert is issued only after a balance update that
    reported success, directly after it, and at most once; nothing but
    logging follows it.  When the balance update reports an error, no
    insert is issued and [credits_history] is as it was.  So the ledger
    never records a charge whose balance decrement was not accepted. *)
Theorem ledger_row_only_after_accepted_update (svc : Services) (d : Db) (loaded : bool) :
  (forall row,
     In (HistoryInsert row) (trace (snd (run svc d loaded))) ->
     updateError svc = None
     /\ exists before after user newCredits,
          trace (snd (run svc d loaded))
          = (before ++ CustomersUpdate user newCredits :: HistoryInsert row :: after)%list
          /\ forallb (fun ev => negb (isHistoryInsert ev)) before = true
          /\ forallb isConsoleError after = true)
  /\ (updateError svc <> None ->
      forallb (fun ev => negb (isHistoryInsert ev)) (trace (snd (run svc d loaded))) = true
      /\ credits_history (db (snd (run svc d loaded))) = credits_history d)
  /\ (credits_history (db (snd (run svc d loaded))) = credits_history d
      \/ exists row,
           credits_history (db (snd (run svc d loaded)))
           = (credits_history d ++ [row])%list
           /\ updateError svc = None
           /\ In (HistoryInsert row) (trace (snd (run svc d loaded)))).
Proof.
  run_analysis svc d loaded; cbn [fst snd trace db credits_history].
  7: { match goal with
       | Hall : forallb isConsoleError _ = true, Hdb : db _ = d |- _ =>
           rename Hall into Hconsole; rename Hdb into Hsame
       end.
       split.
       { intros row Hin. pose proof (console_only _ _ Hconsole Hin) as Hc.
         discriminate Hc. }
       split; [| left; rewrite Hsame; reflexivity].
       intros _. split; [| rewrite Hsame; reflexivity].
       apply forallb_forall. intros ev Hin.
       pose proof (console_only _ _ Hconsole Hin) as Hc.
       destruct ev; cbn in Hc; try discriminate Hc. reflexivity. }
  all: split;
    [ intros row Hin; in_trace Hin
    | split;
      [ intros Hne; first [congruence | split; reflexivity]
      | first [ left; reflexivity
              | destruct (insertError svc);
                [ left; reflexivity
                | right; eexists; split; [reflexivity |]; split; [reflexivity |];
                  cbn [In]; tauto ] ] ] ].
  all: injection Hin as <-; split; [reflexivity |];
    eexists [_], _, _, _; split; [reflexivity |]; split; reflexivity.
Qed.

(** A rejected update leaves the ledger empty. *)
Lemma ledger_row_only_after_accepted_update_witness :
  credits_history
    (db (snd (run (Scenarios.pdf (Returned "%PDF-1.7") (Some "connection reset") None)
                  (Scenarios.dbWith 2) false)))
  = [].
Proof.
  destruct (ledger_row_only_after_accepted_update
              (Scenarios.pdf (Returned "%PDF-1.7") (Some "connection reset") None)
              (Scenarios.dbWith 2) false) as (_ & Hfails & _).
  destruct Hfails as [_ Hhistory]; [discriminate |].
  exact Hhistory.
Defined.

End GeneratePdfFacts.

(* ===================================================================== *)
(** * Further properties of the modelled code *)
(* ===================================================================== *)

(** ** The error handler beyond classification *)

Module ErrorHandlerApiFacts.
Import ErrorHandler ErrorHandlerApi.

#[local] Arguments Js.includes : simpl never.
#[local] Arguments Js.toLowerCase : simpl never.
#[local] Arguments Js.orElse : simpl never.

(** Destruct every condition of the classifier's chain. *)
Ltac classify_cases :=
  unfold classifyError;
  repeat match goal with
         | |- context [if ?b then _ else _] => destruct b
         end.

Lemma isAppError_toValue (e : AppError) : isAppError (toValue e) = true.
Proof. reflexivity. Qed.

Lemma statusCodeOfType_value (t : ErrorType) :
  statusCodeOfType (VString (ErrorType_value t)) = getStatusCode t.
Proof. destruct t; reflexivity. Qed.

Section WithString.

Variable String_ : JsValue -> Completion string.


(** A thrown value that is neither an object with the two string members
    nor an [Error] (a string, a number, [null], [undefined], a plain object)
    and that converts to a text becomes an [internal] error of severity
    [high] that is retryable, and the wrapper answers 500. *)
Theorem handleError_unknown_value (v : JsValue) (context : option string)
    (text : string) :
  isAppError v = false ->
  (forall m ps, v <> VError m ps) ->
  String_ v = Returns text ->
  exists appError,
    handleError String_ v context = Returns appError
    /\ getProp appError "type" = VString "internal"
    /\ getProp appError "severity" = VString "high"
    /\ getProp appError "retryable" = VBool true
    /\ getProp appError "message" = VString ("Unknown error: " ++ text)
    /\ statusCodeOfType (getProp appError "type") = 500%Z.
Proof.
  intros Hv Hne Hs. unfold handleError. rewrite Hv.
  destruct v; try (rewrite Hs; eexists; repeat split; reflexivity).
  exfalso. eapply Hne. reflexivity.
Qed.

(** When the conversion throws, the wrapper does not answer: it rejects
    with the value the conversion threw. *)
Lemma withErrorHandler_escapes {R : Type} (nodeEnv : option string)
    (timestamp randomUUID : string) (v thrown : JsValue) :
  isAppError v = false ->
  (forall m ps, v <> VError m ps) ->
  String_ v = Throws thrown ->
  withErrorHandler String_ nodeEnv timestamp randomUUID (R := R) (Rejected v)
  = Escaped thrown.
Proof.
  intros Hv Hne Hs. unfold withErrorHandler, handleError. rewrite Hv.
  destruct v; try (rewrite Hs; reflexivity).
  exfalso. eapply Hne. reflexivity.
Qed.

End WithString.

(** A thrown string. *)
Lemma handleError_unknown_value_witness :
  exists appError,
    handleError (fun _ => Returns "boom") (VString "boom") None = Returns appError
    /\ getProp appError "type" = VString "internal".
Proof.
  destruct (handleError_unknown_value (fun _ => Returns "boom") (VString "boom") None "boom")
    as (appError & Hrun & Ht & _);
    [reflexivity | intros m ps H; discriminate H | reflexivity |].
  exists appError. split; assumption.
Defined.

(** A thrown object without a primitive conversion, as [Object.create(null)]
    makes one: [handleError] throws the conversion's [TypeError]. *)
Example handleError_no_conversion :
  handleError
    (fun v => match v with
              | VObject [] => Throws (VError "Cannot convert object to primitive value" [])
              | _ => Returns "text"
              end)
    (VObject []) None
  = Throws (VError "Cannot convert object to primitive value" []).
Proof. reflexivity. Qed.

(** The classifier produces nine of the eleven kinds: never [not_found],
    never [conflict]. *)
Lemma classifyError_kinds (m : string) (c : option string) :
  In (type (classifyError m c))
     [AUTHENTICATION; AUTHORIZATION; RATE_LIMIT; PAYMENT; VALIDATION;
      NETWORK; DATABASE; EXTERNAL_SERVICE; INTERNAL].
Proof. classify_cases; cbn; tauto. Qed.

Lemma classifyError_by_type (m m' : string) (c c' : option string) :
  type (classifyError m c) = type (classifyError m' c') ->
  severity (classifyError m c) = severity (classifyError m' c')
  /\ userMessage (classifyError m c) = userMessage (classifyError m' c')
  /\ code (classifyError m c) = code (classifyError m' c')
  /\ suggestions (classifyError m c) = suggestions (classifyError m' c')
  /\ retryable (classifyError m c) = retryable (classifyError m' c')
  /\ details (classifyError m c) = None.
Proof.
  classify_cases; cbn; intros H; try discriminate H; repeat split.
Qed.

(** X2.  Errors that classify to the same type are told apart by nothing but
    their technical message: severity, user message, code, suggestions and
    the retryable flag are functions of the type, and no details are set. *)
Theorem classifyError_determined_by_type (m m' : string) (c c' : option string) :
  type (classifyError m c) = type (classifyError m' c') ->
  severity (classifyError m c) = severity (classifyError m' c')
  /\ userMessage (classifyError m c) = userMessage (classifyError m' c')
  /\ code (classifyError m c) = code (classifyError m' c')
  /\ suggestions (classifyError m c) = suggestions (classifyError m' c')
  /\ retryable (classifyError m c) = retryable (classifyError m' c')
  /\ details (classifyError m c) = None.
Proof. apply classifyError_by_type. Qed.

Lemma classifyError_determined_by_type_witness :
  userMessage (classifyError "JWT expired" None)
  = userMessage (classifyError "401 Unauthorized" (Some "checkout")).
Proof.
  destruct (classifyError_determined_by_type
              "JWT expired" "401 Unauthorized" None (Some "checkout"))
    as (_ & Hu & _); [reflexivity | exact Hu].
Defined.

(** X3.  The flags the classifier sets by hand agree with the per-type defaults,
    with one exception: an unmatched failure is [high], where the default for
    [internal] is [critical]. *)
Theorem classifyError_defaults (m : string) (c : option string) :
  retryable (classifyError m c) = getDefaultRetryable (type (classifyError m c))
  /\ severity (classifyError m c)
     = match type (classifyError m c) with
       | INTERNAL => HIGH
       | t => getDefaultSeverity t
       end.
Proof. classify_cases; split; reflexivity. Qed.

(** The technical message is the error's own message, except that an empty
    message is replaced by the user message. *)
Theorem classifyError_message_fallback (m : string) (c : option string) :
  message (classifyError m c)
  = if Js.truthy m then m else userMessage (classifyError m c).
Proof.
  destruct (Js.truthy m) eqn:Hm; classify_cases; cbn; unfold Js.orElse; rewrite Hm; reflexivity.
Qed.

Section Wrapper.

Variable String_ : JsValue -> Completion string.
Variables (nodeEnv : option string) (timestamp randomUUID : string).

(** X4.  A handler that rejects with an untyped [Error] is answered with the
    status of the type the classifier (run without context) assigns, which
    is one of 400, 401, 403, 429 and 500; 404 and 409 can only come from
    errors that arrive already typed. *)
Theorem withErrorHandler_untyped_status {R : Type} (m : string)
    (ps : list (string * JsValue)) :
  isAppError (VError m ps) = false ->
  exists body,
    withErrorHandler String_ nodeEnv timestamp randomUUID (R := R)
      (Rejected (VError m ps))
    = Failed (getStatusCode (type (classifyError m None))) body
    /\ In (getStatusCode (type (classifyError m None)))
          [400; 401; 403; 429; 500]%Z
    /\ getProp body "requestId" = VString randomUUID
    /\ getProp body "message" = VUndefined.
Proof.
  intros Hv. unfold withErrorHandler, handleError. rewrite Hv.
  eexists. split.
  { f_equal. cbn [toValue getProp lookupProp String.eqb Ascii.eqb Bool.eqb].
    apply statusCodeOfType_value. }
  split.
  { pose proof (classifyError_kinds m None) as Hk.
    destruct (type (classifyError m None)); cbn; try tauto;
      exfalso; cbn in Hk; intuition discriminate. }
  split; reflexivity.
Qed.

(** X5.  Outside development mode the error response for an untyped [Error]
    depends on the error only through its classification: two errors of the
    same type get bodies that are equal member for member, so the exception
    text is not in the response. *)
Theorem error_response_hides_message (m m' : string) (c c' : option string)
    (requestId : option string) :
  nodeEnv <> Some "development" ->
  type (classifyError m c) = type (classifyError m' c') ->
  toErrorResponse nodeEnv timestamp (toValue (classifyError m c)) requestId
  = toErrorResponse nodeEnv timestamp (toValue (classifyError m' c')) requestId.
Proof.
  intros Hprod Htype.
  destruct (classifyError_by_type m m' c c' Htype)
    as (_ & Hu & Hc & Hs & Hr & _).
  unfold toErrorResponse.
  cbn [toValue getProp lookupProp String.eqb Ascii.eqb Bool.eqb].
  rewrite Htype, Hu, Hc, Hs, Hr.
  destruct nodeEnv as [env |]; [| reflexivity].
  destruct (String.eqb_spec env "development") as [-> | _]; [congruence | reflexivity].
Qed.

End Wrapper.

Lemma withErrorHandler_untyped_status_witness :
  exists body,
    withErrorHandler (fun _ => Returns "Error") None "2025-01-01T00:00:00.000Z" "uuid-1"
      (R := unit) (Rejected (VError "Too many requests" []))
    = Failed 429%Z body.
Proof.
  destruct (withErrorHandler_untyped_status (R := unit) (fun _ => Returns "Error") None
              "2025-01-01T00:00:00.000Z" "uuid-1" "Too many requests" [])
    as (body & Hrun & _); [reflexivity |].
  exists body. exact Hrun.
Defined.

Lemma error_response_hides_message_witness :
  toErrorResponse (Some "production") "2025-01-01T00:00:00.000Z"
    (toValue (classifyError "duplicate key value violates constraint users_pkey" None))
    (Some "uuid-1")
  = toErrorResponse (Some "production") "2025-01-01T00:00:00.000Z"
      (toValue (classifyError "oops" (Some "supabase")))
      (Some "uuid-1").
Proof.
  apply error_response_hides_message; [discriminate | reflexivity].
Defined.

End ErrorHandlerApiFacts.

(** ** Cache keys and bulk invalidation *)

Module CacheKeyFacts.
Import MemoryCache CacheUtilities.

#[local] Arguments String.append : simpl nomatch.

Lemma startsWith_app (p s : string) : Js.startsWith (p ++ s) p = true.
Proof.
  induction p as [| c p IH]; [destruct s; reflexivity |].
  cbn [Js.startsWith String.append]. rewrite Ascii.eqb_refl. exact IH.
Qed.

Lemma startsWith_app_cancel (p s q : string) :
  Js.startsWith (p ++ s) (p ++ q) = Js.startsWith s q.
Proof.
  induction p as [| c p IH]; [reflexivity |].
  cbn [Js.startsWith String.append]. rewrite Ascii.eqb_refl. exact IH.
Qed.

Lemma append_assoc (a b c : string) : (a ++ b) ++ c = a ++ (b ++ c).
Proof. induction a as [| x a IH]; [reflexivity | cbn; f_equal; exact IH]. Qed.

Lemma append_cancel (p x y : string) : p ++ x = p ++ y -> x = y.
Proof.
  induction p as [| c p IH]; intros H; [exact H |].
  cbn in H. injection H as H. exact (IH H).
Qed.

Lemma includes_empty (s : string) : Js.includes s EmptyString = true.
Proof. destruct s; reflexivity. Qed.

(** With colon-free names, a key of one name never starts with the prefix
    of another. *)
Lemma startsWith_colon_prefix (u u' t : string) :
  colonFree u = true -> colonFree u' = true ->
  Js.startsWith (u' ++ ":" ++ t) (u ++ ":") = true ->
  u = u'.
Proof.
  revert u'. induction u as [| a u IH]; intros u' Hu Hu' H.
  - destruct u' as [| b u']; [reflexivity |].
    cbn [Js.startsWith String.append] in H. cbn [colonFree] in Hu'.
    destruct (Ascii.eqb_spec ":" b) as [<- | Hne]; [| discriminate H].
    cbn in Hu'. discriminate Hu'.
  - cbn [colonFree] in Hu. apply andb_prop in Hu as [Ha Hu].
    destruct u' as [| b u'].
    + cbn [Js.startsWith String.append] in H.
      destruct (Ascii.eqb_spec a ":") as [-> | Hne]; [| discriminate H].
      cbn in Ha. discriminate Ha.
    + cbn [Js.startsWith String.append] in H.
      cbn [colonFree] in Hu'. apply andb_prop in Hu' as [_ Hu'].
      destruct (Ascii.eqb_spec a b) as [<- | Hne]; [| discriminate H].
      f_equal. exact (IH u' Hu Hu' H).
Qed.

Lemma append_colon_inj (u u' t t' : string) :
  colonFree u = true -> colonFree u' = true ->
  u ++ ":" ++ t = u' ++ ":" ++ t' ->
  u = u' /\ t = t'.
Proof.
  revert u'. induction u as [| a u IH]; intros u' Hu Hu' H.
  - destruct u' as [| b u'].
    + cbn [String.append] in H. injection H as H. split; [reflexivity | exact H].
    + cbn [String.append] in H. cbn [colonFree] in Hu'.
      injection H as Hb _. subst b. cbn in Hu'. discriminate Hu'.
  - cbn [colonFree] in Hu. apply andb_prop in Hu as [Ha Hu].
    destruct u' as [| b u'].
    + cbn [String.append] in H. injection H as Hb _. subst a.
      cbn in Ha. discriminate Ha.
    + cbn [String.append] in H. cbn [colonFree] in Hu'.
      apply andb_prop in Hu' as [_ Hu'].
      injection H as <- H. destruct (IH u' Hu Hu' H) as [-> ->]. split; reflexivity.
Qed.

(** Two [UserDataCache] keys coincide only for the same user and data type,
    as long as the user ids contain no colon. *)
Lemma UserDataCache_generateKey_inj (u u' t t' : string) :
  colonFree u = true -> colonFree u' = true ->
  UserDataCache.generateKey u t = UserDataCache.generateKey u' t' ->
  u = u' /\ t = t'.
Proof.
  intros Hu Hu' H. unfold UserDataCache.generateKey in H.
  apply append_colon_inj; try assumption.
  exact (append_cancel _ _ _ H).
Qed.

(** A user id with a colon breaks the separation. *)
Example UserDataCache_generateKey_collision :
  UserDataCache.generateKey "a" "b:history" = UserDataCache.generateKey "a:b" "history".
Proof. reflexivity. Qed.

Section WithPayload.

Context {T : Type}.
Implicit Types (cache : gmap string (CacheEntry T)) (k : string).

Lemma deleteEach_lookup (keys : list string) cache k :
  deleteEach keys cache !! k = if bool_decide (k ∈ keys) then None else cache !! k.
Proof.
  unfold deleteEach. revert cache.
  induction keys as [| key keys IH]; intros cache; [reflexivity |].
  cbn [foldl]. rewrite IH. unfold MemoryCache.delete. cbn [snd].
  destruct (decide (key = k)) as [-> | Hne].
  - rewrite lookup_delete_eq.
    rewrite (bool_decide_eq_true_2 (k ∈ k :: keys)) by (apply list_elem_of_here).
    destruct (bool_decide (k ∈ keys)); reflexivity.
  - rewrite lookup_delete_ne by exact Hne.
    destruct (bool_decide_reflect (k ∈ keys)) as [Hin | Hnin].
    + rewrite bool_decide_eq_true_2 by (apply list_elem_of_further; exact Hin).
      reflexivity.
    + rewrite bool_decide_eq_false_2; [reflexivity |].
      intros Hin. apply elem_of_cons in Hin as [Heq | Hin];
        [exact (Hne (eq_sym Heq)) | exact (Hnin Hin)].
Qed.

Lemma In_stats_keys cache k :
  In k (stats_keys (getStats cache)) <-> is_Some (cache !! k).
Proof.
  unfold getStats. cbn [stats_keys]. rewrite <- list_elem_of_In.
  rewrite list_elem_of_fmap. split.
  - intros ([k' e] & -> & Hin). apply elem_of_map_to_list in Hin. cbn. eauto.
  - intros [e He]. exists (k, e). split; [reflexivity |].
    apply elem_of_map_to_list. exact He.
Qed.

(** Deleting the listed keys that pass a test leaves exactly the others. *)
Lemma deleteEach_filter_lookup (p : string -> bool) cache k :
  deleteEach (List.filter p (stats_keys (getStats cache))) cache !! k
  = if p k then None else cache !! k.
Proof.
  rewrite deleteEach_lookup.
  destruct (bool_decide_reflect
              (k ∈ List.filter p (stats_keys (getStats cache)))) as [Hin | Hnin].
  - apply list_elem_of_In, filter_In in Hin as [_ Hp]. rewrite Hp. reflexivity.
  - destruct (p k) eqn:Hp; [| reflexivity].
    destruct (cache !! k) as [e |] eqn:He; [| reflexivity].
    exfalso. apply Hnin. apply list_elem_of_In, filter_In. split; [| exact Hp].
    apply In_stats_keys. eauto.
Qed.

Lemma deleteEach_size (keys : list string) cache :
  List.NoDup keys ->
  (forall k, In k keys -> is_Some (cache !! k)) ->
  (size (deleteEach keys cache) + length keys)%nat = size cache.
Proof.
  unfold deleteEach. revert cache.
  induction keys as [| key keys IH]; intros cache Hnd Hall; [cbn; lia |].
  inversion Hnd as [| ? ? Hnotin Hnd']; subst.
  cbn [foldl length].
  assert (Hrest : forall k, In k keys ->
                    is_Some (snd (MemoryCache.delete key cache) !! k)).
  { intros k Hin. unfold MemoryCache.delete. cbn [snd].
    rewrite lookup_delete_ne.
    - apply Hall. right. exact Hin.
    - intros ->. exact (Hnotin Hin). }
  pose proof (IH _ Hnd' Hrest) as Hrec.
  unfold MemoryCache.delete in Hrec |- *. cbn [snd] in Hrec |- *.
  rewrite map_size_delete_Some in Hrec by (apply Hall; left; reflexivity).
  destruct (Hall key (or_introl eq_refl)) as [e He].
  assert (size cache <> 0%nat).
  { intros H0. apply map_size_empty_inv in H0. subst cache.
    rewrite lookup_empty in He. discriminate He. }
  lia.
Qed.

Lemma invalidateCachePattern_fold (keys : list string) (n : Z) cache :
  foldl (fun '(invalidatedCount, c) key =>
           ((invalidatedCount + 1)%Z, snd (MemoryCache.delete key c)))
        (n, cache) keys
  = ((n + Z.of_nat (length keys))%Z, deleteEach keys cache).
Proof.
  unfold deleteEach. revert n cache.
  induction keys as [| key keys IH]; intros n cache.
  - cbn. f_equal. lia.
  - cbn [foldl length]. rewrite IH. f_equal. lia.
Qed.

Lemma invalidateCachePattern_spec (pattern : string) cache :
  (forall k,
     snd (invalidateCachePattern pattern cache) !! k
     = if Js.includes k pattern then None else cache !! k)
  /\ (fst (invalidateCachePattern pattern cache)
      + Z.of_nat (size (snd (invalidateCachePattern pattern cache))))%Z
     = Z.of_nat (size cache).
Proof.
  unfold invalidateCachePattern. rewrite invalidateCachePattern_fold.
  cbn [fst snd]. split.
  - intros k. apply (deleteEach_filter_lookup (fun key => Js.includes key pattern)).
  - rewrite <- (deleteEach_size
                  (List.filter (fun key => Js.includes key pattern)
                               (stats_keys (getStats cache))) cache).
    + lia.
    + apply List.NoDup_filter. unfold getStats. cbn [stats_keys].
      apply NoDup_ListNoDup, NoDup_fst_map_to_list.
    + intros k Hin. apply filter_In in Hin as [Hin _].
      apply In_stats_keys. exact Hin.
Qed.

(** X6.  [invalidateCachePattern]: afterwards a key is there exactly when it was
    there and does not contain the pattern, and the number returned is the
    number of entries that went away. *)
Theorem invalidateCachePattern_exact (pattern : string) cache :
  (forall k,
     snd (invalidateCachePattern pattern cache) !! k
     = if Js.includes k pattern then None else cache !! k)
  /\ (fst (invalidateCachePattern pattern cache)
      + Z.of_nat (size (snd (invalidateCachePattern pattern cache))))%Z
     = Z.of_nat (size cache).
Proof. apply invalidateCachePattern_spec. Qed.

(** The empty pattern occurs in every key: it empties the cache and reports
    its whole size. *)
Theorem invalidateCachePattern_empty cache :
  invalidateCachePattern EmptyString cache = (Z.of_nat (size cache), ∅).
Proof.
  destruct (invalidateCachePattern_spec EmptyString cache) as [Hlook Hsize].
  assert (Hempty : snd (invalidateCachePattern EmptyString cache) = ∅).
  { apply map_eq. intros k. rewrite Hlook, includes_empty, lookup_empty. reflexivity. }
  rewrite Hempty, map_size_empty in Hsize.
  destruct (invalidateCachePattern EmptyString cache) as [n after].
  cbn in *. subst after. f_equal. lia.
Qed.

(** [invalidateAllUserData(u)] removes every key that starts with
    [user_data:u:] and leaves every other key as it was. *)
Theorem invalidateAllUserData_exact (userId : string) cache k :
  UserDataCache.invalidateAllUserData userId cache !! k
  = if Js.startsWith k ("user_data:" ++ userId ++ ":") then None else cache !! k.
Proof.
  unfold UserDataCache.invalidateAllUserData.
  apply (deleteEach_filter_lookup
           (fun key => Js.startsWith key ("user_data:" ++ userId ++ ":"))).
Qed.

(** X7.  Invalidating one user's data removes all of that user's entries, keeps
    the entries of every other user (ids without colon), and keeps the
    rate-limit counters and the popular-names entries. *)
Theorem invalidateAllUserData_isolated (u u' dataType ip endpoint gender : string)
    (count : Z) cache :
  colonFree u = true -> colonFree u' = true -> u <> u' ->
  UserDataCache.invalidateAllUserData u cache !! UserDataCache.generateKey u dataType
    = None
  /\ UserDataCache.invalidateAllUserData u cache !! UserDataCache.generateKey u' dataType
     = cache !! UserDataCache.generateKey u' dataType
  /\ UserDataCache.invalidateAllUserData u cache !! RateLimitCache.generateKey ip endpoint
     = cache !! RateLimitCache.generateKey ip endpoint
  /\ UserDataCache.invalidateAllUserData u cache !! PopularNamesCache.generateKey gender count
     = cache !! PopularNamesCache.generateKey gender count.
Proof.
  intros Hu Hu' Hne. rewrite !invalidateAllUserData_exact.
  unfold UserDataCache.generateKey.
  split; [| split; [| split]].
  - change ("user_data:" ++ u ++ ":" ++ dataType)
      with ("user_data:" ++ (u ++ ":" ++ dataType)).
    change ("user_data:" ++ u ++ ":") with ("user_data:" ++ (u ++ ":")).
    rewrite startsWith_app_cancel.
    rewrite <- (append_assoc u ":" dataType), startsWith_app. reflexivity.
  - change ("user_data:" ++ u' ++ ":" ++ dataType)
      with ("user_data:" ++ (u' ++ ":" ++ dataType)).
    change ("user_data:" ++ u ++ ":") with ("user_data:" ++ (u ++ ":")).
    rewrite startsWith_app_cancel.
    destruct (Js.startsWith (u' ++ ":" ++ dataType) (u ++ ":")) eqn:Hs; [| reflexivity].
    exfalso. exact (Hne (startsWith_colon_prefix u u' dataType Hu Hu' Hs)).
  - reflexivity.
  - reflexivity.
Qed.

End WithPayload.

Lemma invalidateAllUserData_isolated_witness :
  UserDataCache.invalidateAllUserData "u1"
    (UserDataCache.set 0 "u2" "generation_history" 7%Z
       (UserDataCache.set 0 "u1" "generation_history" 5%Z ∅))
  !! UserDataCache.generateKey "u2" "generation_history"
  = Some {| data := 7%Z; timestamp := 0; ttl := CACHE_TTL.SHORT |}.
Proof.
  destruct (invalidateAllUserData_isolated (T := Z) "u1" "u2" "generation_history"
              "127.0.0.1" "/api" "female" 5
              (UserDataCache.set 0 "u2" "generation_history" 7%Z
                 (UserDataCache.set 0 "u1" "generation_history" 5%Z ∅)))
    as (_ & Hother & _); [reflexivity | reflexivity | discriminate |].
  rewrite Hother. reflexivity.
Defined.

End CacheKeyFacts.

(** ** More on the cache: overwriting, deleting, sweeping, counting *)

Module CacheUtilitiesFacts.
Import MemoryCache CacheUtilities MemoryCacheFacts.

Section WithPayload.

Context {T : Type}.
Implicit Types (cache : gmap string (CacheEntry T)) (k : string) (v : T).

(** X8.  A second [set] on a key replaces value, timestamp and time to live of
    the first, and a [set] never changes what [get] answers for another key. *)
Theorem set_overwrites now1 now2 now k k' v1 v2 (ttl1 ttl2 : option Z) cache :
  k' <> k ->
  set now2 k v2 ttl2 (set now1 k v1 ttl1 cache) = set now2 k v2 ttl2 cache
  /\ fst (get now k' (set now1 k v1 ttl1 cache)) = fst (get now k' cache).
Proof.
  intros Hne. unfold set. split.
  - apply insert_insert_eq.
  - unfold get. rewrite lookup_insert_ne by congruence. 
    destruct (cache !! k') as [e |]; [| reflexivity].
    destruct (expired now e); reflexivity.
Qed.

(** X9.  With a negative time to live an entry is never served, not even in the
    millisecond it was written; with a zero one it is served in that
    millisecond only. *)
Theorem set_nonpositive_ttl now now' k v ttlMs cache :
  now <= now' ->
  (ttlMs < 0 -> fst (get now' k (set now k v (Some ttlMs) cache)) = None)
  /\ (ttlMs = 0 ->
      fst (get now' k (set now k v (Some ttlMs) cache))
      = if (now' =? now)%Z then Some v else None).
Proof.
  intros Hle. unfold get, set. rewrite lookup_insert_eq. unfold expired. cbn.
  split; intros Httl.
  - destruct (Z.gtb_spec (now' - now) ttlMs); [reflexivity | lia].
  - subst ttlMs. destruct (Z.eqb_spec now' now) as [-> | Hne].
    + rewrite Z.sub_diag. reflexivity.
    + destruct (Z.gtb_spec (now' - now) 0); [reflexivity | lia].
Qed.

(** [delete] reports whether the key was in the map, expired or not, and in
    either case a later [get] finds nothing. *)
Theorem delete_then_get now k cache :
  (fst (MemoryCache.delete k cache) = true <-> is_Some (cache !! k))
  /\ get now k (snd (MemoryCache.delete k cache))
     = (None, snd (MemoryCache.delete k cache)).
Proof.
  unfold MemoryCache.delete, get. cbn [fst snd]. split.
  - apply bool_decide_eq_true.
  - rewrite lookup_delete_eq. reflexivity.
Qed.

(** X10.  The sweep removes exactly the entries that are expired at that time,
    and so never changes what a [get] at that time answers. *)
Theorem cleanup_exact now k cache :
  cleanup now cache !! k
  = match cache !! k with
    | Some e => if expired now e then None else Some e
    | None => None
    end
  /\ fst (get now k (cleanup now cache)) = fst (get now k cache).
Proof. split; [apply cleanup_lookup | apply get_after_cleanup]. Qed.

(** X11.  [has] is [true] exactly when [get] finds a live entry, and both leave
    the same map behind (both drop an expired entry). *)
Theorem has_agrees_with_get now k cache :
  fst (has now k cache) = bool_decide (is_Some (fst (get now k cache)))
  /\ snd (has now k cache) = snd (get now k cache).
Proof. apply has_iff_get. Qed.

End WithPayload.

Lemma set_overwrites_witness :
  fst (get 10 "a" (set 5 "a" 2%Z None (set 0 "a" 1%Z (Some 1) ∅))) = Some 2%Z.
Proof.
  destruct (set_overwrites (T := Z) 0 5 10 "a" "b" 1 2 (Some 1) None ∅) as [Hset _];
    [discriminate |].
  rewrite Hset. reflexivity.
Defined.

Lemma set_nonpositive_ttl_witness :
  fst (get 7 "a" (set 7 "a" 1%Z (Some (-1)) ∅)) = None.
Proof.
  destruct (set_nonpositive_ttl (T := Z) 7 7 "a" 1 (-1) ∅) as [Hneg _]; [lia |].
  apply Hneg. lia.
Defined.

(** *** The rate-limit counter *)

Lemma increment_live now ip endpoint (cache : gmap string (CacheEntry Z)) e :
  cache !! RateLimitCache.generateKey ip endpoint = Some e ->
  expired now e = false ->
  RateLimitCache.increment now ip endpoint cache
  = (data e + 1,
     <[RateLimitCache.generateKey ip endpoint :=
         {| data := data e + 1; timestamp := now; ttl := CACHE_TTL.LONG |}]> cache).
Proof.
  intros He Hlive. unfold RateLimitCache.increment, RateLimitCache.get, get.
  rewrite He, Hlive. unfold RateLimitCache.set, set. cbn [default from_option id].
  destruct (Z.eqb_spec (data e) 0) as [-> | _]; reflexivity.
Qed.

Lemma increment_restart now ip endpoint (cache : gmap string (CacheEntry Z)) :
  (cache !! RateLimitCache.generateKey ip endpoint = None
   \/ exists e, cache !! RateLimitCache.generateKey ip endpoint = Some e
                /\ expired now e = true) ->
  RateLimitCache.increment now ip endpoint cache
  = (1,
     <[RateLimitCache.generateKey ip endpoint :=
         {| data := 1; timestamp := now; ttl := CACHE_TTL.LONG |}]> cache).
Proof.
  intros [Hnone | (e & He & Hexp)];
    unfold RateLimitCache.increment, RateLimitCache.get, get.
  - rewrite Hnone. reflexivity.
  - rewrite He, Hexp. unfold RateLimitCache.set, set. cbn.
    rewrite insert_delete_eq. reflexivity.
Qed.

Lemma incrementEach_from (times : list Z) ip endpoint
    (cache : gmap string (CacheEntry Z)) (c t0 : Z) :
  cache !! RateLimitCache.generateKey ip endpoint
    = Some {| data := c; timestamp := t0; ttl := CACHE_TTL.LONG |} ->
  (forall i t t', (t0 :: times) !! i = Some t -> times !! i = Some t' ->
                  t' - t <= CACHE_TTL.LONG) ->
  fst (RateLimitCache.incrementEach times ip endpoint cache)
  = map (fun i => c + Z.of_nat i) (seq 1 (length times)).
Proof.
  revert cache c t0. induction times as [| t times IH]; intros cache c t0 He Hgaps;
    [reflexivity |].
  cbn [RateLimitCache.incrementEach].
  assert (Hlive : expired t {| data := c; timestamp := t0; ttl := CACHE_TTL.LONG |} = false).
  { unfold expired. cbn.
    pose proof (Hgaps 0%nat t0 t eq_refl eq_refl) as Hgap.
    destruct (Z.gtb_spec (t - t0) CACHE_TTL.LONG); [lia | reflexivity]. }
  rewrite (increment_live t ip endpoint cache _ He Hlive). cbn [data].
  destruct (RateLimitCache.incrementEach times ip endpoint _) as [counts cache2] eqn:Hrest.
  cbn [fst length seq map]. f_equal; try lia.
  change counts with (fst (counts, cache2)). rewrite <- Hrest.
  rewrite (IH _ (c + 1) t).
  - rewrite <- (seq_shift (length times) 1), map_map. apply map_ext. intros i. lia.
  - apply lookup_insert_eq.
  - intros i a b Ha Hb. exact (Hgaps (S i) a b Ha Hb).
Qed.

(** X12.  Counting with a sliding expiry: starting from no counter, [n] calls of
    [increment] return 1, 2, ..., [n] as long as each call comes at most an
    hour after the one before, however long the whole series lasts. *)
Theorem increment_counts (times : list Z) ip endpoint
    (cache : gmap string (CacheEntry Z)) :
  cache !! RateLimitCache.generateKey ip endpoint = None ->
  (forall i t t', times !! i = Some t -> times !! S i = Some t' ->
                  t' - t <= CACHE_TTL.LONG) ->
  fst (RateLimitCache.incrementEach times ip endpoint cache)
  = map Z.of_nat (seq 1 (length times)).
Proof.
  intros Hnone Hgaps. destruct times as [| t times]; [reflexivity |].
  cbn [RateLimitCache.incrementEach].
  rewrite (increment_restart t ip endpoint cache (or_introl Hnone)).
  destruct (RateLimitCache.incrementEach times ip endpoint _) as [counts cache2] eqn:Hrest.
  cbn [fst length seq map]. f_equal; try lia.
  change counts with (fst (counts, cache2)). rewrite <- Hrest.
  rewrite (incrementEach_from times ip endpoint _ 1 t).
  - rewrite <- (seq_shift (length times) 1), map_map. apply map_ext. intros i. lia.
  - apply lookup_insert_eq.
  - intros i a b Ha Hb. exact (Hgaps i a b Ha Hb).
Qed.

(** X13.  After more than an hour without a call the counter starts again at 1. *)
Theorem increment_restarts_after_idle now ip endpoint
    (cache : gmap string (CacheEntry Z)) e :
  cache !! RateLimitCache.generateKey ip endpoint = Some e ->
  now - timestamp e > ttl e ->
  fst (RateLimitCache.increment now ip endpoint cache) = 1
  /\ fst (RateLimitCache.get now ip endpoint
            (snd (RateLimitCache.increment now ip endpoint cache))) = Some 1.
Proof.
  intros He Hidle.
  assert (Hexp : expired now e = true).
  { unfold expired. destruct (Z.gtb_spec (now - timestamp e) (ttl e)); [reflexivity | lia]. }
  rewrite (increment_restart now ip endpoint cache) by (right; eauto).
  cbn [fst snd]. split; [reflexivity |].
  unfold RateLimitCache.get, get. rewrite lookup_insert_eq.
  unfold expired. cbn. rewrite Z.sub_diag. reflexivity.
Qed.

Lemma increment_counts_witness :
  fst (RateLimitCache.incrementEach [0; 3000000; 6000000; 9000000]
         "203.0.113.7" "/api/generate" ∅)
  = [1; 2; 3; 4].
Proof.
  rewrite (increment_counts [0; 3000000; 6000000; 9000000]
             "203.0.113.7" "/api/generate" ∅).
  - reflexivity.
  - reflexivity.
  - intros i t t' Ht Ht'.
    destruct i as [| [| [| [| i]]]]; cbn in Ht, Ht';
      try discriminate Ht'; injection Ht as <-; injection Ht' as <-;
      unfold CACHE_TTL.LONG; lia.
Defined.

Lemma increment_restarts_after_idle_witness :
  fst (RateLimitCache.increment 3600001 "203.0.113.7" "/api/generate"
         (RateLimitCache.set 0 "203.0.113.7" "/api/generate" 41 ∅))
  = 1.
Proof.
  destruct (increment_restarts_after_idle 3600001 "203.0.113.7" "/api/generate"
              (RateLimitCache.set 0 "203.0.113.7" "/api/generate" 41 ∅)
              {| data := 41; timestamp := 0; ttl := CACHE_TTL.LONG |})
    as [Hone _]; [reflexivity | vm_compute; reflexivity | exact Hone].
Defined.

End CacheUtilitiesFacts.

(** ** Read-through caching: [withCache] and [cachedFetch] *)

Module ReadThroughFacts.
Import Eff MemoryCache CacheUtilities MemoryCacheFacts.

Lemma get_miss_absent {T : Type} now k (c : gmap string (CacheEntry T)) :
  fst (get now k c) = None -> snd (get now k c) !! k = None.
Proof.
  unfold get. destruct (c !! k) as [e |] eqn:He; [| intros _; exact He].
  destruct (expired now e); [| discriminate].
  intros _. apply lookup_delete_eq.
Qed.

Section WithCache.

Context {A R : Type}.
Variable keyGenerator : A -> string.
Variable ttlMs : option Z.
Variable fn : A -> Outcome (option R).

Lemma withCache_miss (now later : Z) (args : A) (w : CacheWorld (A := A) (R := R)) :
  fst (get now (keyGenerator args) (cache w)) = None ->
  withCache keyGenerator ttlMs fn now later args w
  = match fn args with
    | Returned result =>
        (Returned result,
         {| cache := set later (keyGenerator args) result
                       (Some (default CACHE_TTL.MEDIUM ttlMs))
                       (snd (get now (keyGenerator args) (cache w)));
            calls := (calls w ++ [args])%list |})
    | Thrown e =>
        (Thrown e,
         {| cache := snd (get now (keyGenerator args) (cache w));
            calls := (calls w ++ [args])%list |})
    end.
Proof.
  intros Hmiss. unfold withCache.
  destruct (get now (keyGenerator args) (cache w)) as [cached cache1].
  cbn [fst] in Hmiss. subst cached. reflexivity.
Qed.

(** X14.  Miss, then hit: when the first call finds nothing and the wrapped
    function returns a value that is not [null], a second call with the
    same key, made within the time to live of the store, returns that value
    without invoking the function again and leaves cache and call log as
    they are. *)
Theorem withCache_miss_then_hit (now later now2 later2 : Z) (args : A) (r : R)
    (w : CacheWorld (A := A) (R := R)) :
  fst (get now (keyGenerator args) (cache w)) = None ->
  fn args = Returned (Some r) ->
  now2 - later <= default CACHE_TTL.MEDIUM ttlMs ->
  fst (withCache keyGenerator ttlMs fn now later args w) = Returned (Some r)
  /\ calls (snd (withCache keyGenerator ttlMs fn now later args w))
     = (calls w ++ [args])%list
  /\ withCache keyGenerator ttlMs fn now2 later2 args
       (snd (withCache keyGenerator ttlMs fn now later args w))
     = (Returned (Some r), snd (withCache keyGenerator ttlMs fn now later args w)).
Proof.
  intros Hmiss Hfn Hfresh. rewrite (withCache_miss now later args w Hmiss), Hfn.
  cbn [fst snd calls].
  split; [reflexivity |]. split; [reflexivity |].
  unfold withCache. cbn [cache calls].
  rewrite (get_set_fresh later now2 _ _ _ _ Hfresh). reflexivity.
Qed.

(** X15.  A [null] result is stored but never served: after a call that stored
    [null], every later call with that key invokes the function again. *)
Theorem withCache_null_never_served (now later now2 later2 : Z) (args : A)
    (w : CacheWorld (A := A) (R := R)) :
  fst (get now (keyGenerator args) (cache w)) = None ->
  fn args = Returned None ->
  calls (snd (withCache keyGenerator ttlMs fn now2 later2 args
                (snd (withCache keyGenerator ttlMs fn now later args w))))
  = (calls w ++ [args; args])%list.
Proof.
  intros Hmiss Hfn. rewrite (withCache_miss now later args w Hmiss), Hfn.
  cbn [snd]. unfold withCache. cbn [cache calls].
  unfold get at 1. unfold set at 1. rewrite lookup_insert_eq.
  destruct (expired now2 _); rewrite Hfn; cbn [snd calls];
    rewrite <- app_assoc; reflexivity.
Qed.

(** X16.  A failure is not cached: when the function throws on a miss, the
    exception reaches the caller and the key stays absent. *)
Theorem withCache_failure_not_cached (now later : Z) (args : A) (e : Exn)
    (w : CacheWorld (A := A) (R := R)) :
  fst (get now (keyGenerator args) (cache w)) = None ->
  fn args = Thrown e ->
  fst (withCache keyGenerator ttlMs fn now later args w) = Thrown e
  /\ cache (snd (withCache keyGenerator ttlMs fn now later args w))
       !! keyGenerator args = None.
Proof.
  intros Hmiss Hfn. rewrite (withCache_miss now later args w Hmiss), Hfn.
  split; [reflexivity | exact (get_miss_absent _ _ _ Hmiss)].
Qed.

End WithCache.

Section CachedFetch.

Context {R : Type}.
Variable fetch : string -> string -> Outcome (FetchResponse (R := R)).

(** X17.  A response that is not [ok] makes [cachedFetch] throw
    [HTTP <status>: <statusText>] and store nothing. *)
Theorem cachedFetch_http_error (now later : Z) (url options : string)
    (ttlMs : option Z) (response : FetchResponse (R := R))
    (w : CacheWorld (A := string * string) (R := R)) :
  fst (get now ("fetch:" ++ url ++ ":" ++ options) (cache w)) = None ->
  fetch url options = Returned response ->
  ok response = false ->
  fst (cachedFetch fetch now later url options ttlMs w)
  = Thrown (ErrorWith ("HTTP " ++ numberToString (status response)
                       ++ ": " ++ statusText response))
  /\ cache (snd (cachedFetch fetch now later url options ttlMs w))
       !! ("fetch:" ++ url ++ ":" ++ options) = None.
Proof.
  intros Hmiss Hfetch Hok. pose proof (get_miss_absent _ _ _ Hmiss) as Habsent.
  unfold cachedFetch.
  destruct (get now ("fetch:" ++ url ++ ":" ++ options) (cache w))
    as [cached cache1].
  cbn [fst snd] in Hmiss, Habsent. subst cached. rewrite Hfetch, Hok.
  split; [reflexivity | exact Habsent].
Qed.

(** A successful fetch is served from the cache afterwards: the same URL and
    options, asked again within the time to live, do not reach [fetch]. *)
Theorem cachedFetch_miss_then_hit (now later now2 later2 : Z) (url options : string)
    (ttlMs : option Z) (response : FetchResponse (R := R)) (data : R)
    (w : CacheWorld (A := string * string) (R := R)) :
  fst (get now ("fetch:" ++ url ++ ":" ++ options) (cache w)) = None ->
  fetch url options = Returned response ->
  ok response = true ->
  json response = Returned (Some data) ->
  now2 - later <= default CACHE_TTL.MEDIUM ttlMs ->
  fst (cachedFetch fetch now later url options ttlMs w) = Returned (Some data)
  /\ calls (snd (cachedFetch fetch now later url options ttlMs w))
     = (calls w ++ [(url, options)])%list
  /\ cachedFetch fetch now2 later2 url options ttlMs
       (snd (cachedFetch fetch now later url options ttlMs w))
     = (Returned (Some data), snd (cachedFetch fetch now later url options ttlMs w)).
Proof.
  intros Hmiss Hfetch Hok Hjson Hfresh.
  assert (Hfirst : cachedFetch fetch now later url options ttlMs w
                   = (Returned (Some data),
                      {| cache := set later ("fetch:" ++ url ++ ":" ++ options)
                                    (Some data) (Some (default CACHE_TTL.MEDIUM ttlMs))
                                    (snd (get now ("fetch:" ++ url ++ ":" ++ options)
                                            (cache w)));
                         calls := (calls w ++ [(url, options)])%list |})).
  { unfold cachedFetch.
    destruct (get now ("fetch:" ++ url ++ ":" ++ options) (cache w))
      as [cached cache1].
    cbn [fst] in Hmiss. subst cached. rewrite Hfetch, Hok, Hjson. reflexivity. }
  rewrite Hfirst. cbn [fst snd calls].
  split; [reflexivity |]. split; [reflexivity |].
  unfold cachedFetch. cbn [cache calls].
  rewrite (get_set_fresh later now2 _ _ _ _ Hfresh). reflexivity.
Qed.

End CachedFetch.

Lemma withCache_miss_then_hit_witness :
  fst (withCache (fun gender : string => "names:" ++ gender) None
         (fun _ => Returned (Some 3%Z)) 900000 900001 "female"
         (snd (withCache (fun gender : string => "names:" ++ gender) None
                 (fun _ => Returned (Some 3%Z)) 0 1 "female"
                 {| cache := ∅; calls := [] |})))
  = Returned (Some 3%Z).
Proof.
  destruct (withCache_miss_then_hit (fun gender : string => "names:" ++ gender) None
              (fun _ => Returned (Some 3%Z)) 0 1 900000 900001 "female" 3%Z
              {| cache := ∅; calls := [] |}) as (_ & _ & Hhit);
    [reflexivity | reflexivity | vm_compute; discriminate |].
  rewrite Hhit. reflexivity.
Defined.

Lemma withCache_null_never_served_witness :
  calls (snd (withCache (fun gender : string => "names:" ++ gender) None
                (fun _ => Returned (@None Z)) 5 6 "female"
                (snd (withCache (fun gender : string => "names:" ++ gender) None
                        (fun _ => Returned (@None Z)) 0 1 "female"
                        {| cache := ∅; calls := [] |}))))
  = ["female"; "female"].
Proof.
  rewrite (withCache_null_never_served (fun gender : string => "names:" ++ gender) None
             (fun _ => Returned (@None Z)) 0 1 5 6 "female"
             {| cache := ∅; calls := [] |}); reflexivity.
Defined.

Lemma withCache_failure_not_cached_witness :
  fst (withCache (fun gender : string => "names:" ++ gender) None
         (fun _ => @Thrown (option Z) (ErrorWith "upstream down")) 0 1 "female"
         {| cache := ∅; calls := [] |})
  = Thrown (ErrorWith "upstream down").
Proof.
  destruct (withCache_failure_not_cached (fun gender : string => "names:" ++ gender) None
              (fun _ => @Thrown (option Z) (ErrorWith "upstream down")) 0 1 "female"
              (ErrorWith "upstream down") {| cache := ∅; calls := [] |})
    as [Hthrown _]; [reflexivity | reflexivity | exact Hthrown].
Defined.

Lemma cachedFetch_http_error_witness :
  fst (cachedFetch
         (fun _ _ => Returned {| ok := false; status := 503;
                                 statusText := "Service Unavailable";
                                 json := Returned (@None Z) |})
         0 1 "https://api.example/names" "{}" None {| cache := ∅; calls := [] |})
  = Thrown (ErrorWith "HTTP 503: Service Unavailable").
Proof.
  destruct (cachedFetch_http_error
              (fun _ _ => Returned {| ok := false; status := 503;
                                      statusText := "Service Unavailable";
                                      json := Returned (@None Z) |})
              0 1 "https://api.example/names" "{}" None
              {| ok := false; status := 503; statusText := "Service Unavailable";
                 json := Returned (@None Z) |}
              {| cache := ∅; calls := [] |})
    as [Hthrown _]; [reflexivity | reflexivity | reflexivity |].
  rewrite Hthrown. reflexivity.
Defined.

Lemma cachedFetch_miss_then_hit_witness :
  fst (cachedFetch
         (fun _ _ => Returned {| ok := true; status := 200; statusText := "OK";
                                 json := Returned (Some 9%Z) |})
         0 1 "https://api.example/names" "{}" (Some 1000)
         {| cache := ∅; calls := [] |})
  = Returned (Some 9%Z).
Proof.
  destruct (cachedFetch_miss_then_hit
              (fun _ _ => Returned {| ok := true; status := 200; statusText := "OK";
                                      json := Returned (Some 9%Z) |})
              0 1 500 501 "https://api.example/names" "{}" (Some 1000)
              {| ok := true; status := 200; statusText := "OK";
                 json := Returned (Some 9%Z) |} 9%Z
              {| cache := ∅; calls := [] |})
    as [Hfirst _]; [reflexivity | reflexivity | reflexivity | reflexivity | cbn; lia |].
  exact Hfirst.
Defined.

End ReadThroughFacts.

(** ** More on the checkout route *)

Module CheckoutRouteFacts.
Import Eff CreateCheckout CreateCheckoutFacts.

#[local] Arguments Js.includes : simpl never.
#[local] Arguments Js.toLowerCase : simpl never.
#[local] Arguments Js.orElse : simpl never.
#[local] Arguments Js.present : simpl never.
#[local] Arguments Js.truthy : simpl never.

Section Tables.

Variables SUBSCRIPTION_TIERS CREDITS_TIERS : list Subscriptions.ProductTier.

(** X18.  The handler never rejects, and it creates at most one checkout session:
    none without a session user (401), none when one of the two credentials
    is missing (500), none without an e-mail address (400), none when the
    selection fails; and a session it does create is for the session user's
    id and e-mail address. *)
Theorem POST_guarded (svc : Services) (calls : list CheckoutCall) :
  exists resp,
    fst (POST SUBSCRIPTION_TIERS CREDITS_TIERS svc calls) = Returned resp
    /\ (snd (POST SUBSCRIPTION_TIERS CREDITS_TIERS svc calls) = calls
        \/ exists user c,
             snd (POST SUBSCRIPTION_TIERS CREDITS_TIERS svc calls) = (calls ++ [c])%list
             /\ getUser svc = Some user
             /\ Js.present (processEnv svc !! "CREEM_API_URL") = true
             /\ Js.present (processEnv svc !! "CREEM_API_KEY") = true
             /\ Js.present (user_email user) = true
             /\ call_userId c = user_id user
             /\ call_email c = Js.orElse (user_email user) EmptyString)
    /\ (getUser svc = None -> resp = Text 401 "Unauthorized").
Proof.
  unfold POST, tryCatch, bind, lift, ret, createCheckoutSession.
  destruct (getUser svc) as [user |] eqn:Huser.
  2: { eexists. split; [reflexivity |]. split; [left; reflexivity | reflexivity]. }
  destruct (resolveSelection _ _ _) as [[[pid ty] amount] | e].
  2: { eexists. split; [reflexivity |]. split; [left; reflexivity | discriminate]. }
  destruct (Js.present (processEnv svc !! "CREEM_API_URL")) eqn:Hurl; cbn [negb orb].
  2: { eexists. split; [reflexivity |]. split; [left; reflexivity | discriminate]. }
  destruct (Js.present (processEnv svc !! "CREEM_API_KEY")) eqn:Hkey; cbn [negb orb].
  2: { eexists. split; [reflexivity |]. split; [left; reflexivity | discriminate]. }
  destruct (Js.present (user_email user)) eqn:Hmail.
  - rewrite (present_orElse _ Hmail). cbn [negb].
    destruct (checkoutSession svc _) as [url | e];
      (eexists; split; [reflexivity |]; split; [| discriminate]; right;
       exists user; eexists; split; [reflexivity |];
       repeat split; first [reflexivity | assumption]).
  - assert (Hno : Js.truthy (Js.orElse (user_email user) EmptyString) = false).
    { unfold Js.present, Js.orElse in *. destruct (user_email user) as [s |]; [| reflexivity].
      rewrite Hmail. reflexivity. }
    rewrite Hno. cbn [negb].
    eexists. split; [reflexivity |]. split; [left; reflexivity | discriminate].
Qed.

(** X19.  A product id in the body decides the product: whatever [tierId] and
    [productType] say, the selection is that very product id; it is a
    subscription exactly when a subscription tier carries it. *)
Theorem productId_takes_precedence (body : RequestBody) (p : string) :
  productId body = Some p ->
  Js.truthy p = true ->
  exists ty amount,
    resolveSelection SUBSCRIPTION_TIERS CREDITS_TIERS body = Returned (p, ty, amount)
    /\ (ty = subscription <->
        exists tier, In tier SUBSCRIPTION_TIERS /\ Subscriptions.productId tier = p).
Proof.
  intros Hp Htruthy. unfold resolveSelection, resolveFromProductId. rewrite Hp.
  unfold Js.present. rewrite Htruthy. cbn [negb].
  change (default EmptyString (Some p)) with p.
  destruct (find _ SUBSCRIPTION_TIERS) as [sub |] eqn:Hsub.
  - apply find_some in Hsub as [Hin Heq]. apply String.eqb_eq in Heq.
    cbn [res_productId res_type res_credits_amount truthyNumber andb].
    rewrite Heq. eexists _, _. split; [reflexivity |].
    split; [intros _; eauto | reflexivity].
  - assert (Hnosub : ~ exists tier, In tier SUBSCRIPTION_TIERS
                                    /\ Subscriptions.productId tier = p).
    { intros (tier & Hin & Heq). pose proof (find_none _ _ Hsub tier Hin) as Hn.
      cbn in Hn. rewrite Heq, String.eqb_refl in Hn. discriminate Hn. }
    destruct (find _ CREDITS_TIERS) as [credit |] eqn:Hcredit.
    + apply find_some in Hcredit as [Hin Heq]. apply String.eqb_eq in Heq.
      cbn [res_productId res_type res_credits_amount]. rewrite Heq.
      eexists _, _. split; [reflexivity |].
      split; [discriminate | intros H; destruct (Hnosub H)].
    + cbn [res_productId res_type res_credits_amount truthyNumber andb].
      eexists _, _. split; [reflexivity |].
      split; [discriminate | intros H; destruct (Hnosub H)].
Qed.

(** X20.  A [credits_amount] in the body always wins, zero included: whatever
    is selected, that amount is what the selection carries. *)
Theorem credits_amount_override (body : RequestBody) (n : Z)
    (pid : string) (ty : ProductType) (amount : option Z) :
  credits_amount body = Some n ->
  resolveSelection SUBSCRIPTION_TIERS CREDITS_TIERS body = Returned (pid, ty, amount) ->
  amount = Some n.
Proof.
  intros Hn. unfold resolveSelection. cbn zeta. rewrite Hn. cbn [isNullish].
  repeat (rewrite ?andb_false_r;
          match goal with
          | |- context [match ?x with _ => _ end] => destruct x
          end);
    cbn; rewrite ?andb_false_r; intros H; try discriminate H;
    injection H as _ _ <-; reflexivity.
Qed.

(** A hint that mentions credits forces the type: whenever [productType]
    contains [credit] (in any letter case), the session is created with type
    [credits], also for a product that was selected as a subscription. *)
Theorem credit_hint_forces_credits (svc : Services) (user : User) (body : RequestBody)
    (pt pid : string) (ty : ProductType) (amount : option Z)
    (calls : list CheckoutCall) :
  getUser svc = Some user ->
  requestJson svc = Some body ->
  productType body = Some pt ->
  Js.includes (Js.toLowerCase pt) "credit" = true ->
  resolveSelection SUBSCRIPTION_TIERS CREDITS_TIERS body = Returned (pid, ty, amount) ->
  Js.present (processEnv svc !! "CREEM_API_URL") = true ->
  Js.present (processEnv svc !! "CREEM_API_KEY") = true ->
  Js.present (user_email user) = true ->
  map (fun c => (call_productId c, call_type c))
      (snd (POST SUBSCRIPTION_TIERS CREDITS_TIERS svc calls))
  = (map (fun c => (call_productId c, call_type c)) calls ++ [(pid, credits)])%list.
Proof.
  intros Huser Hbody Hpt Hcredit Hsel Hurl Hkey Hmail.
  rewrite (POST_calls_checkout _ _ svc user body _ _ _ calls Huser Hbody Hsel Hurl Hkey Hmail).
  rewrite map_app, Hpt, Hcredit. cbn [map call_productId call_type].
  assert (Htruthy : Js.truthy pt = true).
  { destruct pt; [| reflexivity]. discriminate Hcredit. }
  rewrite Htruthy. reflexivity.
Qed.

End Tables.

(** No session, no checkout. *)
Lemma POST_guarded_witness :
  POST (Subscriptions.SUBSCRIPTION_TIERS Scenarios.processEnv)
       (Subscriptions.CREDITS_TIERS Scenarios.processEnv)
       {| getUser := None; requestJson := Some Scenarios.hobbyBody;
          processEnv := Scenarios.processEnv;
          checkoutSession := fun _ => Returned "https://checkout.example/s1" |} []
  = (Returned (Text 401 "Unauthorized"), []).
Proof.
  destruct (POST_guarded (Subscriptions.SUBSCRIPTION_TIERS Scenarios.processEnv)
              (Subscriptions.CREDITS_TIERS Scenarios.processEnv)
              {| getUser := None; requestJson := Some Scenarios.hobbyBody;
                 processEnv := Scenarios.processEnv;
                 checkoutSession := fun _ => Returned "https://checkout.example/s1" |} [])
    as (resp & Hresp & _ & Hnone).
  specialize (Hnone eq_refl). subst resp.
  destruct (POST _ _ _ _) as [o calls] eqn:Hrun. cbn [fst] in Hresp. subst o.
  vm_compute in Hrun. injection Hrun as <-. reflexivity.
Defined.

(** Every configured tier is found under its own id, whatever product ids
    the environment supplies: a subscription tier resolves to its product as
    a subscription, a credits tier to its product as credits with its
    credit amount. *)
Theorem configured_tier_ids_resolve (env : Subscriptions.ProcessEnv)
    (tier : Subscriptions.ProductTier) :
  (In tier (Subscriptions.SUBSCRIPTION_TIERS env) ->
   resolveFromTierId (Subscriptions.SUBSCRIPTION_TIERS env)
     (Subscriptions.CREDITS_TIERS env) (Some (Subscriptions.id tier))
   = Some {| res_productId := Subscriptions.productId tier;
             res_type := subscription;
             res_credits_amount := None |})
  /\ (In tier (Subscriptions.CREDITS_TIERS env) ->
      resolveFromTierId (Subscriptions.SUBSCRIPTION_TIERS env)
        (Subscriptions.CREDITS_TIERS env) (Some (Subscriptions.id tier))
      = Some {| res_productId := Subscriptions.productId tier;
                res_type := credits;
                res_credits_amount := Subscriptions.creditAmount tier |}).
Proof.
  split; intros Hin; cbn in Hin;
    destruct Hin as [<- | [<- | [<- | []]]]; reflexivity.
Qed.

Lemma configured_tier_ids_resolve_witness :
  resolveFromTierId (Subscriptions.SUBSCRIPTION_TIERS Scenarios.processEnv)
    (Subscriptions.CREDITS_TIERS Scenarios.processEnv) (Some "tier-9-credits")
  = Some {| res_productId := "prod_premium_credits";
            res_type := credits;
            res_credits_amount := Some 9%Z |}.
Proof.
  destruct (configured_tier_ids_resolve Scenarios.processEnv
              (nth 2 (Subscriptions.CREDITS_TIERS Scenarios.processEnv)
                   (Subscriptions.mkTier EmptyString EmptyString EmptyString
                      EmptyString EmptyString None [] false EmptyString)))
    as [_ Hcredits].
  assert (Hin : In (nth 2 (Subscriptions.CREDITS_TIERS Scenarios.processEnv)
                      (Subscriptions.mkTier EmptyString EmptyString EmptyString
                         EmptyString EmptyString None [] false EmptyString))
                   (Subscriptions.CREDITS_TIERS Scenarios.processEnv)).
  { right. right. left. reflexivity. }
  specialize (Hcredits Hin). vm_compute in Hcredits |- *. exact Hcredits.
Defined.

Lemma toLowerCase_truthy (s : string) :
  Js.truthy (Js.toLowerCase s) = true -> Js.truthy s = true.
Proof. destruct s; [discriminate | reflexivity]. Qed.

(** X21.  A hint that reads [subscription] in any letter case, on a request that
    names no product and no configured tier, selects the first subscription
    tier (Starter) as a subscription. *)
Theorem subscription_hint_falls_back (svc : Services) (user : User)
    (body : RequestBody) (pt : string) (calls : list CheckoutCall) :
  getUser svc = Some user ->
  requestJson svc = Some body ->
  productType body = Some pt ->
  Js.toLowerCase pt = "subscription" ->
  Js.present (productId body) = false ->
  (forall t, tierId body = Some t ->
     forall tier,
       In tier (Subscriptions.SUBSCRIPTION_TIERS (processEnv svc))
       \/ In tier (Subscriptions.CREDITS_TIERS (processEnv svc)) ->
       Subscriptions.id tier <> t) ->
  Js.present (processEnv svc !! "CREEM_API_URL") = true ->
  Js.present (processEnv svc !! "CREEM_API_KEY") = true ->
  Js.present (user_email user) = true ->
  exists first,
    hd_error (Subscriptions.SUBSCRIPTION_TIERS (processEnv svc)) = Some first
    /\ Subscriptions.name first = "Starter"
    /\ snd (POST_deployed svc calls)
       = (calls ++
           [ {| call_productId := Subscriptions.productId first;
                call_email := Js.orElse (user_email user) EmptyString;
                call_userId := user_id user;
                call_type := subscription;
                call_credits_amount := credits_amount body;
                call_discountCode := discountCode body |} ])%list.
Proof.
  intros Huser Hbody Hpt Hlower Hpid Htier Hurl Hkey Hmail.
  assert (Htruthy : Js.truthy pt = true).
  { apply toLowerCase_truthy. rewrite Hlower. reflexivity. }
  assert (Hsel : resolveSelection (Subscriptions.SUBSCRIPTION_TIERS (processEnv svc))
                   (Subscriptions.CREDITS_TIERS (processEnv svc)) body
                 = Returned (Js.orElse (processEnv svc !! "CREEM_STARTER_PRODUCT_ID")
                               "prod_starter_monthly",
                             subscription, credits_amount body)).
  { unfold resolveSelection.
    rewrite (resolveFromProductId_absent _ _ _ Hpid).
    assert (Hnone : resolveFromTierId (Subscriptions.SUBSCRIPTION_TIERS (processEnv svc))
                      (Subscriptions.CREDITS_TIERS (processEnv svc)) (tierId body) = None).
    { destruct (tierId body) as [t |] eqn:Ht.
      - apply resolveFromTierId_unknown. intros tier Hin. exact (Htier t eq_refl tier Hin).
      - reflexivity. }
    rewrite Hnone, Hpt.
    assert (Hor : Js.orElse (Some pt) EmptyString = pt).
    { unfold Js.orElse. rewrite Htruthy. reflexivity. }
    rewrite Hor, Hlower. reflexivity. }
  eexists. split; [reflexivity |]. split; [reflexivity |].
  unfold POST_deployed.
  rewrite (POST_calls_checkout _ _ svc user body _ _ _ calls Huser Hbody Hsel Hurl Hkey Hmail).
  rewrite Hpt, Hlower. rewrite andb_false_r. reflexivity.
Qed.

Lemma subscription_hint_falls_back_witness :
  map (fun c => (call_productId c, call_type c))
      (snd (POST_deployed
              (Scenarios.checkout
                 {| productId := None; tierId := None;
                    productType := Some "Subscription";
                    credits_amount := None; quantity := None;
                    discountCode := None |}) []))
  = [("prod_starter_monthly", subscription)].
Proof.
  destruct (subscription_hint_falls_back
              (Scenarios.checkout
                 {| productId := None; tierId := None;
                    productType := Some "Subscription";
                    credits_amount := None; quantity := None;
                    discountCode := None |})
              Scenarios.shopper
              {| productId := None; tierId := None;
                 productType := Some "Subscription";
                 credits_amount := None; quantity := None;
                 discountCode := None |}
              "Subscription" [])
    as (first & Hhd & _ & Hcalls);
    [ reflexivity | reflexivity | reflexivity | reflexivity | reflexivity
    | intros t Ht; discriminate Ht
    | vm_compute; reflexivity | vm_compute; reflexivity | reflexivity | ].
  rewrite Hcalls. injection Hhd as <-. reflexivity.
Defined.

Lemma productId_takes_precedence_witness :
  exists ty amount,
    resolveSelection (Subscriptions.SUBSCRIPTION_TIERS Scenarios.processEnv)
      (Subscriptions.CREDITS_TIERS Scenarios.processEnv)
      {| productId := Some "prod_business_monthly"; tierId := Some "tier-3-credits";
         productType := Some "credits"; credits_amount := None; quantity := None;
         discountCode := None |}
    = Returned ("prod_business_monthly", ty, amount).
Proof.
  destruct (productId_takes_precedence
              (Subscriptions.SUBSCRIPTION_TIERS Scenarios.processEnv)
              (Subscriptions.CREDITS_TIERS Scenarios.processEnv)
              {| productId := Some "prod_business_monthly"; tierId := Some "tier-3-credits";
                 productType := Some "credits"; credits_amount := None; quantity := None;
                 discountCode := None |}
              "prod_business_monthly")
    as (ty & amount & Hsel & _); [reflexivity | reflexivity |].
  exists ty, amount. exact Hsel.
Defined.

Lemma credits_amount_override_witness :
  match resolveSelection (Subscriptions.SUBSCRIPTION_TIERS Scenarios.processEnv)
          (Subscriptions.CREDITS_TIERS Scenarios.processEnv)
          {| productId := None; tierId := Some "tier-6-credits";
             productType := None; credits_amount := Some 0%Z; quantity := None;
             discountCode := None |} with
  | Returned (_, _, amount) => amount = Some 0%Z
  | Thrown _ => False
  end.
Proof.
  destruct (resolveSelection _ _ _) as [[[pid ty] amount] | e] eqn:Hsel.
  - refine (credits_amount_override _ _ _ 0 pid ty amount _ Hsel). reflexivity.
  - vm_compute in Hsel. discriminate Hsel.
Defined.

Lemma credit_hint_forces_credits_witness :
  map (fun c => (call_productId c, call_type c))
      (snd (POST (Subscriptions.SUBSCRIPTION_TIERS Scenarios.processEnv)
                 (Subscriptions.CREDITS_TIERS Scenarios.processEnv)
                 (Scenarios.checkout
                    {| productId := Some "prod_business_monthly"; tierId := None;
                       productType := Some "Name-Credits"; credits_amount := None;
                       quantity := None; discountCode := None |}) []))
  = [("prod_business_monthly", credits)].
Proof.
  rewrite (credit_hint_forces_credits
             (Subscriptions.SUBSCRIPTION_TIERS Scenarios.processEnv)
             (Subscriptions.CREDITS_TIERS Scenarios.processEnv)
             (Scenarios.checkout
                {| productId := Some "prod_business_monthly"; tierId := None;
                   productType := Some "Name-Credits"; credits_amount := None;
                   quantity := None; discountCode := None |})
             Scenarios.shopper
             {| productId := Some "prod_business_monthly"; tierId := None;
                productType := Some "Name-Credits"; credits_amount := None;
                quantity := None; discountCode := None |}
             "Name-Credits" "prod_business_monthly" subscription None []);
    try reflexivity; vm_compute; reflexivity.
Defined.

End CheckoutRouteFacts.

(** ** More on the PDF route *)

Module CustomersMoreFacts.
Import GeneratePdf.

Lemma filter_withCredits_other (id id' : string) (n : Z) (at_ : string)
    (rows : list Customer) :
  id' <> id ->
  List.filter (fun c => String.eqb (user_id c) id') (withCredits id n at_ rows)
  = List.filter (fun c => String.eqb (user_id c) id') rows.
Proof.
  intros Hne. unfold withCredits. induction rows as [| c rows IH]; [reflexivity |].
  cbn [map List.filter]. destruct (String.eqb_spec (user_id c) id) as [Heq | Hdiff].
  - cbn [user_id]. destruct (String.eqb_spec (user_id c) id') as [Heq' | _];
      [congruence | exact IH].
  - destruct (String.eqb (user_id c) id'); [f_equal |]; exact IH.
Qed.

Lemma withCredits_nonnegative (id : string) (n : Z) (at_ : string)
    (rows : list Customer) :
  (0 <= n)%Z ->
  List.Forall (fun c => (0 <= credits c)%Z) rows ->
  List.Forall (fun c => (0 <= credits c)%Z) (withCredits id n at_ rows).
Proof.
  intros Hn Hall. unfold withCredits. induction Hall as [| c rows Hc Hall IH];
    [constructor |].
  cbn [map]. constructor; [| exact IH].
  destruct (String.eqb (user_id c) id); [exact Hn | exact Hc].
Qed.

End CustomersMoreFacts.

Module GeneratePdfMoreFacts.
Import Eff GeneratePdf GeneratePdfFacts CustomersFacts CustomersMoreFacts
  GeneratePdfSequences.

(** X22.  The handler never rejects: every run settles with a response, and its
    status is one of 200, 400, 401, 403, 500 and 503. *)
Theorem run_always_responds (svc : Services) (d : Db) (loaded : bool) :
  exists resp,
    fst (run svc d loaded) = Returned resp
    /\ In (status resp) [200; 400; 401; 403; 500; 503]%Z.
Proof.
  run_analysis svc d loaded; cbn [fst];
    try (eexists; split; [reflexivity | cbn; tauto]).
  match goal with
  | Hresp : fst _ = Returned ?r, Hst : In (status ?r) _ |- _ =>
      exists r; split; [exact Hresp | cbn in Hst |- *; tauto]
  end.
Qed.

(** X23.  No run writes a negative balance: the balance an update carries is never
    below zero, and if all balances were non-negative before the request
    they are afterwards. *)
Theorem balances_stay_nonnegative (svc : Services) (d : Db) (loaded : bool) :
  (forall user newCredits,
     In (CustomersUpdate user newCredits) (trace (snd (run svc d loaded))) ->
     (0 <= newCredits)%Z)
  /\ (List.Forall (fun c => (0 <= credits c)%Z) (customers d) ->
      List.Forall (fun c => (0 <= credits c)%Z)
                  (customers (db (snd (run svc d loaded))))).
Proof.
  run_analysis svc d loaded; cbn [snd trace db customers].
  7: { match goal with
       | Hall : forallb isConsoleError _ = true, Hdb : db _ = d |- _ =>
           split; [| rewrite Hdb; tauto];
           intros u n Hin; pose proof (console_only _ _ Hall Hin) as Hc;
           discriminate Hc
       end. }
  all: split;
    [ intros u n Hin; in_trace Hin; injection Hin as _ <-; lia
    | first [tauto | apply withCredits_nonnegative; lia] ].
Qed.

Lemma balances_stay_nonnegative_witness :
  List.Forall (fun c => (0 <= credits c)%Z)
    (customers (db (snd (run (Scenarios.pdf (Returned "%PDF-1.7") None None)
                             (Scenarios.dbWith 1) false)))).
Proof.
  destruct (balances_stay_nonnegative (Scenarios.pdf (Returned "%PDF-1.7") None None)
              (Scenarios.dbWith 1) false) as [_ Hkeep].
  apply Hkeep. repeat constructor. cbn. lia.
Defined.

(** X24.  A request only ever touches the rows of the user who makes it: the rows
    of any other user id are the same after the run. *)
Theorem other_customers_untouched (svc : Services) (d : Db) (loaded : bool)
    (id : string) :
  (forall user authError, getUser svc = (Some user, authError) -> uid user <> id) ->
  List.filter (fun c => String.eqb (user_id c) id) (customers (db (snd (run svc d loaded))))
  = List.filter (fun c => String.eqb (user_id c) id) (customers d).
Proof.
  intros Hother.
  run_analysis svc d loaded; cbn [snd db customers]; try reflexivity.
  3: { match goal with
       | Hdb : db _ = d |- _ => rewrite Hdb; reflexivity
       end. }
  all: apply filter_withCredits_other;
    match goal with
    | Hc : AtCreditCheck _ _ _ ?u _ _ _ |- _ =>
        destruct Hc as (Hu & _); intros Heq; exact (Hother u None Hu (eq_sym Heq))
    end.
Qed.

Lemma other_customers_untouched_witness :
  List.filter (fun c => String.eqb (user_id c) "user-2")
    (customers (db (snd (run (Scenarios.pdf (Returned "%PDF-1.7") None None)
                             {| customers := [Scenarios.customerWith 2;
                                              mkCustomer "cust-2" "user-2" 5 "t"];
                                credits_history := [] |} false))))
  = [mkCustomer "cust-2" "user-2" 5 "t"].
Proof.
  rewrite (other_customers_untouched (Scenarios.pdf (Returned "%PDF-1.7") None None)
             {| customers := [Scenarios.customerWith 2;
                              mkCustomer "cust-2" "user-2" 5 "t"];
                credits_history := [] |} false "user-2").
  - reflexivity.
  - intros user authError Hu. injection Hu as <- _. discriminate.
Defined.

(** X25.  Whenever a ledger row is written it is an honest record of the charge:
    amount 1 of type [subtract], [credits_after] one below [credits_before],
    never negative, and equal to the balance carried by the update of the
    same run. *)
Theorem ledger_row_matches_update (svc : Services) (d : Db) (loaded : bool)
    (row : HistoryRow) :
  In (HistoryInsert row) (trace (snd (run svc d loaded))) ->
  amount row = 1%Z
  /\ type row = "subtract"
  /\ (meta_credits_before row - amount row = meta_credits_after row)%Z
  /\ (0 <= meta_credits_after row)%Z
  /\ exists user,
       In (CustomersUpdate user (meta_credits_after row))
          (trace (snd (run svc d loaded))).
Proof.
  run_analysis svc d loaded; cbn [snd trace]; intros Hin.
  7: { match goal with
       | Hall : forallb isConsoleError _ = true |- _ =>
           pose proof (console_only _ _ Hall Hin) as Hc; discriminate Hc
       end. }
  all: in_trace Hin; injection Hin as <-; unfold chargeRow; cbn;
    repeat split; try lia; eexists; right; left; reflexivity.
Qed.

Lemma ledger_row_matches_update_witness :
  (meta_credits_before
     (chargeRow (Scenarios.pdf (Returned "%PDF-1.7") None None)
                Scenarios.liName Scenarios.ada (Scenarios.customerWith 4))
   - amount
       (chargeRow (Scenarios.pdf (Returned "%PDF-1.7") None None)
                  Scenarios.liName Scenarios.ada (Scenarios.customerWith 4))
   = meta_credits_after
       (chargeRow (Scenarios.pdf (Returned "%PDF-1.7") None None)
                  Scenarios.liName Scenarios.ada (Scenarios.customerWith 4)))%Z.
Proof.
  destruct (ledger_row_matches_update
              (Scenarios.pdf (Returned "%PDF-1.7") None None) (Scenarios.dbWith 4) false
              (chargeRow (Scenarios.pdf (Returned "%PDF-1.7") None None)
                         Scenarios.liName Scenarios.ada (Scenarios.customerWith 4)))
    as (_ & _ & Hdiff & _).
  - right. right. left. reflexivity.
  - exact Hdiff.
Defined.

(** Take apart every call of the PDF utility's collaborators and every
    caught value whose message is read. *)
Ltac browser_cases :=
  repeat (cbn;
          match goal with
          | |- context [if puppeteerLoaded ?w then _ else _] => destruct (puppeteerLoaded w)
          | |- context [match importPuppeteer ?s with _ => _ end] =>
              destruct (importPuppeteer s) as [[] | ?]
          | |- context [match launch ?s with _ => _ end] =>
              destruct (launch s) as [[] | ?]
          | |- context [match printPage ?s ?h with _ => _ end] =>
              destruct (printPage s h)
          | |- context [match closeBrowser ?s with _ => _ end] =>
              destruct (closeBrowser s) as [[] | ?]
          | |- context [match closeBrowserAfterFailure ?s with _ => _ end] =>
              destruct (closeBrowserAfterFailure s) as [[] | ?]
          | |- context [match ?e with ErrorWith _ => _ | NonError _ => _ end] =>
              is_var e; destruct e
          | |- context [match ?x with inl _ => _ | inr _ => _ end] =>
              is_var x; destruct x
          end).

(** X26.  [generatePDF] only ever throws [Error] objects, of two kinds: one
    whose message starts with [PDF generation failed: ], and the one with
    the message [Unknown PDF generation error], which is what becomes of a
    value that is no [Error] (thrown by the cleanup [browser.close()] of the
    [catch] block, say).  A buffer it returns is the one the browser
    printed.  The database is not touched. *)
Theorem generatePDF_failure_wrapped (svc : Services) (html : string) (w : World) :
  match fst (generatePDF svc html w) with
  | Returned pdfBuffer => renderPdf svc html = Returned pdfBuffer
  | Thrown (ErrorWith m) =>
      Js.startsWith m "PDF generation failed: " = true
      \/ m = "Unknown PDF generation error"
  | Thrown (NonError _) => False
  end
  /\ db (snd (generatePDF svc html w)) = db w.
Proof.
  unfold generatePDF, getPuppeteer, tryCatch, bind, lift, throw, ret, emit,
    modify, renderPdf, browserLaunched, messageText.
  browser_cases.
  all: cbn; split;
    first [ reflexivity
          | left; apply CacheKeyFacts.startsWith_app
          | right; reflexivity ].
Qed.

(** The second kind does occur: the page cannot be printed, and the cleanup
    [browser.close()] rejects with a string. *)
Example generatePDF_unknown_error :
  fst (generatePDF
         {| getUser := (Some (mkUser "user-1"), None);
            requestJson := Returned {| nameData := None; userData := None |};
            importPuppeteer := Returned tt;
            generateCertificateHTML := fun _ _ => "<html>certificate</html>";
            launch := Returned tt;
            printPage := fun _ => Thrown (ErrorWith "Navigation timeout");
            closeBrowser := Returned tt;
            closeBrowserAfterFailure := Thrown (NonError (inl "undefined"));
            selectError := None;
            updateError := None;
            insertError := None;
            nowISO := "2025-01-01T00:00:00.000Z";
            encodeURIComponent := Scenarios.encodeURIComponent |}
         "<html>certificate</html>"
         {| db := Scenarios.dbWith 1; puppeteerLoaded := false; trace := [] |})
  = Thrown (ErrorWith "Unknown PDF generation error").
Proof. reflexivity. Qed.

(** When everything that fails fails with an [Error], so does [generatePDF],
    with the prefixed message. *)
Lemma generatePDF_wraps_errors (svc : Services) (html : string) (w : World) (e : Exn) :
  (forall x, importPuppeteer svc <> Thrown (NonError x)) ->
  (forall x, renderPdf svc html <> Thrown (NonError x)) ->
  (forall x, closeBrowserAfterFailure svc <> Thrown (NonError x)) ->
  fst (generatePDF svc html w) = Thrown e ->
  exists m, e = ErrorWith ("PDF generation failed: " ++ m).
Proof.
  unfold generatePDF, getPuppeteer, tryCatch, bind, lift, throw, ret, emit,
    modify, browserLaunched, messageText.
  intros Himport Hrender Hclose.
  destruct (puppeteerLoaded w); [| destruct (importPuppeteer svc) as [[] | [m | x]]];
    cbn;
    try (exfalso; eapply Himport; reflexivity);
    try (intros [= <-]; eexists; reflexivity).
  all: destruct (renderPdf svc html) as [buf | [m | x]]; cbn;
    try (exfalso; eapply Hrender; reflexivity);
    try discriminate.
  all: destruct (launch svc) as [[] | le]; cbn;
    try (destruct (closeBrowserAfterFailure svc) as [[] | [m' | x']]; cbn);
    try (exfalso; eapply Hclose; reflexivity);
    intros [= <-]; eexists; reflexivity.
Qed.

(** While a customer cannot pay, asking again changes nothing: every one of
    [n] requests in a row is answered 403. *)
Lemma statuses_denied (svc : Services) (n : nat) (d : Db) (loaded : bool)
    (user : User) (nd : NameData) (ud : UserData) (customer : Customer) :
  AtCreditCheck svc d loaded user nd ud customer ->
  (credits customer < 1)%Z ->
  statuses svc n d loaded = repeat (Some 403%Z) n.
Proof.
  revert loaded. induction n as [| n IH]; intros loaded Hcheck Hlow; [reflexivity |].
  cbn [statuses repeat]. rewrite (run_denied _ _ _ _ _ _ _ Hcheck Hlow).
  cbn [statusOf status json db puppeteerLoaded]. f_equal.
  apply IH; [| exact Hlow].
  destruct Hcheck as (Hu & Hb & _ & Hs & Hf). repeat split; auto.
Qed.

(** X27.  A balance of [b] credits buys exactly [b] certificates.  With a session,
    a complete body, a renderer that loads and renders, a database that
    accepts the balance updates, and a file name that [encodeURIComponent]
    accepts, [b + 1 + k] requests made one after the other are answered 200
    for the first [b] and 403 for all the rest. *)
Theorem balance_buys_exactly (svc : Services) (b k : nat) (d : Db) (loaded : bool)
    (user : User) (nd : NameData) (ud : UserData) (customer : Customer)
    (pdfBuffer encoded : string) :
  AtCreditCheck svc d loaded user nd ud customer ->
  credits customer = Z.of_nat b ->
  renderPdf svc (generateCertificateHTML svc nd ud) = Returned pdfBuffer ->
  updateError svc = None ->
  encodeURIComponent svc (chinese nd ++ "_certificate.pdf") = Some encoded ->
  statuses svc (b + S k) d loaded
  = (repeat (Some 200%Z) b ++ repeat (Some 403%Z) (S k))%list.
Proof.
  intros Hcheck Hb Hrender Hupdate Hencoded.
  revert d loaded customer Hcheck Hb.
  induction b as [| b IH]; intros d loaded customer Hcheck Hb.
  - apply (statuses_denied svc (S k) d loaded user nd ud customer Hcheck). lia.
  - assert (Hge : (1 <= credits customer)%Z) by lia.
    cbn [Nat.add statuses repeat app].
    rewrite (run_charged _ _ _ _ _ _ _ Hcheck pdfBuffer encoded Hge Hrender Hupdate
               Hencoded).
    cbn [statusOf status pdfAttachment db puppeteerLoaded]. f_equal.
    apply (IH _ _ {| customer_id := customer_id customer;
                     user_id := user_id customer;
                     credits := credits customer - 1;
                     updated_at := nowISO svc |}).
    + destruct Hcheck as (Hu & Hbody & _ & Hs & Hf).
      repeat split; auto. cbn [customers].
      rewrite filter_withCredits, Hf. reflexivity.
    + cbn [credits]. lia.
Qed.

Lemma balance_buys_exactly_witness :
  statuses (Scenarios.pdf (Returned "%PDF-1.7") None None) 4 (Scenarios.dbWith 2) false
  = [Some 200%Z; Some 200%Z; Some 403%Z; Some 403%Z].
Proof.
  refine (balance_buys_exactly (Scenarios.pdf (Returned "%PDF-1.7") None None)
            2 1 (Scenarios.dbWith 2) false
            (mkUser "user-1") Scenarios.liName Scenarios.ada
            (Scenarios.customerWith 2) "%PDF-1.7" "Li%20Ming_certificate.pdf" _ _ _ _ _).
  - repeat split; try reflexivity. right. reflexivity.
  - reflexivity.
  - reflexivity.
  - reflexivity.
  - reflexivity.
Defined.

End GeneratePdfMoreFacts.

(** ** The generation-history route *)

Module GenerationHistoryFacts.
Import Eff MemoryCache CacheUtilities MemoryCacheFacts GenerationHistory.

#[local] Arguments String.append : simpl nomatch.

Lemma length_append (a s : string) :
  String.length (a ++ s) = (String.length a + String.length s)%nat.
Proof. induction a as [| c a IH]; [reflexivity | cbn; f_equal; exact IH]. Qed.

Lemma append_cancel_r (a b s : string) : a ++ s = b ++ s -> a = b.
Proof.
  revert b. induction a as [| c a IH]; intros [| c' b] H.
  - reflexivity.
  - exfalso. apply (f_equal String.length) in H.
    cbn in H. rewrite length_append in H. lia.
  - exfalso. apply (f_equal String.length) in H.
    cbn in H. rewrite length_append in H. lia.
  - cbn in H. injection H as <- H. f_equal. exact (IH b H).
Qed.

(** Two users never share a [UserDataCache] key for the same data type. *)
Lemma UserDataCache_key_per_user (u u' dataType : string) :
  UserDataCache.generateKey u dataType = UserDataCache.generateKey u' dataType ->
  u = u'.
Proof.
  unfold UserDataCache.generateKey. intros H.
  apply CacheKeyFacts.append_cancel in H.
  exact (append_cancel_r u u' (":" ++ dataType) H).
Qed.

(** What [GET] answers depends on the cache only through the entry of the
    user who asks. *)
Lemma GET_reads_own_entry (svc : Services) (now later : Z) (w w' : World) :
  (forall user authError, getUser svc = (Some user, authError) ->
     cache w !! UserDataCache.generateKey user "generation_history"
     = cache w' !! UserDataCache.generateKey user "generation_history") ->
  fst (GET svc now later w) = fst (GET svc now later w').
Proof.
  intros Hsame. unfold GET, tryCatch.
  destruct (getUser svc) as [[user |] [authError |]] eqn:Hu; try reflexivity.
  specialize (Hsame user None eq_refl).
  unfold UserDataCache.get, get. rewrite Hsame.
  destruct (cache w' !! _) as [e |]; [destruct (expired now e) |];
    cbn; destruct (selectLogs svc user) as [queried [err |]]; reflexivity.
Qed.

(** X28.  A history that was just computed is served from the cache for the next
    five minutes: a second request of the same user within that time gets
    the first response again and the database is not asked, whatever it
    would answer by then. *)
Theorem history_served_from_cache (svc svc' : Services) (user : string)
    (queried : option (list Log)) (now later now2 later2 : Z) (w : World) :
  getUser svc = (Some user, None) ->
  getUser svc' = (Some user, None) ->
  fst (UserDataCache.get now user "generation_history" (cache w)) = None ->
  selectLogs svc user = (queried, None) ->
  now2 - later <= CACHE_TTL.SHORT ->
  fst (GET svc now later w) = Returned (JsonData (buildResponse queried))
  /\ queries (snd (GET svc now later w)) = (queries w ++ [user])%list
  /\ GET svc' now2 later2 (snd (GET svc now later w))
     = (Returned (JsonData (buildResponse queried)), snd (GET svc now later w)).
Proof.
  intros Hu Hu' Hmiss Hlogs Hfresh.
  assert (Hfirst : GET svc now later w
                   = (Returned (JsonData (buildResponse queried)),
                      {| cache := UserDataCache.set later user "generation_history"
                                    (buildResponse queried)
                                    (snd (UserDataCache.get now user "generation_history"
                                            (cache w)));
                         queries := (queries w ++ [user])%list;
                         errors := errors w |})).
  { unfold GET, tryCatch. rewrite Hu.
    destruct (UserDataCache.get now user "generation_history" (cache w))
      as [cached cache1].
    cbn [fst] in Hmiss. subst cached. rewrite Hlogs. reflexivity. }
  rewrite Hfirst. cbn [fst snd queries].
  split; [reflexivity |]. split; [reflexivity |].
  unfold GET, tryCatch. rewrite Hu'. cbn [cache queries errors].
  unfold UserDataCache.get, UserDataCache.set.
  rewrite (get_set_fresh later now2 _ _ _ _ Hfresh). reflexivity.
Qed.

(** X29.  One user's request never changes what another user is answered: the
    response to [svc'] is the same whether or not a request of a different
    user (or of nobody) was handled just before. *)
Theorem history_not_shared (svc svc' : Services) (now later now2 later2 : Z)
    (w : World) :
  (forall user authError user' authError',
     getUser svc = (Some user, authError) ->
     getUser svc' = (Some user', authError') ->
     user <> user') ->
  fst (GET svc' now2 later2 (snd (GET svc now later w)))
  = fst (GET svc' now2 later2 w).
Proof.
  intros Hdiff. apply GET_reads_own_entry. intros user' authError' Hu'.
  unfold GET, tryCatch.
  destruct (getUser svc) as [[user |] [authError |]] eqn:Hu; try reflexivity.
  assert (Hkey : UserDataCache.generateKey user "generation_history"
                 <> UserDataCache.generateKey user' "generation_history").
  { intros Heq. apply UserDataCache_key_per_user in Heq.
    exact (Hdiff user None user' authError' eq_refl Hu' Heq). }
  unfold UserDataCache.get, UserDataCache.set, get, set.
  destruct (cache w !! UserDataCache.generateKey user "generation_history")
    as [e |] eqn:He.
  - destruct (expired now e); cbn [snd cache].
    + destruct (selectLogs svc user) as [queried [err |]]; cbn [snd cache];
        rewrite ?lookup_insert_ne by exact Hkey;
        rewrite lookup_delete_ne by exact Hkey; reflexivity.
    + reflexivity.
  - destruct (selectLogs svc user) as [queried [err |]]; cbn [snd cache];
      rewrite ?lookup_insert_ne by exact Hkey; reflexivity.
Qed.

(** X30.  A failed query is answered 500 and leaves nothing in the cache, so the
    next request asks the database again. *)
Theorem history_error_not_cached (svc : Services) (user err : string)
    (queried : option (list Log)) (now later : Z) (w : World) :
  getUser svc = (Some user, None) ->
  fst (UserDataCache.get now user "generation_history" (cache w)) = None ->
  selectLogs svc user = (queried, Some err) ->
  fst (GET svc now later w)
  = Returned (JsonError 500 "Failed to fetch generation history")
  /\ cache (snd (GET svc now later w))
       !! UserDataCache.generateKey user "generation_history" = None
  /\ errors (snd (GET svc now later w)) = (errors w ++ ["Database error:"])%list.
Proof.
  intros Hu Hmiss Hlogs.
  pose proof (ReadThroughFacts.get_miss_absent _ _ _ Hmiss) as Habsent.
  unfold GET, tryCatch. rewrite Hu.
  unfold UserDataCache.get in *.
  destruct (get now (UserDataCache.generateKey user "generation_history") (cache w))
    as [cached cache1].
  cbn [fst snd] in Hmiss, Habsent. subst cached. rewrite Hlogs.
  cbn [fst snd cache errors]. repeat split. exact Habsent.
Qed.

(** Rows whose counters are [null] count as zero, so the totals never depend
    on them; an empty or missing result set gives all-zero statistics and no
    division. *)
Theorem history_stats_of_nothing (queried : option (list Log)) :
  queried = None \/ queried = Some [] ->
  buildResponse queried
  = {| logs := [];
       stats := {| total_generations := 0; total_credits_used := 0;
                   total_names_generated := 0; avg_per_session := Int 0 |} |}.
Proof. intros [-> | ->]; reflexivity. Qed.

Lemma history_served_from_cache_witness :
  GET {| getUser := (Some "user-1", None);
         selectLogs := fun _ => (Some [mkLog ErrorHandler.VNull (Some 1%Z) (Some 6%Z)
                                          ErrorHandler.VUndefined ErrorHandler.VUndefined;
                                       mkLog ErrorHandler.VNull None None
                                          ErrorHandler.VUndefined ErrorHandler.VUndefined],
                                 None) |}
      200000 200001
      (snd (GET {| getUser := (Some "user-1", None);
                   selectLogs := fun _ => (Some [], None) |}
                0 1 {| cache := ∅; queries := []; errors := [] |}))
  = (Returned (JsonData (buildResponse (Some []))),
     snd (GET {| getUser := (Some "user-1", None);
                 selectLogs := fun _ => (Some [], None) |}
              0 1 {| cache := ∅; queries := []; errors := [] |})).
Proof.
  destruct (history_served_from_cache
              {| getUser := (Some "user-1", None);
                 selectLogs := fun _ => (Some [], None) |}
              {| getUser := (Some "user-1", None);
                 selectLogs := fun _ => (Some [mkLog ErrorHandler.VNull (Some 1%Z) (Some 6%Z)
                                                  ErrorHandler.VUndefined ErrorHandler.VUndefined;
                                               mkLog ErrorHandler.VNull None None
                                                  ErrorHandler.VUndefined ErrorHandler.VUndefined],
                                         None) |}
              "user-1" (Some []) 0 1 200000 200001
              {| cache := ∅; queries := []; errors := [] |})
    as (_ & _ & Hsecond);
    [reflexivity | reflexivity | reflexivity | reflexivity | vm_compute; discriminate |].
  exact Hsecond.
Defined.

Lemma history_not_shared_witness :
  fst (GET {| getUser := (Some "user-2", None);
              selectLogs := fun _ => (None, None) |}
           5 6
           (snd (GET {| getUser := (Some "user-1", None);
                        selectLogs := fun _ => (Some [], None) |}
                     0 1 {| cache := ∅; queries := []; errors := [] |})))
  = fst (GET {| getUser := (Some "user-2", None);
                selectLogs := fun _ => (None, None) |}
             5 6 {| cache := ∅; queries := []; errors := [] |}).
Proof.
  apply history_not_shared.
  intros user authError user' authError' Hu Hu'.
  injection Hu as <- _. injection Hu' as <- _. discriminate.
Defined.

Lemma history_error_not_cached_witness :
  fst (GET {| getUser := (Some "user-1", None);
              selectLogs := fun _ => (None, Some "connection refused") |}
           0 1 {| cache := ∅; queries := []; errors := [] |})
  = Returned (JsonError 500 "Failed to fetch generation history").
Proof.
  destruct (history_error_not_cached
              {| getUser := (Some "user-1", None);
                 selectLogs := fun _ => (None, Some "connection refused") |}
              "user-1" "connection refused" None 0 1
              {| cache := ∅; queries := []; errors := [] |})
    as (Hresp & _); [reflexivity | reflexivity | reflexivity | exact Hresp].
Defined.

End GenerationHistoryFacts.
